(** * Booking and reservation consistency of the cinema ticketing backend

    A shallow embedding of the Mongoose models of the repository
    (models/Room.js, models/Schedule.js, models/Ticket.js,
    models/Payment.js, the promotion model and the movie schema of
    models/Combo.js) together with the
    properties of the booking engine that are checked against it.

    Conventions of the embedding.
    - A MongoDB collection is the list of its documents, in insertion
      order; [findOne] returns the first match.
    - An [ObjectId] is a natural number; a JavaScript [Date] is its number
      of milliseconds since the epoch, an integer.
    - A JavaScript [Number] that holds an amount of money is an exact
      rational ([Q]): the sums, products and quotients of the pricing
      code are read as those of the numbers.  They are those of the
      doubles of the program wherever every intermediate result is an
      integer below 2^53, as it is for the whole amounts of the
      scenarios.  Counters, capacities and loop indices are integers.
    - A save of a document runs, in Mongoose's order: the schema
      validators, the [pre('save')] hooks in the order they are
      registered, the write (where the unique indexes the database
      holds are enforced), and the [post('save')] hooks.
    - The database holds the indexes it accepts.  Two schemas declare a
      unique partial index whose [partialFilterExpression] is
      [status: { $ne: 'cancelled' }] (models/Ticket.js 141-150 and
      models/Schedule.js 78-87).  MongoDB does not accept [$ne] in the
      filter of a partial index: the two indexes are never built, and
      no write is refused on their account.
    - [Date.now()] is read once per operation and passed as [now]. *)

From Stdlib Require Import ZArith QArith Qminmax List String Ascii Bool Lia.
From Stdlib Require Import DecimalString DecimalZ DecimalPos Sorted.
Import ListNotations.

Open Scope string_scope.
Open Scope Z_scope.

(** ** JavaScript values and helpers *)

Definition ObjectId := nat.
Definition Date := Z.
Bind Scope nat_scope with ObjectId.

Module JS.

(** A string is a text of ASCII characters: [toUpperCase] and [trim] are
    those of JavaScript on such a text ([ascii_text]), and say nothing
    of the characters above 127. *)
Definition ascii_char (c : ascii) : bool := (nat_of_ascii c <? 128)%nat.

(** [String.prototype.toUpperCase]. *)
Definition upper_char (c : ascii) : ascii :=
  let n := nat_of_ascii c in
  if ((97 <=? n) && (n <=? 122))%nat then ascii_of_nat (n - 32) else c.

Fixpoint toUpperCase (s : string) : string :=
  match s with
  | EmptyString => EmptyString
  | String c r => String (upper_char c) (toUpperCase r)
  end.

(** [String.prototype.trim]: the white space of the ASCII range is
    space, tab, LF, VT, FF and CR. *)
Definition is_space (c : ascii) : bool :=
  let n := nat_of_ascii c in
  ((n =? 32) || ((9 <=? n) && (n <=? 13)))%nat.

Fixpoint trimStart (s : string) : string :=
  match s with
  | EmptyString => EmptyString
  | String c r => if is_space c then trimStart r else s
  end.

Fixpoint trimEnd (s : string) : string :=
  match s with
  | EmptyString => EmptyString
  | String c r =>
      match trimEnd r with
      | EmptyString => if is_space c then EmptyString else String c EmptyString
      | r' => String c r'
      end
  end.

Definition trim (s : string) : string := trimEnd (trimStart s).

Fixpoint ascii_text (s : string) : bool :=
  match s with
  | EmptyString => true
  | String c r => ascii_char c && ascii_text r
  end.

(** A string that is empty or starts with a character that is not white
    space. *)
Definition starts_clean (s : string) : Prop :=
  match s with
  | EmptyString => True
  | String c _ => is_space c = false
  end.

(** Template-literal rendering of an integer [Number]. *)
Definition show_int (z : Z) : string := NilZero.string_of_int (Z.to_int z).

(** Template-literal rendering of [str[i]]: the character, or
    [undefined] when the index is out of range. *)
Definition show_char_at (s : string) (i : Z) : string :=
  if i <? 0 then "undefined"
  else match String.get (Z.to_nat i) s with
       | Some c => String c EmptyString
       | None => "undefined"
       end.

(** Truthiness of a [Number]: every number but [0] (and [NaN]). *)
Definition truthyQ (q : Q) : bool := negb (Qeq_bool q 0).
Definition truthyZ (z : Z) : bool := negb (z =? 0).

(** [a < b] and [a > b] on numbers. *)
Definition Qltb (a b : Q) : bool := negb (Qle_bool b a).
Definition Qgtb (a b : Q) : bool := Qltb b a.

(** [Math.ceil(a / b)] for integers [a >= 0], [b > 0]. *)
Definition ceil_div (a b : Z) : Z := (a + b - 1) / b.

(** [Math.ceil(Math.sqrt(n * 1.5))] for an integer [n >= 0]: the least
    integer [r >= 0] with [r * r >= 3 * n / 2], that is with
    [2 * r * r >= 3 * n].  As [r * r] is an integer, this is the integer
    square root, rounded up, of [ceil (3 * n / 2)]. *)
Definition ceil_sqrt_3_halves (n : Z) : Z := Z.sqrt_up ((3 * n + 1) / 2).

(** A character that [trim] and [toUpperCase] leave alone, and a string
    of such characters. *)
Definition plain (c : ascii) : bool :=
  negb (is_space c) && Ascii.eqb (upper_char c) c.

Fixpoint all_plain (s : string) : bool :=
  match s with
  | EmptyString => true
  | String c r => plain c && all_plain r
  end.

(** [a.length <= n] for strings (the [maxlength] validator). *)
Definition maxlength (n : nat) (s : string) : bool :=
  (String.length s <=? n)%nat.

End JS.

(** ** models/Room.js *)

Module Room.

Inductive SeatType := standard | vip.
Inductive SeatStatus := available | maintenance.

(** What [getAvailableSeats] reports: the stored status, or [booked]. *)
Inductive SeatView := view_stored (s : SeatStatus) | booked.

Record Seat := mkSeat {
  code : string;
  type : SeatType;
  status : SeatStatus;
  row : Z;
  column : Z
}.

(** The [code] path is declared [trim: true, uppercase: true]: Mongoose
    applies both setters when a seat is assigned to the document. *)
Definition cast_seat (s : Seat) : Seat :=
  mkSeat (JS.toUpperCase (JS.trim (code s))) (type s) (status s) (row s) (column s).

Record t := mk {
  _id : ObjectId;
  cinemaId : ObjectId;
  name : string;
  capacity : Z;
  seats : list Seat;
  isActive : bool
}.

Definition alphabet : string := "ABCDEFGHIJKLMNOPQRSTUVWXYZ".

(** State of the two nested loops of [generateSeatMap]. *)
Record GenState := mkGen { out : list Seat; seatNumber : Z }.

(** [for (let col = ...; col <= seatsPerRow && seatNumber < capacity; col++)],
    with [fuel] bounding the number of iterations. *)
Fixpoint col_loop (fuel : nat) (capacity seatsPerRow row col : Z) (st : GenState)
  : GenState :=
  match fuel with
  | O => st
  | S fuel' =>
      if (col <=? seatsPerRow) && (seatNumber st <? capacity) then
        let rowLetter := JS.show_char_at alphabet row in
        let seatType := if row <? 2 then vip else standard in
        let seat := mkSeat (rowLetter ++ JS.show_int col) seatType available
                           row (col - 1) in
        col_loop fuel' capacity seatsPerRow row (col + 1)
                 (mkGen (out st ++ [seat]) (seatNumber st + 1))
      else st
  end.

(** [for (let row = ...; row < rows && seatNumber < capacity; row++)]. *)
Fixpoint row_loop (fuel : nat) (capacity rows seatsPerRow row : Z) (st : GenState)
  : GenState :=
  match fuel with
  | O => st
  | S fuel' =>
      if (row <? rows) && (seatNumber st <? capacity) then
        row_loop fuel' capacity rows seatsPerRow (row + 1)
                 (col_loop (Z.to_nat seatsPerRow) capacity seatsPerRow row 1 st)
      else st
  end.

(** [roomSchema.methods.generateSeatMap], as a function of the capacity. *)
Definition generateSeatMap (capacity : Z) : list Seat :=
  let rows := JS.ceil_sqrt_3_halves capacity in
  let seatsPerRow := JS.ceil_div capacity rows in
  out (row_loop (Z.to_nat rows) capacity rows seatsPerRow 0 (mkGen [] 0)).

(** [roomSchema.pre('save')]. *)
Definition pre_save (isNew capacityModified : bool) (r : t) : t :=
  if isNew || capacityModified then
    let seats' := map cast_seat (generateSeatMap (capacity r)) in
    mk (_id r) (cinemaId r) (name r) (Z.of_nat (List.length seats')) seats' (isActive r)
  else r.

(** The position of a seat in a map of [seatsPerRow] columns, counted
    row by row. *)
Definition seat_key (seatsPerRow : Z) (s : Seat) : Z :=
  row s * seatsPerRow + column s.

(** The seats [l] lie in a grid of [rows] rows and [seatsPerRow] columns,
    at pairwise distinct positions that all come before [bound]. *)
Definition placed (rows seatsPerRow bound : Z) (l : list Seat) : Prop :=
  Forall (fun s => 0 <= row s < rows /\ 0 <= column s < seatsPerRow
                   /\ seat_key seatsPerRow s < bound) l
  /\ NoDup (map (seat_key seatsPerRow) l).

(** What every seat produced by the loops satisfies. *)
Definition generated_seat (s : Seat) : Prop :=
  status s = available
  /\ type s = (if row s <? 2 then vip else standard)
  /\ code s = JS.show_char_at alphabet (row s) ++ JS.show_int (column s + 1).

End Room.

(** ** Outcomes of an operation *)

(** The errors the models raise, named after what they report. *)
Inductive Error :=
| ValidationError (path : string)   (* a schema validator rejected [path] *)
| DuplicateKey (index : string)     (* a unique index rejected the write *)
| RoomConflict                      (* 'This room is already booked for the selected time slot.' *)
| MovieNotFound                     (* 'Movie not found' *)
| TicketNotFound                    (* 'Ticket not found' *)
| ScheduleNotFound                  (* 'Schedule not found' *)
| TicketAlreadyCancelled            (* 'Ticket is already cancelled' *)
| PromotionInvalidOrExpired         (* the code is unknown, inactive or outside its window *)
| PromotionExhausted                (* the code has no use left *)
| PromotionBelowMinimum             (* the order is below the minimum amount *)
| PromotionNotApplicable            (* the code does not apply to the movie *)
| PromotionNotEligible              (* the customer may not use the code *)
| PromotionLimitReached             (* 'Promotion usage limit reached' *)
| PaymentNotFound                   (* 'Payment not found' *)
| PaymentNotRefundable.             (* 'Only successful payments can be refunded' *)

Inductive Result (A : Type) :=
| Ok (a : A)
| Err (e : Error).
Arguments Ok {A} a.
Arguments Err {A} e.

Definition bind {A B : Type} (r : Result A) (k : A -> Result B) : Result B :=
  match r with
  | Ok a => k a
  | Err e => Err e
  end.

Notation "x <- r ;; k" := (bind r (fun x => k))
  (at level 61, r at next level, right associativity).

Definition result_map {A B : Type} (f : A -> B) (r : Result A) : Result B :=
  match r with
  | Ok a => Ok (f a)
  | Err e => Err e
  end.

(** [if (!ok) throw e]. *)
Definition check (ok : bool) (e : Error) : Result unit :=
  if ok then Ok tt else Err e.

(** An [ObjectId] not yet used by the documents whose ids are [ids]. *)
Definition fresh_id (ids : list ObjectId) : ObjectId :=
  S (fold_right Nat.max O ids).

(** ** The movie collection *)

Module Movie.

(** The movie schema is declared in models/Combo.js, after the combo
    model (lines 272-388).  The booking engine reads one path of it,
    [duration]: a [Number] of minutes, required, without a minimum.  It
    is taken as a whole number of minutes, of either sign. *)
Record t := mk {
  _id : ObjectId;
  duration : Z
}.

Definition findById (movies : list t) (id : ObjectId) : option t :=
  find (fun m => Nat.eqb (_id m) id) movies.

End Movie.

(** ** models/Schedule.js *)

Module Schedule.

Inductive Status := scheduled | cancelled | completed.

Definition is_cancelled (s : Status) : bool :=
  match s with cancelled => true | _ => false end.

Record PriceTable := mkPriceTable {
  standard : Q;
  vip : Q;
  earlyBirdDiscount : Q;
  earlyBirdEndTime : option Date
}.

Record t := mk {
  _id : ObjectId;
  movieId : ObjectId;
  cinemaId : ObjectId;
  roomId : ObjectId;
  startTime : Date;
  endTime : Date;
  priceTable : PriceTable;
  status : Status;
  isFull : bool;
  notes : string
}.

Definition set_endTime (e : Date) (s : t) : t :=
  mk (_id s) (movieId s) (cinemaId s) (roomId s) (startTime s) e
     (priceTable s) (status s) (isFull s) (notes s).

Definition set_isFull (b : bool) (s : t) : t :=
  mk (_id s) (movieId s) (cinemaId s) (roomId s) (startTime s) (endTime s)
     (priceTable s) (status s) b (notes s).

Definition set_status (x : Status) (s : t) : t :=
  mk (_id s) (movieId s) (cinemaId s) (roomId s) (startTime s) (endTime s)
     (priceTable s) x (isFull s) (notes s).

Definition set_id (i : ObjectId) (s : t) : t :=
  mk i (movieId s) (cinemaId s) (roomId s) (startTime s) (endTime s)
     (priceTable s) (status s) (isFull s) (notes s).

Definition set_priceTable (p : PriceTable) (s : t) : t :=
  mk (_id s) (movieId s) (cinemaId s) (roomId s) (startTime s) (endTime s)
     p (status s) (isFull s) (notes s).

(** The paths of a document a caller can mark as modified. *)
Inductive Path :=
| p_movieId | p_roomId | p_startTime | p_endTime | p_priceTable
| p_status | p_isFull | p_notes.

Definition Path_eq_dec (a b : Path) : {a = b} + {a <> b}.
Proof. decide equality. Defined.

Definition isModified (modified : list Path) (p : Path) : bool :=
  if in_dec Path_eq_dec p modified then true else false.

(** The validators declared in the schema ([min], [max], [maxlength]). *)
Definition validate (s : t) : Result unit :=
  _ <- check (Qle_bool 0 (standard (priceTable s)))
             (ValidationError "priceTable.standard") ;;
  _ <- check (Qle_bool 0 (vip (priceTable s)))
             (ValidationError "priceTable.vip") ;;
  _ <- check (Qle_bool 0 (earlyBirdDiscount (priceTable s))
              && Qle_bool (earlyBirdDiscount (priceTable s)) 100)
             (ValidationError "priceTable.earlyBirdDiscount") ;;
  check (JS.maxlength 500 (notes s)) (ValidationError "notes").

Definition findById (schedules : list t) (id : ObjectId) : option t :=
  find (fun s => Nat.eqb (_id s) id) schedules.

(** First [pre('save')] hook: the end time is the start time plus the
    duration of the movie and 30 minutes of cleaning. *)
Definition pre_save_endTime (isNew : bool) (modified : list Path)
           (movies : list Movie.t) (this : t) : Result t :=
  if isNew || isModified modified p_startTime || isModified modified p_movieId then
    match Movie.findById movies (movieId this) with
    | None => Err MovieNotFound
    | Some movie =>
        Ok (set_endTime (startTime this + (Movie.duration movie + 30) * 60000) this)
    end
  else Ok this.

(** The filter of the [findOne] of the second hook, applied to a stored
    schedule [e]. *)
Definition overlap_query (this e : t) : bool :=
  negb (Nat.eqb (_id e) (_id this))
  && Nat.eqb (roomId e) (roomId this)
  && negb (is_cancelled (status e))
  && (   ((startTime e <? endTime this) && (startTime e >=? startTime this))
      || ((endTime e >? startTime this) && (endTime e <=? endTime this))
      || ((startTime e <=? startTime this) && (endTime e >=? endTime this))).

(** Second [pre('save')] hook: reject a schedule that overlaps another
    one of the same room. *)
Definition pre_save_overlap (isNew : bool) (modified : list Path)
           (schedules : list t) (this : t) : Result unit :=
  if isNew || isModified modified p_startTime || isModified modified p_endTime
     || isModified modified p_roomId then
    match find (overlap_query this) schedules with
    | Some existingSchedule => Err RoomConflict
    | None => Ok tt
    end
  else Ok tt.

(** The write: an insert for a new document, a replacement by id
    otherwise.  The schema declares a unique index on [(roomId,
    startTime, endTime)] restricted by [status: { $ne: 'cancelled' }]
    (lines 78-87); the database does not build it (see the
    conventions), so the write refuses nothing. *)
Definition write (isNew : bool) (schedules : list t) (this : t) : list t :=
  if isNew then (schedules ++ [this])%list
  else map (fun e => if Nat.eqb (_id e) (_id this) then this else e) schedules.

(** [schedule.save()]: the stored schedule and the new collection. *)
Definition save (isNew : bool) (modified : list Path) (movies : list Movie.t)
           (schedules : list t) (this : t) : Result (t * list t) :=
  _ <- validate this ;;
  this1 <- pre_save_endTime isNew modified movies this ;;
  _ <- pre_save_overlap isNew modified schedules this1 ;;
  Ok (this1, write isNew schedules this1).

(** [new Schedule(data).save()]: Mongoose gives the document a new id. *)
Definition create (movies : list Movie.t) (schedules : list t) (data : t)
  : Result (t * list t) :=
  save true [] movies schedules (set_id (fresh_id (map _id schedules)) data).

(** The half-open intervals [[startTime, endTime)] of two schedules
    overlap. *)
Definition overlaps (a b : t) : Prop :=
  startTime a < endTime b /\ startTime b < endTime a.

Definition well_formed (s : t) : Prop := startTime s < endTime s.

(** The schedule [create] checks and stores for the data [d] and a
    movie of [duration] minutes: [d] with its new id and the end time
    the first hook derives. *)
Definition stamped (schedules : list t) (duration : Z) (d : t) : t :=
  set_endTime (startTime d + (duration + 30) * 60000)
              (set_id (fresh_id (map _id schedules)) d).

End Schedule.

(** ** models/Ticket.js *)

Module Ticket.

Inductive SeatType := standard | vip.
Inductive DiscountType := percent | fixed.
Inductive PaymentMethod := momo | zalopay | card | cash.
Inductive Status := pending | paid | cancelled | refunded.

Definition Status_eq_dec (a b : Status) : {a = b} + {a <> b}.
Proof. decide equality. Defined.

Definition is_cancelled (s : Status) : bool :=
  match s with cancelled => true | _ => false end.
Definition is_pending (s : Status) : bool :=
  match s with pending => true | _ => false end.
Definition is_paid (s : Status) : bool :=
  match s with paid => true | _ => false end.

(** The values the [paymentStatus] path accepts.  The path itself is
    kept as the string it holds, because the payment hook assigns it
    the status string of a payment, which comes from another
    enumeration. *)
Definition paymentStatus_enum : list string :=
  ["pending"; "completed"; "failed"; "refunded"].

Module Seat.
Record t := mk {
  code : string;
  type : SeatType;
  price : Q
}.
(** The [trim] and [uppercase] setters of [code]. *)
Definition cast (s : t) : t :=
  mk (JS.toUpperCase (JS.trim (code s))) (type s) (price s).
End Seat.

Module ComboItem.
Record t := mk {
  comboId : option ObjectId;
  name : string;
  qty : Q;
  price : Q
}.
End ComboItem.

Module Voucher.
Record t := mk {
  code : option string;
  discountValue : option Q;
  discountType : option DiscountType;
  maxDiscount : option Q
}.
End Voucher.

Record t := mk {
  _id : ObjectId;
  userId : ObjectId;
  scheduleId : ObjectId;
  roomId : ObjectId;
  seats : list Seat.t;
  combos : list ComboItem.t;
  voucher : option Voucher.t;
  subtotal : Q;
  discount : Q;
  totalAmount : Q;
  paymentMethod : PaymentMethod;
  status : Status;
  paymentStatus : string;
  qrCode : option string;
  notes : string;
  cancellationReason : option string;
  cancelledBy : option ObjectId;
  cancelledAt : option Date;
  pendingExpiresAt : option Date
}.

Definition set_pricing (sub disc total : Q) (x : t) : t :=
  mk (_id x) (userId x) (scheduleId x) (roomId x) (seats x) (combos x) (voucher x)
     sub disc total (paymentMethod x) (status x) (paymentStatus x) (qrCode x)
     (notes x) (cancellationReason x) (cancelledBy x) (cancelledAt x)
     (pendingExpiresAt x).

Definition set_status (s : Status) (x : t) : t :=
  mk (_id x) (userId x) (scheduleId x) (roomId x) (seats x) (combos x) (voucher x)
     (subtotal x) (discount x) (totalAmount x) (paymentMethod x) s
     (paymentStatus x) (qrCode x) (notes x) (cancellationReason x)
     (cancelledBy x) (cancelledAt x) (pendingExpiresAt x).

Definition set_paymentStatus (s : string) (x : t) : t :=
  mk (_id x) (userId x) (scheduleId x) (roomId x) (seats x) (combos x) (voucher x)
     (subtotal x) (discount x) (totalAmount x) (paymentMethod x) (status x)
     s (qrCode x) (notes x) (cancellationReason x)
     (cancelledBy x) (cancelledAt x) (pendingExpiresAt x).

Definition set_qrCode (q : option string) (x : t) : t :=
  mk (_id x) (userId x) (scheduleId x) (roomId x) (seats x) (combos x) (voucher x)
     (subtotal x) (discount x) (totalAmount x) (paymentMethod x) (status x)
     (paymentStatus x) q (notes x) (cancellationReason x)
     (cancelledBy x) (cancelledAt x) (pendingExpiresAt x).

Definition set_cancellation (reason : string) (by_ : ObjectId) (at_ : Date) (x : t) : t :=
  mk (_id x) (userId x) (scheduleId x) (roomId x) (seats x) (combos x) (voucher x)
     (subtotal x) (discount x) (totalAmount x) (paymentMethod x) (status x)
     (paymentStatus x) (qrCode x) (notes x) (Some reason)
     (Some by_) (Some at_) (pendingExpiresAt x).

Definition set_items (ss : list Seat.t) (cs : list ComboItem.t)
           (v : option Voucher.t) (x : t) : t :=
  mk (_id x) (userId x) (scheduleId x) (roomId x) ss cs v
     (subtotal x) (discount x) (totalAmount x) (paymentMethod x) (status x)
     (paymentStatus x) (qrCode x) (notes x) (cancellationReason x)
     (cancelledBy x) (cancelledAt x) (pendingExpiresAt x).

Inductive Path :=
| p_seats | p_combos | p_voucher | p_status | p_paymentStatus
| p_notes | p_cancellationReason | p_cancelledBy | p_cancelledAt.

Definition Path_eq_dec (a b : Path) : {a = b} + {a <> b}.
Proof. decide equality. Defined.

Definition isModified (modified : list Path) (p : Path) : bool :=
  if in_dec Path_eq_dec p modified then true else false.

(** *** Validators of the schema *)

Definition nonempty (s : string) : bool :=
  match s with EmptyString => false | _ => true end.

Definition validate_seat (s : Seat.t) : bool :=
  nonempty (Seat.code s) && Qle_bool 0 (Seat.price s).

Definition validate_combo (c : ComboItem.t) : bool :=
  nonempty (ComboItem.name c) && Qle_bool 1 (ComboItem.qty c)
  && Qle_bool 0 (ComboItem.price c).

Definition validate_voucher (v : option Voucher.t) : bool :=
  match v with
  | Some v => match Voucher.discountValue v with
              | Some d => Qle_bool 0 d
              | None => true
              end
  | None => true
  end.

Definition validate (x : t) : Result unit :=
  _ <- check (forallb validate_seat (seats x)) (ValidationError "seats") ;;
  _ <- check (forallb validate_combo (combos x)) (ValidationError "combos") ;;
  _ <- check (validate_voucher (voucher x)) (ValidationError "voucher.discountValue") ;;
  _ <- check (Qle_bool 0 (subtotal x)) (ValidationError "subtotal") ;;
  _ <- check (Qle_bool 0 (discount x)) (ValidationError "discount") ;;
  _ <- check (Qle_bool 0 (totalAmount x)) (ValidationError "totalAmount") ;;
  _ <- check (existsb (String.eqb (paymentStatus x)) paymentStatus_enum)
             (ValidationError "paymentStatus") ;;
  _ <- check (JS.maxlength 500 (notes x)) (ValidationError "notes") ;;
  check (match cancellationReason x with
         | Some r => JS.maxlength 500 r
         | None => true
         end) (ValidationError "cancellationReason").

(** *** The pricing hook *)

(** [this.seats.reduce((sum, seat) => sum + seat.price, 0)]. *)
Definition seatTotal (ss : list Seat.t) : Q :=
  fold_left (fun sum seat => sum + Seat.price seat)%Q ss 0%Q.

(** [this.combos.reduce((sum, combo) => sum + (combo.price * combo.qty), 0)]. *)
Definition comboTotal (cs : list ComboItem.t) : Q :=
  fold_left (fun sum combo => sum + ComboItem.price combo * ComboItem.qty combo)%Q
            cs 0%Q.

(** The discount of the hook, from the subtotal and the embedded
    voucher. *)
Definition voucher_discount (sub : Q) (v : option Voucher.t) : Q :=
  match v with
  | Some v =>
      match Voucher.discountValue v with
      | Some value =>
          if JS.truthyQ value then
            match Voucher.discountType v with
            | Some percent =>
                let discount := (sub * value / 100)%Q in
                match Voucher.maxDiscount v with
                | Some maxDiscount =>
                    if JS.truthyQ maxDiscount && JS.Qgtb discount maxDiscount
                    then maxDiscount else discount
                | None => discount
                end
            | _ => Qmin value sub
            end
          else 0%Q
      | None => 0%Q
      end
  | None => 0%Q
  end.

(** First [pre('save')] hook: "Calculate ticket totals before saving". *)
Definition pre_save_totals (isNew : bool) (modified : list Path) (this : t) : t :=
  if isNew || isModified modified p_seats || isModified modified p_combos
     || isModified modified p_voucher then
    let sub := (seatTotal (seats this) + comboTotal (combos this))%Q in
    let disc := voucher_discount sub (voucher this) in
    set_pricing sub disc (sub - disc)%Q this
  else this.

(** Second [pre('save')] hook: the QR code of a new ticket. *)
Definition pre_save_qrCode (isNew : bool) (this : t) : t :=
  if isNew then
    set_qrCode (Some ("TICKET-" ++ JS.show_int (Z.of_nat (_id this)))) this
  else this.

(** *** The index declared on [(scheduleId, seats.code)]

    "Index to prevent double booking of seats for the same schedule"
    (lines 140-150): the schema declares it unique, over the tickets
    whose status is not ['cancelled'].  Read as it is declared, it is a
    multikey index: a ticket contributes one key per seat, and the key
    of a missing value when it has no seat.  The definitions below say
    when two tickets share a key of it. *)

Definition index_keys (x : t) : list (option string) :=
  match seats x with
  | [] => [None]
  | ss => map (fun s => Some (Seat.code s)) ss
  end.

Definition key_eqb (a b : option string) : bool :=
  match a, b with
  | Some x, Some y => String.eqb x y
  | None, None => true
  | _, _ => false
  end.

Definition in_index (x : t) : bool := negb (is_cancelled (status x)).

Definition index_clash (this e : t) : bool :=
  negb (Nat.eqb (_id e) (_id this))
  && in_index this && in_index e
  && Nat.eqb (scheduleId e) (scheduleId this)
  && existsb (fun k => existsb (key_eqb k) (index_keys e)) (index_keys this).

(** The write: an insert for a new document, a replacement by id
    otherwise.  The database does not build the index declared above
    (its filter uses [$ne], see the conventions), and no function of
    the sources compares the seats of two tickets: the write refuses
    nothing.  (The unique sparse index on [qrCode] never rejects a
    write: the code is derived from the id of the ticket.) *)
Definition replace_by_id (this : t) (tickets : list t) : list t :=
  map (fun e => if Nat.eqb (_id e) (_id this) then this else e) tickets.

Definition write (isNew : bool) (tickets : list t) (this : t) : list t :=
  if isNew then (tickets ++ [this])%list
  else replace_by_id this tickets.

Definition findById (tickets : list t) (id : ObjectId) : option t :=
  find (fun x => Nat.eqb (_id x) id) tickets.

(** *** Occupancy of a schedule (models/Schedule.js, [updateOccupancy])

    The method lives in the schedule model; it is placed here because
    it reads the ticket collection. *)

Definition room_findById (rooms : list Room.t) (id : ObjectId) : option Room.t :=
  find (fun r => Nat.eqb (Room._id r) id) rooms.

(** [Ticket.find({ scheduleId, status: { $ne: 'cancelled' } })]. *)
Definition find_booked (tickets : list t) (sid : ObjectId) : list t :=
  filter (fun x => Nat.eqb (scheduleId x) sid && negb (is_cancelled (status x)))
         tickets.

Definition totalBookedSeats (tickets : list t) (sid : ObjectId) : Z :=
  fold_left (fun total ticket => total + Z.of_nat (List.length (seats ticket)))
            (find_booked tickets sid) 0.

Definition updateOccupancy (movies : list Movie.t) (rooms : list Room.t)
           (tickets : list t) (schedules : list Schedule.t) (this : Schedule.t)
  : Result (list Schedule.t) :=
  match room_findById rooms (Schedule.roomId this) with
  | None => Ok schedules
  | Some room =>
      let this' :=
        Schedule.set_isFull
          (totalBookedSeats tickets (Schedule._id this) >=? Room.capacity room) this in
      r <- Schedule.save false [Schedule.p_isFull] movies schedules this' ;;
      Ok (snd r)
  end.

(** [roomSchema.methods.getAvailableSeats] (models/Room.js): every seat
    of the room with the status it is reported with for a schedule. *)
Definition getAvailableSeats (schedules : list Schedule.t) (tickets : list t)
           (room : Room.t) (scheduleId : ObjectId)
  : Result (list (Room.Seat * Room.SeatView)) :=
  match Schedule.findById schedules scheduleId with
  | None => Err ScheduleNotFound
  | Some schedule =>
      let bookedSeats :=
        flat_map (fun ticket => map Seat.code (seats ticket))
                 (find_booked tickets (Schedule._id schedule)) in
      Ok (map (fun seat =>
                 (seat,
                  if existsb (String.eqb (Room.code seat)) bookedSeats
                  then Room.booked else Room.view_stored (Room.status seat)))
              (Room.seats room))
  end.

(** The [post('save')] and [post('remove')] hooks: recompute the
    occupancy of the schedule of the ticket; an error is logged and
    dropped. *)
Definition post_save (movies : list Movie.t) (rooms : list Room.t)
           (tickets : list t) (schedules : list Schedule.t) (doc : t)
  : list Schedule.t :=
  match Schedule.findById schedules (scheduleId doc) with
  | Some schedule =>
      match updateOccupancy movies rooms tickets schedules schedule with
      | Ok schedules' => schedules'
      | Err _ => schedules
      end
  | None => schedules
  end.

(** *** Saving a ticket *)

(** The collections a save of a ticket reads. *)
Record Store := mkStore {
  movies : list Movie.t;
  rooms : list Room.t;
  schedules : list Schedule.t;
  tickets : list t
}.

Definition with_tickets (ts : list t) (st : Store) : Store :=
  mkStore (movies st) (rooms st) (schedules st) ts.
Definition with_schedules (ss : list Schedule.t) (st : Store) : Store :=
  mkStore (movies st) (rooms st) ss (tickets st).

(** [ticket.save()]: the stored ticket and the new collections. *)
Definition save (isNew : bool) (modified : list Path) (st : Store) (this : t)
  : Result (t * Store) :=
  _ <- validate this ;;
  let this1 := pre_save_totals isNew modified this in
  let this2 := pre_save_qrCode isNew this1 in
  let tickets' := write isNew (tickets st) this2 in
  let schedules' := post_save (movies st) (rooms st) tickets' (schedules st) this2 in
  Ok (this2, mkStore (movies st) (rooms st) schedules' tickets').

(** What a caller supplies for a new ticket; the other paths take the
    defaults of the schema. *)
Record Data := mkData {
  d_userId : ObjectId;
  d_scheduleId : ObjectId;
  d_roomId : ObjectId;
  d_seats : list Seat.t;
  d_combos : list ComboItem.t;
  d_voucher : option Voucher.t;
  d_subtotal : Q;
  d_totalAmount : Q;
  d_paymentMethod : PaymentMethod;
  d_notes : string
}.

(** [new Ticket(data)] at time [now]: a new id, the setters of the seat
    codes, and the defaults [status: 'pending'], [paymentStatus:
    'pending'], [discount: 0] and [pendingExpiresAt: now + 10 minutes]. *)
Definition new (now : Date) (tickets : list t) (d : Data) : t :=
  mk (fresh_id (map _id tickets)) (d_userId d) (d_scheduleId d) (d_roomId d)
     (map Seat.cast (d_seats d)) (d_combos d) (d_voucher d)
     (d_subtotal d) 0%Q (d_totalAmount d) (d_paymentMethod d)
     pending "pending" None (d_notes d) None None None
     (Some (now + 10 * 60 * 1000)).

(** [new Ticket(data).save()]. *)
Definition create (now : Date) (st : Store) (d : Data) : Result (t * Store) :=
  save true [] st (new now (tickets st) d).

(** [ticketSchema.methods.cancel], on the stored ticket [this]. *)
Definition cancel (now : Date) (st : Store) (this : t) (userId : ObjectId)
           (reason : string) : Result (t * Store) :=
  if is_cancelled (status this) then Err TicketAlreadyCancelled
  else
    let this' := set_cancellation reason userId now (set_status cancelled this) in
    save false [p_status; p_cancellationReason; p_cancelledBy; p_cancelledAt]
         st this'.

(** The TTL index on [pendingExpiresAt] ([expireAfterSeconds: 0]): the
    database removes, in the background, the tickets whose date has
    passed. *)
Definition ttl_due (now : Date) (x : t) : bool :=
  match pendingExpiresAt x with
  | Some e => e <=? now
  | None => false
  end.

Definition ttl_sweep (now : Date) (st : Store) : Store :=
  with_tickets (filter (fun x => negb (ttl_due now x)) (tickets st)) st.

(** *** Notions of the specification *)

(** A pending ticket whose hold has lapsed at [now]. *)
Definition hold_expired (now : Date) (x : t) : bool :=
  is_pending (status x)
  && match pendingExpiresAt x with
     | Some e => e <? now
     | None => false
     end.

(** A ticket that holds its seats at [now]: neither cancelled nor
    expired. *)
Definition live (now : Date) (x : t) : bool :=
  negb (is_cancelled (status x)) && negb (hold_expired now x).

Definition has_seat (c : string) (x : t) : bool :=
  existsb (fun s => String.eqb (Seat.code s) c) (seats x).

(** The live tickets of schedule [sid] that contain seat [c]. *)
Definition holders (now : Date) (tickets : list t) (sid : ObjectId) (c : string)
  : list t :=
  filter (fun x => Nat.eqb (scheduleId x) sid && live now x && has_seat c x) tickets.

(** The sum of a list of amounts. *)
Fixpoint Qsum (l : list Q) : Q :=
  match l with
  | [] => 0%Q
  | q :: r => (q + Qsum r)%Q
  end.

(** The pricing invariant of a reservation. *)
Definition priced (x : t) : Prop :=
  (subtotal x == Qsum (map Seat.price (seats x))
                 + Qsum (map (fun c => ComboItem.price c * ComboItem.qty c)
                             (combos x)))%Q
  /\ (totalAmount x == subtotal x - discount x)%Q.

(** *** How the operations change the collection *)

(** How an operation may change a stored ticket [x] into [x']. *)
Record evolves (x x' : t) : Prop := mkEvolves {
  ev_id : _id x' = _id x;
  ev_priced : priced x -> priced x';
  ev_cancelled : status x = cancelled -> status x' = cancelled;
  ev_refunded : status x = refunded -> status x' = refunded \/ status x' = cancelled
}.

(** How an operation may change the ticket collection. *)
Inductive change (ts ts' : list t) : Prop :=
| ch_same : ts' = ts -> change ts ts'
| ch_insert : forall x',
    ts' = (ts ++ [x'])%list ->
    _id x' = fresh_id (map _id ts) ->
    priced x' ->
    change ts ts'
| ch_update : forall x x',
    findById ts (_id x') = Some x ->
    ts' = replace_by_id x' ts ->
    evolves x x' ->
    change ts ts'
| ch_filter : forall keep,
    ts' = filter keep ts ->
    change ts ts'.

End Ticket.

(** ** models/Payment.js *)

Module Payment.

Inductive Status := pending | success | failed | refunded.

(** The string a status is stored as. *)
Definition status_string (s : Status) : string :=
  match s with
  | pending => "pending"
  | success => "success"
  | failed => "failed"
  | refunded => "refunded"
  end.

Definition is_success (s : Status) : bool :=
  match s with success => true | _ => false end.
Definition is_refunded (s : Status) : bool :=
  match s with refunded => true | _ => false end.

Record RefundDetails := mkRefund {
  refundAmount : Q;
  reason : string;
  processedBy : ObjectId;
  processedAt : Date
}.

Record t := mk {
  _id : ObjectId;
  ticketId : ObjectId;
  userId : ObjectId;
  amount : Q;
  method : Ticket.PaymentMethod;
  transactionId : option string;
  status : Status;
  refundDetails : option RefundDetails
}.

Definition set_status (s : Status) (p : t) : t :=
  mk (_id p) (ticketId p) (userId p) (amount p) (method p) (transactionId p) s
     (refundDetails p).
Definition set_refundDetails (r : RefundDetails) (p : t) : t :=
  mk (_id p) (ticketId p) (userId p) (amount p) (method p) (transactionId p)
     (status p) (Some r).
Definition set_transactionId (x : string) (p : t) : t :=
  mk (_id p) (ticketId p) (userId p) (amount p) (method p) (Some x) (status p)
     (refundDetails p).
Definition set_id (i : ObjectId) (p : t) : t :=
  mk i (ticketId p) (userId p) (amount p) (method p) (transactionId p) (status p)
     (refundDetails p).

Definition validate (p : t) : Result unit :=
  check (Qle_bool 0 (amount p)) (ValidationError "amount").

(** The ticket as the first hook leaves it in memory, before it is
    saved. *)
Definition propagate (this : t) (ticket : Ticket.t) : Ticket.t :=
  let ticket1 := Ticket.set_paymentStatus (status_string (status this)) ticket in
  let ticket2 :=
    if is_success (status this) && Ticket.is_pending (Ticket.status ticket1)
    then Ticket.set_status Ticket.paid ticket1 else ticket1 in
  if is_refunded (status this) && Ticket.is_paid (Ticket.status ticket2)
  then Ticket.set_status Ticket.refunded ticket2 else ticket2.

(** First [pre('save')] hook: "Update ticket status when payment status
    changes".  An error of the update is caught and logged, and does
    not stop the save of the payment: the hook returns the collections
    and the errors it logged. *)
Definition pre_save_ticket (statusModified : bool) (st : Ticket.Store) (this : t)
  : Ticket.Store * list Error :=
  if statusModified then
    match Ticket.findById (Ticket.tickets st) (ticketId this) with
    | None => (st, [TicketNotFound])
    | Some ticket =>
        if negb (String.eqb (Ticket.paymentStatus ticket) (status_string (status this)))
        then
          let ticket' := propagate this ticket in
          let modified :=
            Ticket.p_paymentStatus ::
            (if Ticket.Status_eq_dec (Ticket.status ticket') (Ticket.status ticket)
             then [] else [Ticket.p_status]) in
          match Ticket.save false modified st ticket' with
          | Ok r => (snd r, [])
          | Err e => (st, [e])
          end
        else (st, [])
    end
  else (st, []).

(** Second [pre('save')] hook: the transaction id of a new payment;
    [rand] is the value of [Math.floor(Math.random() * 1000)]. *)
Definition pre_save_transactionId (isNew : bool) (now : Date) (rand : Z) (this : t) : t :=
  match isNew, transactionId this with
  | true, None =>
      set_transactionId ("PAY-" ++ JS.show_int now ++ "-" ++ JS.show_int rand) this
  | _, _ => this
  end.

Record Store := mkStore {
  base : Ticket.Store;
  payments : list t
}.

Definition findById (payments : list t) (id : ObjectId) : option t :=
  find (fun p => Nat.eqb (_id p) id) payments.

(** *** The unique sparse index on [transactionId] (lines 27-31)

    Two payments may not carry the same transaction id; a payment
    without one is not in the index. *)

Definition same_transactionId (a b : t) : bool :=
  match transactionId a, transactionId b with
  | Some x, Some y => String.eqb x y
  | None, None => true
  | _, _ => false
  end.

Definition index_clash (this e : t) : bool :=
  negb (Nat.eqb (_id e) (_id this))
  && match transactionId this with
     | Some _ => same_transactionId this e
     | None => false
     end.

(** A save of a stored payment changes the entry of the index when its
    transaction id is not the stored one. *)
Definition entry_changed (payments : list t) (this : t) : bool :=
  match findById payments (_id this) with
  | Some stored => negb (same_transactionId stored this)
  | None => false
  end.

(** The write: an insert for a new document, a replacement by id
    otherwise; the index is read when the write changes an entry of
    it. *)
Definition write (isNew : bool) (payments : list t) (this : t) : Result (list t) :=
  _ <- check (negb ((isNew || entry_changed payments this)
                    && existsb (index_clash this) payments))
             (DuplicateKey "transactionId_1") ;;
  if isNew then Ok (payments ++ [this])%list
  else Ok (map (fun e => if Nat.eqb (_id e) (_id this) then this else e) payments).

(** What a call leaves behind: the answer to the caller, the collections
    after the call, and the errors logged on the way. *)
Record Outcome := mkOutcome {
  answer : Result t;
  after : Store;
  logged : list Error
}.

(** [payment.save()].  The first hook has saved the ticket before the
    payment is written: when the write is refused, the update of the
    ticket stays. *)
Definition save (isNew statusModified : bool) (now : Date) (rand : Z)
           (st : Store) (this : t) : Outcome :=
  match validate this with
  | Err e => mkOutcome (Err e) st []
  | Ok _ =>
      let '(base', log) := pre_save_ticket statusModified (base st) this in
      let this' := pre_save_transactionId isNew now rand this in
      match write isNew (payments st) this' with
      | Ok payments' => mkOutcome (Ok this') (mkStore base' payments') log
      | Err e => mkOutcome (Err e) (mkStore base' (payments st)) log
      end
  end.

(** [paymentSchema.statics.processRefund]. *)
Definition processRefund (now : Date) (rand : Z) (st : Store)
           (paymentId userId : ObjectId) (reason : string) : Outcome :=
  match findById (payments st) paymentId with
  | None => mkOutcome (Err PaymentNotFound) st []
  | Some payment =>
      if negb (is_success (status payment))
      then mkOutcome (Err PaymentNotRefundable) st []
      else
        let payment' :=
          set_refundDetails (mkRefund (amount payment) reason userId now)
                            (set_status refunded payment) in
        save false true now rand st payment'
  end.

End Payment.

(** ** models/User.js *)

Module User.

Inductive Role := user | staff | admin.

Record t := mk {
  _id : ObjectId;
  name : string;
  email : string;
  role : Role
}.

Definition findById (users : list t) (id : ObjectId) : option t :=
  find (fun u => Nat.eqb (_id u) id) users.

End User.

(** ** The promotion model *)

Module Promotion.

Record ApplicableTo := mkApplicable {
  movies : list ObjectId;
  categories : list string
}.

Record UsageRestrictions := mkRestrictions {
  onePerUser : bool;
  firstTimeUserOnly : bool;
  minPreviousOrders : Z
}.

Record t := mk {
  _id : ObjectId;
  code : string;
  name : string;
  type : Ticket.DiscountType;
  value : Q;
  maxDiscount : option Q;
  minOrderAmount : Q;
  startDate : Date;
  endDate : Date;
  maxUses : option Z;
  currentUses : Z;
  isActive : bool;
  applicableTo : ApplicableTo;
  usageRestrictions : UsageRestrictions
}.

Definition set_usage (uses : Z) (active : bool) (p : t) : t :=
  mk (_id p) (code p) (name p) (type p) (value p) (maxDiscount p) (minOrderAmount p)
     (startDate p) (endDate p) (maxUses p) uses active (applicableTo p)
     (usageRestrictions p).

Definition is_percent (d : Ticket.DiscountType) : bool :=
  match d with Ticket.percent => true | _ => false end.

(** The virtual [isCurrentlyActive]. *)
Definition isCurrentlyActive (now : Date) (this : t) : bool :=
  isActive this
  && (startDate this <=? now)
  && (endDate this >=? now)
  && match maxUses this with
     | None => true
     | Some m => currentUses this <? m
     end.

(** [promotionSchema.methods.isApplicableToMovie]. *)
Definition isApplicableToMovie (now : Date) (this : t) (movieId : ObjectId)
           (movieGenres : list string) : bool :=
  if negb (isCurrentlyActive now this) then false
  else if Nat.eqb (List.length (movies (applicableTo this))) 0
          && Nat.eqb (List.length (categories (applicableTo this))) 0 then true
  else if existsb (fun id => Nat.eqb id movieId) (movies (applicableTo this)) then true
  else if negb (Nat.eqb (List.length (categories (applicableTo this))) 0)
          && existsb (fun genre =>
                        existsb (String.eqb genre) (categories (applicableTo this)))
                     movieGenres then true
  else false.

(** The three [countDocuments] queries of [canBeUsedByUser]. *)
Definition count_orders (tickets : list Ticket.t) (userId : ObjectId) : Z :=
  Z.of_nat (List.length
    (filter (fun x => Nat.eqb (Ticket.userId x) userId) tickets)).

Definition count_paid_orders (tickets : list Ticket.t) (userId : ObjectId) : Z :=
  Z.of_nat (List.length
    (filter (fun x => Nat.eqb (Ticket.userId x) userId
                      && Ticket.is_paid (Ticket.status x)) tickets)).

Definition voucher_code_is (c : string) (x : Ticket.t) : bool :=
  match Ticket.voucher x with
  | Some v => match Ticket.Voucher.code v with
              | Some c' => String.eqb c' c
              | None => false
              end
  | None => false
  end.

Definition count_uses (tickets : list Ticket.t) (userId : ObjectId) (c : string) : Z :=
  Z.of_nat (List.length
    (filter (fun x => Nat.eqb (Ticket.userId x) userId
                      && voucher_code_is c x
                      && negb (Ticket.is_cancelled (Ticket.status x))) tickets)).

(** [promotionSchema.methods.canBeUsedByUser]. *)
Definition canBeUsedByUser (now : Date) (users : list User.t)
           (tickets : list Ticket.t) (this : t) (userId : ObjectId) : bool :=
  if negb (isCurrentlyActive now this) then false
  else match User.findById users userId with
  | None => false
  | Some user =>
      if firstTimeUserOnly (usageRestrictions this)
         && (count_orders tickets userId >? 0) then false
      else if (minPreviousOrders (usageRestrictions this) >? 0)
              && (count_paid_orders tickets userId
                  <? minPreviousOrders (usageRestrictions this)) then false
      else if onePerUser (usageRestrictions this)
              && (count_uses tickets userId (code this) >? 0) then false
      else true
  end.

(** The discount of [validateAndApply], once the promotion is
    accepted. *)
Definition discountAmount (promotion : t) (orderAmount : Q) : Q :=
  if is_percent (type promotion) then
    let discountAmount := (orderAmount * value promotion / 100)%Q in
    match maxDiscount promotion with
    | Some maxDiscount =>
        if JS.truthyQ maxDiscount && JS.Qgtb discountAmount maxDiscount
        then maxDiscount else discountAmount
    | None => discountAmount
    end
  else Qmin (value promotion) orderAmount.

(** What [validateAndApply] returns. *)
Record Applied := mkApplied {
  a_id : ObjectId;
  a_code : string;
  a_name : string;
  a_type : Ticket.DiscountType;
  a_value : Q;
  a_maxDiscount : option Q;
  a_discountAmount : Q
}.

(** The [uppercase] and [trim] setters of [code].  Mongoose runs them
    on the value a document is given and on the value a query filters
    the path by. *)
Definition cast_code (c : string) : string := JS.toUpperCase (JS.trim c).

(** The [findOne] of [validateAndApply]: the filter is
    [code: code.toUpperCase()], cast by the setters of the path. *)
Definition lookup (now : Date) (promotions : list t) (c : string) : option t :=
  find (fun p => String.eqb (code p) (cast_code (JS.toUpperCase c))
                 && isActive p && (startDate p <=? now) && (endDate p >=? now))
       promotions.

(** The usage-cap test shared by [validateAndApply] and
    [incrementUsage]: [maxUses && currentUses >= maxUses]. *)
Definition cap_reached (promotion : t) : bool :=
  match maxUses promotion with
  | Some maxUses => JS.truthyZ maxUses && (currentUses promotion >=? maxUses)
  | None => false
  end.

(** [promotionSchema.statics.validateAndApply]. *)
Definition validateAndApply (now : Date) (users : list User.t)
           (tickets : list Ticket.t) (promotions : list t)
           (c : string) (userId : option ObjectId) (orderAmount : Q)
           (movieId : option ObjectId) (movieGenres : list string)
  : Result Applied :=
  match lookup now promotions c with
  | None => Err PromotionInvalidOrExpired
  | Some promotion =>
      _ <- check (negb (cap_reached promotion)) PromotionExhausted ;;
      _ <- check (negb (JS.Qltb orderAmount (minOrderAmount promotion)))
                 PromotionBelowMinimum ;;
      _ <- check (match movieId with
                  | Some m => isApplicableToMovie now promotion m movieGenres
                  | None => true
                  end) PromotionNotApplicable ;;
      _ <- check (match userId with
                  | Some u => canBeUsedByUser now users tickets promotion u
                  | None => true
                  end) PromotionNotEligible ;;
      Ok (mkApplied (_id promotion) (code promotion) (name promotion)
                    (type promotion) (value promotion) (maxDiscount promotion)
                    (discountAmount promotion orderAmount))
  end.

Definition opt_nonneg (o : option Q) : bool :=
  match o with Some q => Qle_bool 0 q | None => true end.

Definition validate (p : t) : Result unit :=
  _ <- check (Qle_bool 0 (value p)) (ValidationError "value") ;;
  _ <- check (opt_nonneg (maxDiscount p)) (ValidationError "maxDiscount") ;;
  _ <- check (Qle_bool 0 (minOrderAmount p)) (ValidationError "minOrderAmount") ;;
  _ <- check (match maxUses p with Some m => 0 <=? m | None => true end)
             (ValidationError "maxUses") ;;
  check (0 <=? currentUses p) (ValidationError "currentUses").

(** The unique index on [code]: a save of a stored promotion reads it
    when the code is not the stored one. *)
Definition index_clash (this e : t) : bool :=
  negb (Nat.eqb (_id e) (_id this)) && String.eqb (code e) (code this).

Definition entry_changed (promotions : list t) (this : t) : bool :=
  match find (fun e => Nat.eqb (_id e) (_id this)) promotions with
  | Some stored => negb (String.eqb (code stored) (code this))
  | None => false
  end.

(** [promotion.save()] of a stored promotion. *)
Definition save (promotions : list t) (this : t) : Result (t * list t) :=
  _ <- validate this ;;
  _ <- check (negb (entry_changed promotions this
                    && existsb (index_clash this) promotions))
             (DuplicateKey "code_1") ;;
  Ok (this, map (fun e => if Nat.eqb (_id e) (_id this) then this else e) promotions).

(** [promotionSchema.methods.incrementUsage]. *)
Definition incrementUsage (promotions : list t) (this : t) : Result (t * list t) :=
  if cap_reached this then Err PromotionLimitReached
  else
    let this1 := set_usage (currentUses this + 1) (isActive this) this in
    let this2 := if cap_reached this1
                 then set_usage (currentUses this1) false this1 else this1 in
    save promotions this2.

End Promotion.

(** ** The booking engine: the database and its operations *)

Module Engine.

Record DB := mkDB {
  base : Payment.Store;
  users : list User.t;
  promotions : list Promotion.t
}.

Definition store (db : DB) : Ticket.Store := Payment.base (base db).
Definition tickets (db : DB) : list Ticket.t := Ticket.tickets (store db).
Definition schedules (db : DB) : list Schedule.t := Ticket.schedules (store db).

Definition with_store (st : Ticket.Store) (db : DB) : DB :=
  mkDB (Payment.mkStore st (Payment.payments (base db))) (users db) (promotions db).
Definition with_base (b : Payment.Store) (db : DB) : DB :=
  mkDB b (users db) (promotions db).
Definition with_promotions (ps : list Promotion.t) (db : DB) : DB :=
  mkDB (base db) (users db) ps.

(** The requests the engine serves.  A request is the call of the model
    method it stands for ([new Ticket(data).save()], [ticket.cancel()],
    [payment.save()], [Payment.processRefund()], [schedule.save()],
    [promotion.incrementUsage()], the sweep of the TTL index, ...); the
    route handlers that receive the requests are not part of the
    sources.  Every request carries the time at which it is served. *)
Inductive Op :=
| createReservation (now : Date) (d : Ticket.Data)
| cancelReservation (now : Date) (ticketId userId : ObjectId) (reason : string)
| editReservation (ticketId : ObjectId) (ss : list Ticket.Seat.t)
                  (cs : list Ticket.ComboItem.t) (v : option Ticket.Voucher.t)
| removeReservation (ticketId : ObjectId)
| createPayment (now : Date) (rand : Z) (statusSet : bool) (p : Payment.t)
| paymentOutcome (now : Date) (rand : Z) (paymentId : ObjectId) (s : Payment.Status)
| refundPayment (now : Date) (rand : Z) (paymentId userId : ObjectId) (reason : string)
| reap (now : Date)
| createShowing (d : Schedule.t)
| cancelShowing (scheduleId : ObjectId)
| editPriceTable (scheduleId : ObjectId) (table : Schedule.PriceTable)
| editPromotion (p : Promotion.t)
| usePromotion (promotionId : ObjectId).

(** What a request leaves: the database after it, and the error it
    answers with, if any. *)
Definition served (db : DB) : DB * option Error := (db, None).
Definition refused (db : DB) (e : Error) : DB * option Error := (db, Some e).

Definition on_store (db : DB) (r : Result (Ticket.t * Ticket.Store))
  : DB * option Error :=
  match r with
  | Ok x => served (with_store (snd x) db)
  | Err e => refused db e
  end.

(** A payment request leaves the collections of its outcome, also when
    it is refused. *)
Definition on_base (db : DB) (o : Payment.Outcome) : DB * option Error :=
  (with_base (Payment.after o) db,
   match Payment.answer o with
   | Ok _ => None
   | Err e => Some e
   end).

Definition on_schedules (db : DB) (r : Result (Schedule.t * list Schedule.t))
  : DB * option Error :=
  match r with
  | Ok x => served (with_store (Ticket.with_schedules (snd x) (store db)) db)
  | Err e => refused db e
  end.

Definition on_promotions (db : DB) (r : Result (Promotion.t * list Promotion.t))
  : DB * option Error :=
  match r with
  | Ok x => served (with_promotions (snd x) db)
  | Err e => refused db e
  end.

(** One request against the database. *)
Definition exec (db : DB) (op : Op) : DB * option Error :=
  match op with
  | createReservation now d => on_store db (Ticket.create now (store db) d)
  | cancelReservation now ticketId userId reason =>
      match Ticket.findById (tickets db) ticketId with
      | Some ticket => on_store db (Ticket.cancel now (store db) ticket userId reason)
      | None => refused db TicketNotFound
      end
  | editReservation ticketId ss cs v =>
      match Ticket.findById (tickets db) ticketId with
      | Some ticket =>
          on_store db
            (Ticket.save false [Ticket.p_seats; Ticket.p_combos; Ticket.p_voucher]
                         (store db)
                         (Ticket.set_items (map Ticket.Seat.cast ss) cs v ticket))
      | None => refused db TicketNotFound
      end
  | removeReservation ticketId =>
      match Ticket.findById (tickets db) ticketId with
      | Some ticket =>
          let tickets' :=
            filter (fun x => negb (Nat.eqb (Ticket._id x) ticketId)) (tickets db) in
          let st := Ticket.with_tickets tickets' (store db) in
          served (with_store
                    (Ticket.with_schedules
                       (Ticket.post_save (Ticket.movies st) (Ticket.rooms st) tickets'
                                         (Ticket.schedules st) ticket) st) db)
      | None => refused db TicketNotFound
      end
  | createPayment now rand statusSet p =>
      on_base db
        (Payment.save true statusSet now rand (base db)
           (Payment.set_id (fresh_id (map Payment._id (Payment.payments (base db)))) p))
  | paymentOutcome now rand paymentId s =>
      match Payment.findById (Payment.payments (base db)) paymentId with
      | Some payment =>
          on_base db (Payment.save false true now rand (base db)
                                   (Payment.set_status s payment))
      | None => refused db PaymentNotFound
      end
  | refundPayment now rand paymentId userId reason =>
      on_base db (Payment.processRefund now rand (base db) paymentId userId reason)
  | reap now => served (with_store (Ticket.ttl_sweep now (store db)) db)
  | createShowing d =>
      on_schedules db (Schedule.create (Ticket.movies (store db)) (schedules db) d)
  | cancelShowing scheduleId =>
      match Schedule.findById (schedules db) scheduleId with
      | Some s =>
          on_schedules db
            (Schedule.save false [Schedule.p_status] (Ticket.movies (store db))
                           (schedules db) (Schedule.set_status Schedule.cancelled s))
      | None => refused db ScheduleNotFound
      end
  | editPriceTable scheduleId table =>
      match Schedule.findById (schedules db) scheduleId with
      | Some s =>
          on_schedules db
            (Schedule.save false [Schedule.p_priceTable] (Ticket.movies (store db))
                           (schedules db) (Schedule.set_priceTable table s))
      | None => refused db ScheduleNotFound
      end
  | editPromotion p => on_promotions db (Promotion.save (promotions db) p)
  | usePromotion promotionId =>
      match find (fun p => Nat.eqb (Promotion._id p) promotionId) (promotions db) with
      | Some p => on_promotions db (Promotion.incrementUsage (promotions db) p)
      | None => refused db PromotionInvalidOrExpired
      end
  end.

(** The database a request leaves. *)
Definition run (db : DB) (op : Op) : DB := fst (exec db op).

(** The databases the engine can be in: it starts without any
    reservation, and serves requests. *)
Inductive reachable : DB -> Prop :=
| reach_init : forall db, tickets db = [] -> reachable db
| reach_step : forall db op, reachable db -> reachable (run db op).

(** The price snapshot of a reservation: the three amounts and the
    embedded promotion. *)
Definition snapshot (x : Ticket.t) : Q * Q * Q * option Ticket.Voucher.t :=
  (Ticket.subtotal x, Ticket.discount x, Ticket.totalAmount x, Ticket.voucher x).

(** An administrative edit of a price table or of a promotion. *)
Definition is_edit (op : Op) : bool :=
  match op with
  | editPriceTable _ _ | editPromotion _ => true
  | _ => false
  end.

End Engine.

(** ** The rules as the specification words them *)

Module Spec.

(** "percent type computes [amount*value/100] capped at an optional
    maximum; fixed type returns [min(value, amount)]". *)
Definition discount (type : Ticket.DiscountType) (value : Q)
           (maxDiscount : option Q) (amount : Q) : Q :=
  match type with
  | Ticket.percent =>
      match maxDiscount with
      | Some m => Qmin (amount * value / 100) m
      | None => (amount * value / 100)%Q
      end
  | Ticket.fixed => Qmin value amount
  end.

(** The same rule with a maximum of zero read as no maximum. *)
Definition discount_nonzero_cap (type : Ticket.DiscountType) (value : Q)
           (maxDiscount : option Q) (amount : Q) : Q :=
  match type with
  | Ticket.percent =>
      match maxDiscount with
      | Some m => if Qeq_bool m 0 then (amount * value / 100)%Q
                  else Qmin (amount * value / 100) m
      | None => (amount * value / 100)%Q
      end
  | Ticket.fixed => Qmin value amount
  end.

(** The reservations of a customer, the paid ones, and the ones that
    carry a promotion code and are not cancelled. *)
Definition reservations_of (tickets : list Ticket.t) (u : ObjectId) : list Ticket.t :=
  filter (fun x => Nat.eqb (Ticket.userId x) u) tickets.

Definition paid_of (tickets : list Ticket.t) (u : ObjectId) : list Ticket.t :=
  filter (fun x => Ticket.is_paid (Ticket.status x)) (reservations_of tickets u).

Definition uses_of (tickets : list Ticket.t) (u : ObjectId) (c : string)
  : list Ticket.t :=
  filter (fun x => negb (Ticket.is_cancelled (Ticket.status x))
                   && Promotion.voucher_code_is c x)
         (reservations_of tickets u).

(** "first-time-customer check requires zero prior paid reservations;
    minimum-prior-orders check counts prior paid reservations;
    one-use-per-customer check counts prior non-cancelled reservations
    carrying this code for this customer". *)
Definition eligible (tickets : list Ticket.t) (p : Promotion.t) (u : ObjectId) : Prop :=
  let r := Promotion.usageRestrictions p in
  (Promotion.firstTimeUserOnly r = true -> paid_of tickets u = [])
  /\ (0 < Promotion.minPreviousOrders r ->
      Promotion.minPreviousOrders r <= Z.of_nat (List.length (paid_of tickets u)))
  /\ (Promotion.onePerUser r = true -> uses_of tickets u (Promotion.code p) = []).

(** The same rules with the first-time-customer check on the
    reservations of any status. *)
Definition eligible_first_order (tickets : list Ticket.t) (p : Promotion.t)
           (u : ObjectId) : Prop :=
  let r := Promotion.usageRestrictions p in
  (Promotion.firstTimeUserOnly r = true -> reservations_of tickets u = [])
  /\ (0 < Promotion.minPreviousOrders r ->
      Promotion.minPreviousOrders r <= Z.of_nat (List.length (paid_of tickets u)))
  /\ (Promotion.onePerUser r = true -> uses_of tickets u (Promotion.code p) = []).

End Spec.

(** ** The scenarios of the specification *)

Module Scenario.

(** [h]:[m] on the first day of the epoch, in milliseconds. *)
Definition at_ (h m : Z) : Date := (h * 60 + m) * 60000.

Definition prices : Schedule.PriceTable :=
  Schedule.mkPriceTable 90000 120000 0 None.

(** A movie of 90 minutes: with the cleaning time a showing of it
    lasts two hours. *)
Definition feature : Movie.t := Movie.mk 7 90.

(** The stored showing 15:00-17:00 of room 3. *)
Definition evening : Schedule.t :=
  Schedule.mk 1 7 1 3 (at_ 15 0) (at_ 17 0) prices Schedule.scheduled false "".

(** The request for a showing of room 3 that starts at 14:00. *)
Definition matinee : Schedule.t :=
  Schedule.mk 0 7 1 3 (at_ 14 0) (at_ 14 0) prices Schedule.scheduled false "".

(** A room of 487 seats. *)
Definition hall_487 : Room.t := Room.mk 1 1 "Hall 1" 487 [] true.

(** Room 3, saved with a capacity of nine seats: rows A, B and C of three. *)
Definition room3 : Room.t :=
  Room.pre_save true false (Room.mk 3 1 "Room 3" 9 [] true).

(** A database with the room, the movie and the showing, and no
    reservation yet. *)
Definition store0 : Ticket.Store := Ticket.mkStore [feature] [room3] [evening] [].

Definition alice : User.t := User.mk 11 "Alice" "alice@example.com" User.user.
Definition bob : User.t := User.mk 12 "Bob" "bob@example.com" User.user.

Definition db0 : Engine.DB :=
  Engine.mkDB (Payment.mkStore store0 []) [alice; bob] [].

(** The reservation of the pricing scenario: seats A1 (VIP, 120000) and
    B3 (standard, 90000), one concession item of 50000 taken twice. *)
Definition seat_A1 : Ticket.Seat.t := Ticket.Seat.mk "A1" Ticket.vip 120000.
Definition seat_B3 : Ticket.Seat.t := Ticket.Seat.mk "B3" Ticket.standard 90000.
Definition popcorn : Ticket.ComboItem.t := Ticket.ComboItem.mk None "Popcorn" 2 50000.

Definition booking (v : option Ticket.Voucher.t) : Ticket.Data :=
  Ticket.mkData 11 1 3 [seat_A1; seat_B3] [popcorn] v 310000 310000 Ticket.card "".

(** The promotion SUMMER10 and its snapshot in a reservation. *)
Definition summer10 : Promotion.t :=
  Promotion.mk 21 "SUMMER10" "Summer sale" Ticket.percent 10 (Some 25000%Q) 0
               0 (at_ 24 0) None 0 true (Promotion.mkApplicable [] [])
               (Promotion.mkRestrictions false false 0).

Definition summer10_voucher : Ticket.Voucher.t :=
  Ticket.Voucher.mk (Some "SUMMER10") (Some 10%Q) (Some Ticket.percent)
                    (Some 25000%Q).

(** Alice books at midnight; the hold lapses ten minutes later. *)
Definition db1 : Engine.DB :=
  Engine.run db0 (Engine.createReservation 0 (booking None)).

(** Alice's reservation as it is stored. *)
Definition alice_ticket : Ticket.t :=
  Ticket.mk 1 11 1 3 [seat_A1; seat_B3] [popcorn] None 310000 0 310000 Ticket.card
            Ticket.pending "pending" (Some "TICKET-1") "" None None None
            (Some 600000).

(** Bob asks for seat A1 of the same showing. *)
Definition rebooking : Ticket.Data :=
  Ticket.mkData 12 1 3 [seat_A1] [] None 120000 120000 Ticket.cash "".

(** The payment of Alice's reservation, reported as successful eleven
    minutes after the booking. *)
Definition late_success : Payment.t :=
  Payment.mk 0 1 11 310000 Ticket.card None Payment.success None.

(** A reservation that was paid and refunded. *)
Definition refunded_ticket : Ticket.t :=
  Ticket.mk 1 11 1 3 [seat_A1] [] None 120000 0 120000 Ticket.card
            Ticket.refunded "refunded" (Some "TICKET-1") "" None None None None.

Definition store_refunded : Ticket.Store :=
  Ticket.mkStore [feature] [room3] [evening] [refunded_ticket].

(** A reservation Alice cancelled, her only one. *)
Definition cancelled_ticket : Ticket.t :=
  Ticket.mk 1 11 1 3 [seat_A1] [] None 120000 0 120000 Ticket.card
            Ticket.cancelled "pending" (Some "TICKET-1") "" (Some "changed plans")
            (Some 11%nat) (Some 0) None.

(** A promotion for first-time customers. *)
Definition welcome : Promotion.t :=
  Promotion.mk 22 "WELCOME" "First order" Ticket.fixed 20000 None 0
               0 (at_ 24 0) None 0 true (Promotion.mkApplicable [] [])
               (Promotion.mkRestrictions false true 0).

(** A percent promotion whose maximum discount is zero. *)
Definition capped_at_zero : Promotion.t :=
  Promotion.mk 23 "ZERO" "Capped at zero" Ticket.percent 10 (Some 0%Q) 0
               0 (at_ 24 0) None 0 true (Promotion.mkApplicable [] [])
               (Promotion.mkRestrictions false false 0).

(** A promotion whose usage cap is zero. *)
Definition no_use : Promotion.t :=
  Promotion.mk 24 "NOUSE" "No use allowed" Ticket.fixed 20000 None 0
               0 (at_ 24 0) (Some 0) 0 true (Promotion.mkApplicable [] [])
               (Promotion.mkRestrictions false false 0).

End Scenario.

(** ** models/Schedule.js: the free slots of a room *)

Module Slots.

Record Slot := mkSlot {
  startTime : Date;
  endTime : Date
}.

(** A day, in milliseconds, and the times of day the search uses. *)
Definition day : Z := 24 * 60 * 60 * 1000.
Definition opening : Z := 9 * 60 * 60 * 1000.
Definition closing : Z := 23 * 60 * 60 * 1000.
Definition step : Z := 15 * 60000.

(** [endOfDay]: 23:59:59.999 of the day that starts at [startOfDay]. *)
Definition endOfDay (startOfDay : Date) : Date := startOfDay + day - 1.

(** The filter of the [find] of [getAvailableSlots], applied to a stored
    schedule [e]: the schedules of the room that are not cancelled and
    meet the day. *)
Definition day_query (roomId : ObjectId) (startOfDay : Date) (e : Schedule.t) : bool :=
  Nat.eqb (Schedule.roomId e) roomId
  && negb (Schedule.is_cancelled (Schedule.status e))
  && (   ((Schedule.startTime e >=? startOfDay)
          && (Schedule.startTime e <=? endOfDay startOfDay))
      || ((Schedule.endTime e >=? startOfDay)
          && (Schedule.endTime e <=? endOfDay startOfDay))
      || ((Schedule.startTime e <=? startOfDay)
          && (Schedule.endTime e >=? endOfDay startOfDay))).

(** [.sort('startTime')]: ascending, by insertion. *)
Fixpoint insert_by_startTime (e : Schedule.t) (l : list Schedule.t) : list Schedule.t :=
  match l with
  | [] => [e]
  | a :: r =>
      if Schedule.startTime e <? Schedule.startTime a then e :: l
      else a :: insert_by_startTime e r
  end.

Definition sort_by_startTime (l : list Schedule.t) : list Schedule.t :=
  fold_right insert_by_startTime [] l.

Definition existingSchedules (schedules : list Schedule.t) (roomId : ObjectId)
           (startOfDay : Date) : list Schedule.t :=
  sort_by_startTime (filter (day_query roomId startOfDay) schedules).

(** The test of the [some] of the loop: the slot from [currentTime] to
    [slotEndTime] meets [schedule]. *)
Definition busy (currentTime slotEndTime : Date) (schedule : Schedule.t) : bool :=
     ((currentTime >=? Schedule.startTime schedule)
      && (currentTime <? Schedule.endTime schedule))
  || ((slotEndTime >? Schedule.startTime schedule)
      && (slotEndTime <=? Schedule.endTime schedule))
  || ((currentTime <=? Schedule.startTime schedule)
      && (slotEndTime >=? Schedule.endTime schedule)).

(** [while (currentTime <= closingTime) { ... }], with [fuel] bounding
    the number of iterations. *)
Fixpoint slots_loop (fuel : nat) (existing : list Schedule.t)
         (closingTime slotDuration currentTime : Date) (availableSlots : list Slot)
  : list Slot :=
  match fuel with
  | O => availableSlots
  | S fuel' =>
      if currentTime <=? closingTime then
        let slotEndTime := currentTime + slotDuration in
        let isAvailable := negb (existsb (busy currentTime slotEndTime) existing) in
        slots_loop fuel' existing closingTime slotDuration (currentTime + step)
                   (if isAvailable
                    then availableSlots ++ [mkSlot currentTime slotEndTime]
                    else availableSlots)
      else availableSlots
  end.

(** The number of times of day the loop visits: 9:00, 9:15, ..., 23:00. *)
Definition visits : nat := 57.

(** [scheduleSchema.statics.getAvailableSlots]; [startOfDay] is the local
    midnight of the requested date (a day without a daylight-saving
    shift), [duration] the duration of the movie in minutes. *)
Definition getAvailableSlots (schedules : list Schedule.t) (roomId : ObjectId)
           (startOfDay : Date) (duration : Z) : list Slot :=
  slots_loop visits (existingSchedules schedules roomId startOfDay)
             (startOfDay + closing) ((duration + 30) * 60000)
             (startOfDay + opening) [].

(** The slot the loop tries at its [k]-th visit. *)
Definition slot_at (startOfDay : Date) (duration : Z) (k : Z) : Slot :=
  mkSlot (startOfDay + opening + k * step)
         (startOfDay + opening + k * step + (duration + 30) * 60000).

(** A slot that meets none of the schedules of the room that are not
    cancelled and meet the day. *)
Definition free_in (schedules : list Schedule.t) (roomId : ObjectId)
           (startOfDay : Date) (sl : Slot) : Prop :=
  forall e, In e schedules -> day_query roomId startOfDay e = true ->
            busy (startTime sl) (endTime sl) e = false.

(** The schedule collection respects its interval discipline: the ids
    are those of distinct documents, and two schedules of the same room
    that are not cancelled do not overlap. *)
Definition disjoint (schedules : list Schedule.t) : Prop :=
  NoDup (map Schedule._id schedules)
  /\ forall a b, In a schedules -> In b schedules ->
       Schedule._id a <> Schedule._id b ->
       Schedule.roomId a = Schedule.roomId b ->
       Schedule.status a <> Schedule.cancelled ->
       Schedule.status b <> Schedule.cancelled ->
       ~ Schedule.overlaps a b.

(** How an operation may change a stored schedule [s] into [s']: the
    room and the interval stay, the status stays or becomes cancelled. *)
Record same_slot (s s' : Schedule.t) : Prop := mkSameSlot {
  ss_id : Schedule._id s' = Schedule._id s;
  ss_room : Schedule.roomId s' = Schedule.roomId s;
  ss_start : Schedule.startTime s' = Schedule.startTime s;
  ss_end : Schedule.endTime s' = Schedule.endTime s;
  ss_status : Schedule.status s' = Schedule.status s
              \/ Schedule.status s' = Schedule.cancelled
}.

Definition replace_by_id (this : Schedule.t) (schedules : list Schedule.t)
  : list Schedule.t :=
  map (fun e => if Nat.eqb (Schedule._id e) (Schedule._id this) then this else e)
      schedules.

(** How an operation may change the schedule collection. *)
Inductive change (ss ss' : list Schedule.t) : Prop :=
| ch_same : ss' = ss -> change ss ss'
| ch_insert : forall s,
    ss' = (ss ++ [s])%list ->
    Schedule._id s = fresh_id (map Schedule._id ss) ->
    (forall e, In e ss -> Schedule.overlap_query s e = false) ->
    change ss ss'
| ch_update : forall s s',
    Schedule.findById ss (Schedule._id s') = Some s ->
    ss' = replace_by_id s' ss ->
    same_slot s s' ->
    change ss ss'.

(** The schedules of a room that are shown at time [t]. *)
Definition shown (schedules : list Schedule.t) (roomId : ObjectId) (t : Date)
  : list Schedule.t :=
  filter (fun s => Nat.eqb (Schedule.roomId s) roomId
                   && negb (Schedule.is_cancelled (Schedule.status s))
                   && (Schedule.startTime s <=? t) && (t <? Schedule.endTime s))
         schedules.

(** A schedule that is shown at time [t]. *)
Definition covers (t : Date) (s : Schedule.t) : bool :=
  negb (Schedule.is_cancelled (Schedule.status s))
  && (Schedule.startTime s <=? t) && (t <? Schedule.endTime s).

End Slots.

(** ** The documents a request stores *)

Module Lifecycle.

(** The documents a request can store in place of a stored ticket [x]:
    [x] cancelled, [x] with new seats, concession items and voucher and
    the amounts recomputed, or [x] with the status of a payment
    propagated to it, when that passes the validators of the ticket. *)
Inductive step (x : Ticket.t) : Ticket.t -> Prop :=
| by_cancel : forall reason userId now,
    Ticket.is_cancelled (Ticket.status x) = false ->
    step x (Ticket.set_cancellation reason userId now
              (Ticket.set_status Ticket.cancelled x))
| by_edit : forall ss cs v,
    step x (Ticket.pre_save_totals false
              [Ticket.p_seats; Ticket.p_combos; Ticket.p_voucher]
              (Ticket.set_items (map Ticket.Seat.cast ss) cs v x))
| by_payment : forall p,
    Ticket.validate (Payment.propagate p x) = Ok tt ->
    step x (Payment.propagate p x).

(** How a request changes the ticket collection, document by document. *)
Inductive moved (ts ts' : list Ticket.t) : Prop :=
| mv_same : ts' = ts -> moved ts ts'
| mv_insert : forall now d,
    ts' = (ts ++ [Ticket.pre_save_qrCode true
                    (Ticket.pre_save_totals true [] (Ticket.new now ts d))])%list ->
    moved ts ts'
| mv_update : forall x x',
    Ticket.findById ts (Ticket._id x') = Some x ->
    step x x' ->
    ts' = Ticket.replace_by_id x' ts ->
    moved ts ts'
| mv_filter : forall keep,
    ts' = filter keep ts ->
    moved ts ts'.

(** The status changes of the code: a status stays, becomes cancelled,
    or goes from paid to refunded. *)
Definition transition (s s' : Ticket.Status) : Prop :=
  s' = s \/ s' = Ticket.cancelled \/ (s = Ticket.paid /\ s' = Ticket.refunded).

End Lifecycle.

(** ** More data for the examples *)

Module Cases.

(** Room 3 as it is submitted, before the hook builds its seat map. *)
Definition room3_data : Room.t := Room.mk 3 1 "Room 3" 9 [] true.

(** The reservation of the pricing scenario as a caller submits it, with
    amounts that are not the ones the pricing hook computes. *)
Definition booking_unpriced : Ticket.Data :=
  Ticket.mkData 11 1 3 [Scenario.seat_A1; Scenario.seat_B3] [Scenario.popcorn] None
                1 1 Ticket.card "".

(** Bob's request for seat A1 is served one minute after Alice's
    reservation. *)
Definition db2 : Engine.DB :=
  Engine.run Scenario.db1 (Engine.createReservation (Scenario.at_ 0 1) Scenario.rebooking).

(** A movie whose duration makes up for the cleaning time, and the
    request for a showing of it in room 3 at 17:00, the end of the
    stored showing. *)
Definition still : Movie.t := Movie.mk 8 (-30).

Definition after_evening : Schedule.t :=
  Schedule.mk 0 8 1 3 (Scenario.at_ 17 0) (Scenario.at_ 17 0) Scenario.prices
              Schedule.scheduled false "".

(** The request for a showing of room 3 that starts at 9:00. *)
Definition morning : Schedule.t :=
  Schedule.mk 0 7 1 3 (Scenario.at_ 9 0) (Scenario.at_ 9 0) Scenario.prices
              Schedule.scheduled false "".

(** The first slot of the day for a movie of 90 minutes: 9:00-11:00. *)
Definition first_slot : Slots.Slot := Slots.slot_at 0 90 0.

(** Alice cancels her reservation five milliseconds after midnight. *)
Definition cancel_alice : Engine.Op :=
  Engine.cancelReservation 5 1 11 "changed plans".

Definition cancelled_alice : Ticket.t * Ticket.Store :=
  match Ticket.cancel 5 (Engine.store Scenario.db1) Scenario.alice_ticket 11
                      "changed plans" with
  | Ok r => r
  | Err _ => (Scenario.alice_ticket, Engine.store Scenario.db1)
  end.

(** Alice's reservation as [create] submits it, and what the save
    returns. *)
Definition alice_request : Ticket.t :=
  Ticket.new 0 (Ticket.tickets Scenario.store0) (Scenario.booking None).

Definition alice_saved : Ticket.t * Ticket.Store :=
  match Ticket.save true [] Scenario.store0 alice_request with
  | Ok r => r
  | Err _ => (alice_request, Scenario.store0)
  end.

(** The same request with the snapshot of SUMMER10. *)
Definition alice_request_summer10 : Ticket.t :=
  Ticket.new 0 (Ticket.tickets Scenario.store0)
             (Scenario.booking (Some Scenario.summer10_voucher)).

(** The payment of Alice's reservation is reported as successful five
    minutes after the booking, and stored; [charged] is the stored
    payment. *)
Definition db_charged : Engine.DB :=
  Engine.run Scenario.db1
             (Engine.createPayment (Scenario.at_ 0 5) 7 true Scenario.late_success).

Definition charged : Payment.t :=
  Payment.mk 1 1 11 310000 Ticket.card (Some "PAY-300000-7") Payment.success None.

(** A promotion that can be used twice, after its first use and after
    its second. *)
Definition limited (uses : Z) : Promotion.t :=
  Promotion.mk 25 "LIMITED" "Two uses" Ticket.fixed 20000 None 0
               0 (Scenario.at_ 24 0) (Some 2) uses true (Promotion.mkApplicable [] [])
               (Promotion.mkRestrictions false false 0).

(** What [validateAndApply] answers for the code of SUMMER10 in lower
    case, with a space on either side, and an order of 100000. *)
Definition summer10_applied : Promotion.Applied :=
  match Promotion.validateAndApply 5 [] [] [Scenario.summer10] " summer10 " None 100000
                                   None [] with
  | Ok a => a
  | Err _ => Promotion.mkApplied 0 "" "" Ticket.fixed 0 None 0
  end.

End Cases.

(** * Properties *)

(** ** Fresh identifiers *)

Lemma fresh_id_above (ids : list ObjectId) (i : ObjectId) :
  In i ids -> (i < fresh_id ids)%nat.
Proof.
  unfold fresh_id. induction ids as [|j ids IH]; simpl; [tauto|].
  intros [->|Hin]; [lia|]. specialize (IH Hin). lia.
Qed.

Lemma fresh_id_not_in (ids : list ObjectId) : ~ In (fresh_id ids) ids.
Proof.
  intros Hin. apply fresh_id_above in Hin. lia.
Qed.

(** ** The seat map of a room (models/Room.js) *)

Section SeatMap.

Variables capacity seatsPerRow : Z.

Lemma col_loop_balance : forall fuel row col st,
  Z.of_nat (List.length (Room.out (Room.col_loop fuel capacity seatsPerRow row col st)))
    - Room.seatNumber (Room.col_loop fuel capacity seatsPerRow row col st)
  = Z.of_nat (List.length (Room.out st)) - Room.seatNumber st.
Proof.
  induction fuel as [|fuel IH]; intros row col st; simpl; [reflexivity|].
  destruct ((col <=? seatsPerRow) && (Room.seatNumber st <? capacity)); [|reflexivity].
  rewrite IH. simpl. rewrite length_app. simpl. lia.
Qed.

Lemma col_loop_seatNumber : forall fuel row col st,
  Room.seatNumber st <= capacity ->
  Z.of_nat fuel = seatsPerRow - col + 1 ->
  Room.seatNumber (Room.col_loop fuel capacity seatsPerRow row col st)
  = Z.min capacity (Room.seatNumber st + Z.of_nat fuel).
Proof.
  induction fuel as [|fuel IH]; intros row col st Hle Hfuel; simpl Room.col_loop.
  - lia.
  - destruct (Z.leb_spec col seatsPerRow) as [Hc|Hc]; [|lia].
    destruct (Z.ltb_spec (Room.seatNumber st) capacity) as [Hs|Hs]; simpl.
    + rewrite IH; simpl; lia.
    + lia.
Qed.

Lemma row_loop_balance : forall fuel rows row st,
  Z.of_nat (List.length (Room.out (Room.row_loop fuel capacity rows seatsPerRow row st)))
    - Room.seatNumber (Room.row_loop fuel capacity rows seatsPerRow row st)
  = Z.of_nat (List.length (Room.out st)) - Room.seatNumber st.
Proof.
  induction fuel as [|fuel IH]; intros rows row st; simpl; [reflexivity|].
  destruct ((row <? rows) && (Room.seatNumber st <? capacity)); [|reflexivity].
  rewrite IH. apply col_loop_balance.
Qed.

Lemma row_loop_seatNumber : forall fuel rows row st,
  0 <= seatsPerRow ->
  Room.seatNumber st <= capacity ->
  Z.of_nat fuel = rows - row ->
  Room.seatNumber (Room.row_loop fuel capacity rows seatsPerRow row st)
  = Z.min capacity (Room.seatNumber st + Z.of_nat fuel * seatsPerRow).
Proof.
  induction fuel as [|fuel IH]; intros rows row st Hspr Hle Hfuel; simpl Room.row_loop.
  - lia.
  - destruct (Z.ltb_spec row rows) as [Hr|Hr]; [|lia].
    destruct (Z.ltb_spec (Room.seatNumber st) capacity) as [Hs|Hs]; simpl andb; cbv iota.
    + assert (Hcol := col_loop_seatNumber (Z.to_nat seatsPerRow) row 1 st Hle).
      rewrite Z2Nat.id in Hcol by lia.
      specialize (Hcol ltac:(lia)).
      rewrite IH; lia.
    + assert (0 <= Z.of_nat fuel * seatsPerRow) by nia. lia.
Qed.

End SeatMap.

Lemma ceil_sqrt_3_halves_pos n : 0 < n -> 0 < JS.ceil_sqrt_3_halves n.
Proof.
  intros Hn. unfold JS.ceil_sqrt_3_halves.
  apply Z.sqrt_up_pos. apply Z.div_str_pos. lia.
Qed.

(** [ceil_sqrt_3_halves n] is the least [r >= 0] with [2 r^2 >= 3 n]. *)
Lemma ceil_sqrt_3_halves_spec n :
  0 < n ->
  let r := JS.ceil_sqrt_3_halves n in
  3 * n <= 2 * (r * r) /\ 2 * ((r - 1) * (r - 1)) < 3 * n.
Proof.
  intros Hn r. subst r. unfold JS.ceil_sqrt_3_halves.
  assert (Hpos : 0 < (3 * n + 1) / 2) by (apply Z.div_str_pos; lia).
  destruct (Z.sqrt_up_spec _ Hpos) as [Hlo Hhi].
  rewrite Z.sub_1_r.
  set (a := (3 * n + 1) / 2) in *.
  assert (2 * a <= 3 * n + 1 < 2 * a + 2).
  { unfold a. pose proof (Z.mul_div_le (3 * n + 1) 2 ltac:(lia)).
    pose proof (Z.mul_succ_div_gt (3 * n + 1) 2 ltac:(lia)). lia. }
  split; nia.
Qed.

Lemma ceil_div_covers a b : 0 < b -> a <= b * JS.ceil_div a b.
Proof.
  intros Hb. unfold JS.ceil_div.
  pose proof (Z.mul_succ_div_gt (a + b - 1) b Hb). lia.
Qed.

Lemma ceil_div_nonneg a b : 0 <= a -> 0 < b -> 0 <= JS.ceil_div a b.
Proof.
  intros Ha Hb. unfold JS.ceil_div. apply Z.div_pos; lia.
Qed.

Lemma generateSeatMap_length capacity :
  0 <= capacity ->
  Z.of_nat (List.length (Room.generateSeatMap capacity)) = capacity.
Proof.
  intros Hc. unfold Room.generateSeatMap.
  set (rows := JS.ceil_sqrt_3_halves capacity).
  set (spr := JS.ceil_div capacity rows).
  pose proof (row_loop_balance capacity spr (Z.to_nat rows) rows 0 (Room.mkGen [] 0)) as Hb.
  simpl in Hb.
  destruct (Z.eq_dec capacity 0) as [->|Hne].
  - reflexivity.
  - assert (Hrows : 0 < rows) by (apply ceil_sqrt_3_halves_pos; lia).
    assert (Hspr : 0 <= spr) by (apply ceil_div_nonneg; lia).
    pose proof (row_loop_seatNumber capacity spr (Z.to_nat rows) rows 0 (Room.mkGen [] 0)
                  Hspr ltac:(simpl; lia) ltac:(lia)) as Hs.
    simpl in Hs. rewrite Z2Nat.id in Hs by lia.
    pose proof (ceil_div_covers capacity rows Hrows). fold spr in H.
    lia.
Qed.

Lemma col_loop_generated : forall fuel capacity seatsPerRow row col st,
  Forall Room.generated_seat (Room.out st) ->
  Forall Room.generated_seat (Room.out (Room.col_loop fuel capacity seatsPerRow row col st)).
Proof.
  induction fuel as [|fuel IH]; intros capacity seatsPerRow row col st Hst; simpl; auto.
  destruct ((col <=? seatsPerRow) && (Room.seatNumber st <? capacity)); auto.
  apply IH. simpl. apply Forall_app. split; auto.
  constructor; [|constructor].
  unfold Room.generated_seat; simpl. repeat split.
  replace (col - 1 + 1) with col by lia. reflexivity.
Qed.

Lemma row_loop_generated : forall fuel capacity rows seatsPerRow row st,
  Forall Room.generated_seat (Room.out st) ->
  Forall Room.generated_seat (Room.out (Room.row_loop fuel capacity rows seatsPerRow row st)).
Proof.
  induction fuel as [|fuel IH]; intros capacity rows seatsPerRow row st Hst; simpl; auto.
  destruct ((row <? rows) && (Room.seatNumber st <? capacity)); auto.
  apply IH. apply col_loop_generated. exact Hst.
Qed.

Lemma generateSeatMap_generated capacity :
  Forall Room.generated_seat (Room.generateSeatMap capacity).
Proof.
  unfold Room.generateSeatMap. apply row_loop_generated. constructor.
Qed.

(** X1: what holds of the seat map after every save that regenerates it:
    the supplied seats are discarded, there are as many seats as the
    capacity asks for, the capacity is the number of seats, every seat is
    available, and the seats of the first two rows, and only they, are
    VIP seats. *)
Lemma room_pre_save_regenerates (isNew capacityModified : bool) (r : Room.t) :
  isNew || capacityModified = true ->
  0 <= Room.capacity r ->
  let r' := Room.pre_save isNew capacityModified r in
  Room.seats r' = map Room.cast_seat (Room.generateSeatMap (Room.capacity r))
  /\ Z.of_nat (List.length (Room.seats r')) = Room.capacity r
  /\ Room.capacity r' = Z.of_nat (List.length (Room.seats r'))
  /\ Forall (fun s => Room.status s = Room.available
                      /\ (Room.type s = Room.vip <-> Room.row s < 2))
            (Room.seats r').
Proof.
  intros Hflag Hcap r'. subst r'. unfold Room.pre_save. rewrite Hflag. simpl.
  rewrite length_map, generateSeatMap_length by exact Hcap.
  repeat split.
  apply Forall_map.
  eapply Forall_impl; [|apply generateSeatMap_generated].
  intros s (Hst & Hty & _). simpl. split; [exact Hst|].
  rewrite Hty. destruct (Z.ltb_spec (Room.row s) 2); split; intro; try lia; congruence.
Qed.

(** *** Seat codes *)

Lemma placed_weaken rows seatsPerRow bound bound' l :
  bound <= bound' ->
  Room.placed rows seatsPerRow bound l -> Room.placed rows seatsPerRow bound' l.
Proof.
  intros Hle [Hall Hnd]. split; [|exact Hnd].
  eapply Forall_impl; [|exact Hall]. simpl. intros s H. lia.
Qed.

Lemma placed_snoc rows seatsPerRow bound l s :
  Room.placed rows seatsPerRow bound l ->
  0 <= Room.row s < rows -> 0 <= Room.column s < seatsPerRow ->
  Room.seat_key seatsPerRow s = bound ->
  Room.placed rows seatsPerRow (bound + 1) (l ++ [s]).
Proof.
  intros [Hall Hnd] Hrow Hcol Hkey. split.
  - apply Forall_app. split.
    + eapply Forall_impl; [|exact Hall]. simpl. intros a H. lia.
    + constructor; [lia|constructor].
  - rewrite map_app. simpl. apply NoDup_app; [exact Hnd|repeat constructor; tauto|].
    intros k Hk [<-|[]]. apply in_map_iff in Hk. destruct Hk as (a & Ha & Hin).
    pose proof (proj1 (Forall_forall _ _) Hall a Hin) as Hb. simpl in Hb. lia.
Qed.

Lemma col_loop_placed capacity rows seatsPerRow : forall fuel row col st,
  0 <= row < rows -> 1 <= col <= seatsPerRow + 1 ->
  Room.placed rows seatsPerRow (row * seatsPerRow + col - 1) (Room.out st) ->
  Room.placed rows seatsPerRow ((row + 1) * seatsPerRow)
              (Room.out (Room.col_loop fuel capacity seatsPerRow row col st)).
Proof.
  induction fuel as [|fuel IH]; intros row col st Hrow Hcol Hst; simpl.
  - eapply placed_weaken; [|exact Hst]. lia.
  - destruct (Z.leb_spec col seatsPerRow) as [Hc|Hc]; simpl.
    + destruct (Room.seatNumber st <? capacity).
      * apply IH; [exact Hrow|lia|]. simpl.
        replace (row * seatsPerRow + (col + 1) - 1)
          with (row * seatsPerRow + col - 1 + 1) by lia.
        apply placed_snoc; [exact Hst| | |]; unfold Room.seat_key; simpl; lia.
      * eapply placed_weaken; [|exact Hst]. lia.
    + eapply placed_weaken; [|exact Hst]. lia.
Qed.

Lemma row_loop_placed capacity rows seatsPerRow : forall fuel row st,
  0 <= seatsPerRow -> 0 <= row <= rows ->
  Room.placed rows seatsPerRow (row * seatsPerRow) (Room.out st) ->
  Room.placed rows seatsPerRow (rows * seatsPerRow)
              (Room.out (Room.row_loop fuel capacity rows seatsPerRow row st)).
Proof.
  induction fuel as [|fuel IH]; intros row st Hspr Hrow Hst; simpl.
  - eapply placed_weaken; [|exact Hst]. nia.
  - destruct (Z.ltb_spec row rows) as [Hr|Hr]; simpl.
    + destruct (Room.seatNumber st <? capacity).
      * apply IH; [exact Hspr|lia|].
        apply col_loop_placed; [lia|lia|].
        replace (row * seatsPerRow + 1 - 1) with (row * seatsPerRow) by lia.
        exact Hst.
      * eapply placed_weaken; [|exact Hst]. nia.
    + eapply placed_weaken; [|exact Hst]. nia.
Qed.

Lemma generateSeatMap_placed capacity :
  0 < capacity ->
  let rows := JS.ceil_sqrt_3_halves capacity in
  let seatsPerRow := JS.ceil_div capacity rows in
  Room.placed rows seatsPerRow (rows * seatsPerRow) (Room.generateSeatMap capacity).
Proof.
  intros Hc rows seatsPerRow. unfold Room.generateSeatMap. fold rows. fold seatsPerRow.
  assert (Hrows : 0 < rows) by (apply ceil_sqrt_3_halves_pos; exact Hc).
  apply row_loop_placed.
  - apply ceil_div_nonneg; lia.
  - lia.
  - split; simpl; constructor.
Qed.

Lemma rows_at_most_26 capacity :
  0 <= capacity <= 450 -> JS.ceil_sqrt_3_halves capacity <= 26.
Proof.
  intros Hc. unfold JS.ceil_sqrt_3_halves.
  change 26 with (Z.sqrt_up 675).
  apply Z.sqrt_up_le_mono.
  assert ((3 * capacity + 1) / 2 < 676) by (apply Z.div_lt_upper_bound; lia). lia.
Qed.

(** The letters of the alphabet, by index. *)
Lemma alphabet_letter (n : nat) :
  (n < 26)%nat -> String.get n Room.alphabet = Some (ascii_of_nat (65 + n)).
Proof.
  intros Hn.
  do 26 (destruct n as [|n]; [reflexivity|]). lia.
Qed.

Lemma alphabet_letter_plain (n : nat) :
  (n < 26)%nat -> JS.plain (ascii_of_nat (65 + n)) = true.
Proof.
  intros Hn.
  do 26 (destruct n as [|n]; [reflexivity|]). lia.
Qed.

Lemma show_row_letter (row : Z) :
  0 <= row < 26 ->
  JS.show_char_at Room.alphabet row
  = String (ascii_of_nat (65 + Z.to_nat row)) EmptyString.
Proof.
  intros Hrow. unfold JS.show_char_at.
  destruct (Z.ltb_spec row 0); [lia|].
  rewrite alphabet_letter by lia. reflexivity.
Qed.

(** Decimal numerals. *)
Lemma digits_plain (d : Decimal.uint) :
  JS.all_plain (NilEmpty.string_of_uint d) = true.
Proof.
  induction d; simpl; try rewrite IHd; reflexivity.
Qed.

Lemma show_int_plain (z : Z) : 0 <= z -> JS.all_plain (JS.show_int z) = true.
Proof.
  intros Hz. unfold JS.show_int. destruct z as [|p|p]; [reflexivity| |lia].
  simpl. unfold NilZero.string_of_uint.
  destruct (Pos.to_uint p); try reflexivity; apply digits_plain.
Qed.

Lemma show_int_inj (a b : Z) : JS.show_int a = JS.show_int b -> a = b.
Proof.
  unfold JS.show_int. intros H.
  assert (Hnz : forall z, Z.to_int z <> Decimal.Pos Decimal.Nil
                          /\ Z.to_int z <> Decimal.Neg Decimal.Nil).
  { intros [|p|p]; simpl; split; try discriminate;
      intros [= Heq]; exact (Unsigned.to_uint_nonnil p Heq). }
  apply DecimalZ.to_int_inj.
  pose proof (NilZero.isi (Z.to_int a) (proj1 (Hnz a)) (proj2 (Hnz a))) as Ha.
  pose proof (NilZero.isi (Z.to_int b) (proj1 (Hnz b)) (proj2 (Hnz b))) as Hb.
  rewrite H in Ha. congruence.
Qed.

(** The setters of a seat code leave a string of plain characters as it
    is. *)
Lemma toUpperCase_plain (s : string) : JS.all_plain s = true -> JS.toUpperCase s = s.
Proof.
  induction s as [|c r IH]; simpl; [reflexivity|].
  intros H. apply andb_true_iff in H. destruct H as [Hc Hr].
  unfold JS.plain in Hc. apply andb_true_iff in Hc. destruct Hc as [_ Hc].
  apply Ascii.eqb_eq in Hc. rewrite Hc, IH by exact Hr. reflexivity.
Qed.

Lemma trimEnd_plain (s : string) : JS.all_plain s = true -> JS.trimEnd s = s.
Proof.
  induction s as [|c r IH]; simpl; [reflexivity|].
  intros H. apply andb_true_iff in H. destruct H as [Hc Hr].
  rewrite IH by exact Hr.
  unfold JS.plain in Hc. apply andb_true_iff in Hc. destruct Hc as [Hc _].
  apply negb_true_iff in Hc. rewrite Hc. destruct r; reflexivity.
Qed.

Lemma trimStart_plain (s : string) : JS.all_plain s = true -> JS.trimStart s = s.
Proof.
  destruct s as [|c r]; simpl; [reflexivity|].
  intros H. apply andb_true_iff in H. destruct H as [Hc _].
  unfold JS.plain in Hc. apply andb_true_iff in Hc. destruct Hc as [Hc _].
  apply negb_true_iff in Hc. rewrite Hc. reflexivity.
Qed.

Lemma setters_plain (s : string) :
  JS.all_plain s = true -> JS.toUpperCase (JS.trim s) = s.
Proof.
  intros H. unfold JS.trim.
  rewrite trimStart_plain, trimEnd_plain, toUpperCase_plain by exact H. reflexivity.
Qed.

(** The code of a generated seat of one of the first 26 rows. *)
Lemma generated_code (s : Room.Seat) :
  Room.generated_seat s -> 0 <= Room.row s < 26 -> 0 <= Room.column s ->
  Room.code s = String (ascii_of_nat (65 + Z.to_nat (Room.row s)))
                       (JS.show_int (Room.column s + 1))
  /\ Room.code (Room.cast_seat s) = Room.code s.
Proof.
  intros (_ & _ & Hcode) Hrow Hcol.
  rewrite show_row_letter in Hcode by exact Hrow. simpl in Hcode.
  split; [exact Hcode|].
  unfold Room.cast_seat, Room.code at 1. apply setters_plain. rewrite Hcode.
  change (JS.plain (ascii_of_nat (65 + Z.to_nat (Room.row s)))
          && JS.all_plain (JS.show_int (Room.column s + 1)) = true).
  rewrite alphabet_letter_plain by lia.
  apply show_int_plain. lia.
Qed.

Lemma NoDup_map_transfer {A B C : Type} (f : A -> B) (g : A -> C) (l : list A) :
  NoDup (map f l) ->
  (forall a b, In a l -> In b l -> g a = g b -> f a = f b) ->
  NoDup (map g l).
Proof.
  induction l as [|a l IH]; simpl; intros Hnd Hinj; [constructor|].
  inversion Hnd as [|? ? Hnotin Hnd']; subst.
  constructor.
  - intros Hin. apply in_map_iff in Hin. destruct Hin as (b & Hb & Hbin).
    apply Hnotin. rewrite (Hinj a b (or_introl eq_refl) (or_intror Hbin) (eq_sym Hb)).
    apply in_map, Hbin.
  - apply IH; [exact Hnd'|]. intros x y Hx Hy. apply Hinj; right; assumption.
Qed.

(** X2: up to a capacity of 450 the map has at most 26 rows, and the codes of
    the saved room are a row letter followed by the column number, and
    pairwise distinct. *)
Lemma room_codes_distinct_up_to_450 (isNew capacityModified : bool) (r : Room.t) :
  isNew || capacityModified = true ->
  0 < Room.capacity r <= 450 ->
  let r' := Room.pre_save isNew capacityModified r in
  Forall (fun s => exists letter,
              String.get (Z.to_nat (Room.row s)) Room.alphabet = Some letter
              /\ Room.code s = String letter (JS.show_int (Room.column s + 1)))
         (Room.seats r')
  /\ NoDup (map Room.code (Room.seats r')).
Proof.
  intros Hflag Hcap r'. subst r'. unfold Room.pre_save. rewrite Hflag. simpl.
  set (cap := Room.capacity r) in *.
  pose proof (generateSeatMap_placed cap ltac:(lia)) as [Hgrid Hnd]. cbv zeta in *.
  pose proof (generateSeatMap_generated cap) as Hgen.
  pose proof (rows_at_most_26 cap ltac:(lia)) as Hrows.
  set (rows := JS.ceil_sqrt_3_halves cap) in *.
  set (spr := JS.ceil_div cap rows) in *.
  assert (Hseat : forall s, In s (Room.generateSeatMap cap) ->
            0 <= Room.row s < 26 /\ 0 <= Room.column s /\ Room.generated_seat s).
  { intros s Hin.
    pose proof (proj1 (Forall_forall _ _) Hgrid s Hin) as Hs. simpl in Hs.
    pose proof (proj1 (Forall_forall _ _) Hgen s Hin) as Hg.
    repeat split; try lia; apply Hg. }
  split.
  - apply Forall_map, Forall_forall. intros s Hin.
    destruct (Hseat s Hin) as (Hrow & Hcol & Hg).
    destruct (generated_code s Hg Hrow Hcol) as [Hcode Hcast].
    exists (ascii_of_nat (65 + Z.to_nat (Room.row s))). split.
    + simpl. apply alphabet_letter. lia.
    + rewrite Hcast. exact Hcode.
  - rewrite map_map.
    rewrite (map_ext_in _ Room.code).
    + apply (NoDup_map_transfer (Room.seat_key spr)); [exact Hnd|].
      intros a b Ha Hb Hab.
      destruct (Hseat a Ha) as (Hra & Hca & Hga).
      destruct (Hseat b Hb) as (Hrb & Hcb & Hgb).
      rewrite (proj1 (generated_code a Hga Hra Hca)) in Hab.
      rewrite (proj1 (generated_code b Hgb Hrb Hcb)) in Hab.
      injection Hab as Hletter Hnum.
      apply show_int_inj in Hnum.
      apply (f_equal nat_of_ascii) in Hletter.
      rewrite !nat_ascii_embedding in Hletter by lia.
      assert (Hrow : Room.row a = Room.row b) by lia.
      assert (Hcol : Room.column a = Room.column b) by lia.
      unfold Room.seat_key. rewrite Hrow, Hcol. reflexivity.
    + intros s Hin. destruct (Hseat s Hin) as (Hrow & Hcol & Hg).
      exact (proj2 (generated_code s Hg Hrow Hcol)).
Qed.

(** C10 at a capacity of 487.  The map has 28 rows of 18 seats; the
    alphabet has 26 letters, so rows 26 and 27 are both rendered with
    [undefined] for their letter, and the first seat of each gets the
    same code: the codes of the saved room are not pairwise distinct, and
    are not a row letter followed by a column number. *)
Theorem room_487_duplicate_seat_codes :
  let r' := Room.pre_save true false Scenario.hall_487 in
  nth_error (map Room.code (Room.seats r')) 468 = Some "UNDEFINED1"%string
  /\ nth_error (map Room.code (Room.seats r')) 486 = Some "UNDEFINED1"%string
  /\ ~ NoDup (map Room.code (Room.seats r')).
Proof.
  intros r'.
  assert (H468 : nth_error (map Room.code (Room.seats r')) 468 = Some "UNDEFINED1"%string)
    by (vm_compute; reflexivity).
  assert (H486 : nth_error (map Room.code (Room.seats r')) 486 = Some "UNDEFINED1"%string)
    by (vm_compute; reflexivity).
  split; [exact H468|split; [exact H486|]].
  intros Hnd.
  assert (Hlen : (468 < List.length (map Room.code (Room.seats r')))%nat).
  { apply nth_error_Some. rewrite H468. discriminate. }
  pose proof (proj1 (NoDup_nth_error _) Hnd 468%nat 486%nat Hlen) as Heq.
  rewrite H468, H486 in Heq. specialize (Heq eq_refl). discriminate.
Qed.

(** ** Slot allocation (models/Schedule.js) *)

Lemma is_cancelled_schedule (s : Schedule.Status) :
  Schedule.is_cancelled s = false <-> s <> Schedule.cancelled.
Proof. destruct s; simpl; split; intro; congruence. Qed.

(** On well-formed intervals the three alternatives of the query are the
    half-open overlap test. *)
Lemma overlap_query_iff (this e : Schedule.t) :
  Schedule.well_formed this -> Schedule.well_formed e ->
  Schedule.overlap_query this e = true <->
  Schedule._id e <> Schedule._id this
  /\ Schedule.roomId e = Schedule.roomId this
  /\ Schedule.status e <> Schedule.cancelled
  /\ Schedule.overlaps this e.
Proof.
  unfold Schedule.well_formed, Schedule.overlap_query, Schedule.overlaps.
  intros Hthis He.
  rewrite !andb_true_iff, !orb_true_iff, !andb_true_iff, !negb_true_iff.
  rewrite Nat.eqb_neq, Nat.eqb_eq, is_cancelled_schedule.
  rewrite !Z.ltb_lt, !Z.leb_le, !Z.geb_le, !Z.gtb_lt.
  intuition lia.
Qed.

Section CreateShowing.

Variable movies : list Movie.t.
Variable schedules : list Schedule.t.
Variable d : Schedule.t.
Variable movie : Movie.t.

Hypothesis d_valid : Schedule.validate d = Ok tt.
Hypothesis movie_found : Movie.findById movies (Schedule.movieId d) = Some movie.

(** For valid data and a known movie, [create] is the overlap query on
    the stamped schedule, followed by the write. *)
Lemma create_unfold :
  forall s, s = Schedule.stamped schedules (Movie.duration movie) d ->
  Schedule.create movies schedules d =
  match find (Schedule.overlap_query s) schedules with
  | Some _ => Err RoomConflict
  | None => Ok (s, (schedules ++ [s])%list)
  end.
Proof.
  intros s ->. unfold Schedule.create, Schedule.save.
  replace (Schedule.validate (Schedule.set_id _ d)) with (Schedule.validate d)
    by reflexivity.
  rewrite d_valid. simpl bind.
  unfold Schedule.pre_save_endTime. simpl orb. cbv iota.
  simpl Schedule.movieId. rewrite movie_found. simpl bind.
  unfold Schedule.pre_save_overlap. simpl orb. cbv iota.
  fold (Schedule.stamped schedules (Movie.duration movie) d).
  destruct (find _ schedules); reflexivity.
Qed.

Lemma create_conflict_iff_query :
  forall s, s = Schedule.stamped schedules (Movie.duration movie) d ->
  Schedule.create movies schedules d = Err RoomConflict <->
  exists e, In e schedules /\ Schedule.overlap_query s e = true.
Proof.
  intros s Hs. rewrite (create_unfold s Hs).
  destruct (find (Schedule.overlap_query s) schedules) as [e|] eqn:Hfind.
  - split; [intros _|reflexivity].
    apply find_some in Hfind. exists e. exact Hfind.
  - split.
    + discriminate.
    + intros (e & Hin & Hq). eapply find_none in Hfind; [|exact Hin]. congruence.
Qed.

End CreateShowing.

(** C3, for showings that have a length.  When the movie lasts more
    than -30 minutes, so that the new showing ends after it starts, and
    the stored showings end after they start, creating a showing fails
    with the room-conflict error exactly when a showing of the same room
    that is not cancelled overlaps the half-open interval of the new
    one; a showing that only touches it is not matched by the query;
    creating 14:00-16:00 against a stored 15:00-17:00 of the same room
    is rejected. *)
Theorem createShowing_conflict_iff_overlap
  (movies : list Movie.t) (schedules : list Schedule.t) (d : Schedule.t)
  (movie : Movie.t) :
  Schedule.validate d = Ok tt ->
  Movie.findById movies (Schedule.movieId d) = Some movie ->
  -30 < Movie.duration movie ->
  Forall Schedule.well_formed schedules ->
  let s := Schedule.stamped schedules (Movie.duration movie) d in
  (Schedule.create movies schedules d = Err RoomConflict <->
   exists e, In e schedules
             /\ Schedule.roomId e = Schedule.roomId d
             /\ Schedule.status e <> Schedule.cancelled
             /\ Schedule.overlaps s e)
  /\ (forall e, In e schedules ->
        Schedule.endTime s = Schedule.startTime e
        \/ Schedule.startTime s = Schedule.endTime e ->
        Schedule.overlap_query s e = false)
  /\ Schedule.create [Scenario.feature] [Scenario.evening] Scenario.matinee
     = Err RoomConflict.
Proof.
  intros Hvalid Hmovie Hdur Hwf s.
  assert (Hs : Schedule.well_formed s).
  { unfold Schedule.well_formed, s, Schedule.stamped. simpl. lia. }
  assert (Hquery : forall e, In e schedules ->
            (Schedule.overlap_query s e = true <->
             Schedule.roomId e = Schedule.roomId d
             /\ Schedule.status e <> Schedule.cancelled
             /\ Schedule.overlaps s e)).
  { intros e Hin.
    rewrite overlap_query_iff;
      [|exact Hs|exact (proj1 (Forall_forall _ _) Hwf e Hin)].
    assert (Hid : Schedule._id e <> Schedule._id s).
    { simpl. intros Heq.
      apply (fresh_id_not_in (map Schedule._id schedules)).
      rewrite <- Heq. apply in_map, Hin. }
    simpl Schedule.roomId. tauto. }
  split; [|split].
  - rewrite (create_conflict_iff_query movies schedules d movie Hvalid Hmovie s eq_refl).
    split.
    + intros (e & Hin & Hq). exists e. split; [exact Hin|]. apply Hquery; assumption.
    + intros (e & Hin & Hrest). exists e. split; [exact Hin|]. apply Hquery; assumption.
  - intros e Hin Htouch.
    destruct (Schedule.overlap_query s e) eqn:Hq; [|reflexivity].
    apply (Hquery e Hin) in Hq. destruct Hq as (_ & _ & Ha & Hb).
    pose proof (proj1 (Forall_forall _ _) Hwf e Hin) as He.
    unfold Schedule.well_formed in *. lia.
  - reflexivity.
Qed.

Lemma createShowing_conflict_iff_overlap_witness :
  (Schedule.create [Scenario.feature] [Scenario.evening] Scenario.matinee
   = Err RoomConflict <->
   exists e, In e [Scenario.evening]
             /\ Schedule.roomId e = Schedule.roomId Scenario.matinee
             /\ Schedule.status e <> Schedule.cancelled
             /\ Schedule.overlaps
                  (Schedule.stamped [Scenario.evening] 90 Scenario.matinee) e).
Proof.
  refine (proj1 (createShowing_conflict_iff_overlap
            [Scenario.feature] [Scenario.evening] Scenario.matinee Scenario.feature
            _ _ _ _)).
  - reflexivity.
  - reflexivity.
  - simpl; lia.
  - repeat constructor.
Defined.

(** C3 as the specification states it fails on a showing without length.
    The schema of the movies sets no minimum on [duration]: a movie of
    -30 minutes gives a showing that ends when it starts.  Requested at
    17:00 in room 3, it touches the stored showing 15:00-17:00 at its
    end and overlaps nothing, yet the third alternative of the query
    matches and the request is refused with the room conflict. *)
Lemma empty_showing_refused_at_boundary :
  let movies := [Scenario.feature; Cases.still] in
  let s := Schedule.stamped [Scenario.evening] (Movie.duration Cases.still)
                            Cases.after_evening in
  Schedule.validate Cases.after_evening = Ok tt
  /\ Movie.findById movies (Schedule.movieId Cases.after_evening) = Some Cases.still
  /\ Schedule.startTime s = Schedule.endTime Scenario.evening
  /\ Schedule.endTime s = Schedule.startTime s
  /\ ~ Schedule.overlaps s Scenario.evening
  /\ Schedule.create movies [Scenario.evening] Cases.after_evening = Err RoomConflict.
Proof.
  intros movies s. repeat split.
  unfold Schedule.overlaps. intros [H _]. vm_compute in H. discriminate H.
Qed.

(** ** The ticket collection (models/Ticket.js) *)

Lemma bind_ok {A B : Type} (r : Result A) (k : A -> Result B) (b : B) :
  bind r k = Ok b -> exists a, r = Ok a /\ k a = Ok b.
Proof. destruct r as [a|e]; simpl; [eauto|discriminate]. Qed.

Lemma check_ok (c : bool) (e : Error) (u : unit) : check c e = Ok u -> c = true.
Proof. destruct c; simpl; [reflexivity|discriminate]. Qed.

Lemma is_cancelled_ticket (s : Ticket.Status) :
  Ticket.is_cancelled s = true <-> s = Ticket.cancelled.
Proof. destruct s; simpl; split; congruence. Qed.

Lemma replace_by_id_ids (x' : Ticket.t) (ts : list Ticket.t) :
  map Ticket._id (Ticket.replace_by_id x' ts) = map Ticket._id ts.
Proof.
  unfold Ticket.replace_by_id. rewrite map_map. apply map_ext_in.
  intros e _. destruct (Nat.eqb_spec (Ticket._id e) (Ticket._id x')); congruence.
Qed.

Lemma in_replace_by_id (x' : Ticket.t) (ts : list Ticket.t) (a : Ticket.t) :
  In a (Ticket.replace_by_id x' ts) ->
  a = x' \/ (In a ts /\ Ticket._id a <> Ticket._id x').
Proof.
  unfold Ticket.replace_by_id. intros H. apply in_map_iff in H.
  destruct H as (e & Heq & Hin).
  destruct (Nat.eqb_spec (Ticket._id e) (Ticket._id x')); subst; auto.
Qed.

Lemma findById_some (ts : list Ticket.t) (i : ObjectId) (x : Ticket.t) :
  Ticket.findById ts i = Some x -> In x ts /\ Ticket._id x = i.
Proof.
  unfold Ticket.findById. intros H. apply find_some in H.
  destruct H as [Hin Heq]. apply Nat.eqb_eq in Heq. auto.
Qed.

Lemma findById_unique (ts : list Ticket.t) (x : Ticket.t) :
  NoDup (map Ticket._id ts) -> In x ts -> Ticket.findById ts (Ticket._id x) = Some x.
Proof.
  unfold Ticket.findById.
  induction ts as [|e ts IH]; simpl; [tauto|].
  intros Hnd [->|Hin].
  - rewrite Nat.eqb_refl. reflexivity.
  - inversion Hnd as [|? ? Hnotin Hnd']; subst.
    destruct (Nat.eqb_spec (Ticket._id e) (Ticket._id x)) as [Heq|Hne].
    + exfalso. apply Hnotin. rewrite Heq. apply in_map, Hin.
    + apply IH; assumption.
Qed.

(** Every change keeps every stored ticket priced. *)
Lemma change_priced (ts ts' : list Ticket.t) :
  Ticket.change ts ts' -> Forall Ticket.priced ts -> Forall Ticket.priced ts'.
Proof.
  intros Hch Hall.
  destruct Hch as [-> | x' -> _ Hp | x x' Hfind -> Hev | keep ->].
  - exact Hall.
  - apply Forall_app. split; [exact Hall|]. constructor; [exact Hp|constructor].
  - apply Forall_forall. intros a Ha. apply in_replace_by_id in Ha.
    destruct Ha as [->|[Ha _]].
    + apply (Ticket.ev_priced _ _ Hev).
      apply findById_some in Hfind.
      exact (proj1 (Forall_forall _ _) Hall x (proj1 Hfind)).
    + exact (proj1 (Forall_forall _ _) Hall a Ha).
  - apply Forall_forall. intros a Ha. apply filter_In in Ha.
    exact (proj1 (Forall_forall _ _) Hall a (proj1 Ha)).
Qed.

(** *** The pricing hook *)

Lemma fold_left_Qplus {A : Type} (f : A -> Q) (l : list A) (acc : Q) :
  (fold_left (fun sum a => sum + f a) l acc == acc + Ticket.Qsum (map f l))%Q.
Proof.
  revert acc. induction l as [|a l IH]; intros acc; simpl.
  - ring.
  - rewrite IH. ring.
Qed.

Lemma seatTotal_sum (ss : list Ticket.Seat.t) :
  (Ticket.seatTotal ss == Ticket.Qsum (map Ticket.Seat.price ss))%Q.
Proof.
  unfold Ticket.seatTotal. rewrite fold_left_Qplus. ring.
Qed.

Lemma comboTotal_sum (cs : list Ticket.ComboItem.t) :
  (Ticket.comboTotal cs
   == Ticket.Qsum (map (fun c => Ticket.ComboItem.price c * Ticket.ComboItem.qty c) cs))%Q.
Proof.
  unfold Ticket.comboTotal.
  rewrite (fold_left_Qplus (fun c => Ticket.ComboItem.price c * Ticket.ComboItem.qty c)%Q).
  ring.
Qed.

Lemma pre_save_totals_priced (isNew : bool) (modified : list Ticket.Path) (x : Ticket.t) :
  isNew || Ticket.isModified modified Ticket.p_seats
  || Ticket.isModified modified Ticket.p_combos
  || Ticket.isModified modified Ticket.p_voucher = true ->
  Ticket.priced (Ticket.pre_save_totals isNew modified x).
Proof.
  intros Hflag. unfold Ticket.pre_save_totals. rewrite Hflag.
  unfold Ticket.priced. simpl. split.
  - rewrite seatTotal_sum, comboTotal_sum. reflexivity.
  - reflexivity.
Qed.

Lemma pre_save_totals_skip (modified : list Ticket.Path) (x : Ticket.t) :
  Ticket.isModified modified Ticket.p_seats = false ->
  Ticket.isModified modified Ticket.p_combos = false ->
  Ticket.isModified modified Ticket.p_voucher = false ->
  Ticket.pre_save_totals false modified x = x.
Proof.
  intros H1 H2 H3. unfold Ticket.pre_save_totals. rewrite H1, H2, H3. reflexivity.
Qed.

(** A save of a ticket that passes the validators succeeds: the hooks
    run, the ticket is written and the occupancy is recomputed. *)
Lemma save_valid (isNew : bool) (modified : list Ticket.Path) (st : Ticket.Store)
      (x : Ticket.t) :
  Ticket.validate x = Ok tt ->
  Ticket.save isNew modified st x =
  let this2 := Ticket.pre_save_qrCode isNew (Ticket.pre_save_totals isNew modified x) in
  let tickets' := Ticket.write isNew (Ticket.tickets st) this2 in
  Ok (this2,
      Ticket.mkStore (Ticket.movies st) (Ticket.rooms st)
        (Ticket.post_save (Ticket.movies st) (Ticket.rooms st) tickets'
                          (Ticket.schedules st) this2)
        tickets').
Proof.
  intros Hval. unfold Ticket.save. rewrite Hval. reflexivity.
Qed.

(** What a successful save has done. *)
Lemma save_inv (isNew : bool) (modified : list Ticket.Path) (st st' : Ticket.Store)
      (x x' : Ticket.t) :
  Ticket.save isNew modified st x = Ok (x', st') ->
  Ticket.validate x = Ok tt
  /\ x' = Ticket.pre_save_qrCode isNew (Ticket.pre_save_totals isNew modified x)
  /\ Ticket.tickets st' =
     (if isNew then Ticket.tickets st ++ [x']
      else Ticket.replace_by_id x' (Ticket.tickets st))%list.
Proof.
  unfold Ticket.save. intros H.
  apply bind_ok in H. destruct H as ([] & Hval & H).
  injection H as <- <-. simpl.
  repeat split; try assumption.
Qed.

Lemma save_succeeds (isNew : bool) (modified : list Ticket.Path) (st : Ticket.Store)
      (x : Ticket.t) :
  Ticket.validate x = Ok tt ->
  exists st',
    Ticket.save isNew modified st x
    = Ok (Ticket.pre_save_qrCode isNew (Ticket.pre_save_totals isNew modified x), st').
Proof.
  intros Hval. rewrite (save_valid _ _ _ _ Hval). cbv zeta.
  eexists. reflexivity.
Qed.

(** A save of a stored ticket whose seats, combos and voucher are
    untouched changes the collection by an update. *)
Lemma save_existing_change (modified : list Ticket.Path) (st st' : Ticket.Store)
      (x0 x x' : Ticket.t) :
  Ticket.findById (Ticket.tickets st) (Ticket._id x) = Some x0 ->
  Ticket.save false modified st x = Ok (x', st') ->
  Ticket.evolves x0 (Ticket.pre_save_totals false modified x) ->
  Ticket.change (Ticket.tickets st) (Ticket.tickets st').
Proof.
  intros Hfind Hsave Hev.
  apply save_inv in Hsave. destruct Hsave as (_ & Hx' & Hts).
  simpl in Hx'. subst x'.
  assert (Hid : Ticket._id (Ticket.pre_save_totals false modified x) = Ticket._id x).
  { unfold Ticket.pre_save_totals. destruct (_ || _); reflexivity. }
  eapply Ticket.ch_update; [|exact Hts|exact Hev].
  rewrite Hid. exact Hfind.
Qed.

Lemma create_change (now : Date) (st st' : Ticket.Store) (d : Ticket.Data) (x' : Ticket.t) :
  Ticket.create now st d = Ok (x', st') ->
  Ticket.change (Ticket.tickets st) (Ticket.tickets st').
Proof.
  unfold Ticket.create. intros Hsave.
  apply save_inv in Hsave. destruct Hsave as (_ & Hx' & Hts).
  eapply Ticket.ch_insert; [exact Hts| |]; subst x'.
  - reflexivity.
  - pose proof (pre_save_totals_priced true [] (Ticket.new now (Ticket.tickets st) d)
                  eq_refl) as Hp.
    exact Hp.
Qed.

Lemma cancel_change (now : Date) (st st' : Ticket.Store) (x x' : Ticket.t)
      (userId : ObjectId) (reason : string) :
  Ticket.findById (Ticket.tickets st) (Ticket._id x) = Some x ->
  Ticket.cancel now st x userId reason = Ok (x', st') ->
  Ticket.change (Ticket.tickets st) (Ticket.tickets st').
Proof.
  unfold Ticket.cancel. intros Hfind Hsave.
  destruct (Ticket.is_cancelled (Ticket.status x)); [discriminate|].
  eapply save_existing_change; [|exact Hsave|].
  - exact Hfind.
  - rewrite pre_save_totals_skip by reflexivity.
    constructor; simpl; auto.
Qed.

Lemma edit_change (st st' : Ticket.Store) (x x' : Ticket.t) ss cs v :
  Ticket.findById (Ticket.tickets st) (Ticket._id x) = Some x ->
  Ticket.save false [Ticket.p_seats; Ticket.p_combos; Ticket.p_voucher] st
              (Ticket.set_items ss cs v x) = Ok (x', st') ->
  Ticket.change (Ticket.tickets st) (Ticket.tickets st').
Proof.
  intros Hfind Hsave.
  eapply save_existing_change; [|exact Hsave|].
  - exact Hfind.
  - constructor.
    + reflexivity.
    + intros _. apply pre_save_totals_priced. reflexivity.
    + simpl. auto.
    + simpl. auto.
Qed.

Lemma propagate_evolves (p : Payment.t) (x : Ticket.t) :
  Ticket.evolves x (Payment.propagate p x).
Proof.
  unfold Payment.propagate.
  constructor.
  - destruct (_ && _), (_ && _); reflexivity.
  - destruct (_ && _), (_ && _); exact (fun H => H).
  - intros Hc. destruct (Payment.status p); simpl; rewrite ?Hc; simpl; rewrite ?Hc; auto.
  - intros Hr. left.
    destruct (Payment.status p); simpl; rewrite ?Hr; simpl; rewrite ?Hr; auto.
Qed.

Lemma pre_save_ticket_change (statusModified : bool) (st : Ticket.Store) (p : Payment.t) :
  Ticket.change (Ticket.tickets st)
                (Ticket.tickets (fst (Payment.pre_save_ticket statusModified st p))).
Proof.
  unfold Payment.pre_save_ticket.
  destruct statusModified; [|apply Ticket.ch_same; reflexivity].
  destruct (Ticket.findById (Ticket.tickets st) (Payment.ticketId p)) as [x|] eqn:Hfind;
    [|apply Ticket.ch_same; reflexivity].
  destruct (negb _); [|apply Ticket.ch_same; reflexivity].
  set (modified := Ticket.p_paymentStatus :: _).
  destruct (Ticket.save false modified st (Payment.propagate p x)) as [[x' st']|e] eqn:Hsave;
    [|apply Ticket.ch_same; reflexivity].
  simpl.
  assert (Hid : Ticket._id (Payment.propagate p x) = Ticket._id x)
    by apply (Ticket.ev_id _ _ (propagate_evolves p x)).
  eapply save_existing_change; [|exact Hsave|].
  - rewrite Hid. destruct (findById_some _ _ _ Hfind) as [_ Hx]. rewrite Hx. exact Hfind.
  - rewrite pre_save_totals_skip.
    + apply propagate_evolves.
    + subst modified. destruct (Ticket.Status_eq_dec _ _); reflexivity.
    + subst modified. destruct (Ticket.Status_eq_dec _ _); reflexivity.
    + subst modified. destruct (Ticket.Status_eq_dec _ _); reflexivity.
Qed.

(** *** What a payment request leaves *)

(** The collections of tickets, schedules, rooms and movies after a save
    of a payment are those the first hook left, or the ones before the
    call when the validators refused the payment. *)
Lemma payment_save_base isNew statusModified now rand (st : Payment.Store)
      (p : Payment.t) :
  let o := Payment.save isNew statusModified now rand st p in
  Payment.base (Payment.after o) = Payment.base st
  \/ Payment.base (Payment.after o)
     = fst (Payment.pre_save_ticket statusModified (Payment.base st) p).
Proof.
  unfold Payment.save.
  destruct (Payment.validate p); [|left; reflexivity].
  destruct (Payment.pre_save_ticket statusModified (Payment.base st) p) as [base' log].
  destruct (Payment.write _ _ _); right; reflexivity.
Qed.

Lemma processRefund_base now rand (st : Payment.Store) paymentId userId reason :
  let o := Payment.processRefund now rand st paymentId userId reason in
  Payment.base (Payment.after o) = Payment.base st
  \/ exists p, Payment.base (Payment.after o)
               = fst (Payment.pre_save_ticket true (Payment.base st) p).
Proof.
  unfold Payment.processRefund.
  destruct (Payment.findById _ _) as [p0|]; [|left; reflexivity].
  destruct (negb _); [left; reflexivity|].
  destruct (payment_save_base false true now rand st
              (Payment.set_refundDetails
                 (Payment.mkRefund (Payment.amount p0) reason userId now)
                 (Payment.set_status Payment.refunded p0))) as [H|H].
  - left. exact H.
  - right. eexists. exact H.
Qed.

(** *** What a request leaves *)

Lemma on_store_run (db : Engine.DB) (r : Result (Ticket.t * Ticket.Store)) :
  (exists x st', r = Ok (x, st')
                 /\ fst (Engine.on_store db r) = Engine.with_store st' db)
  \/ fst (Engine.on_store db r) = db.
Proof.
  destruct r as [[x st']|e]; [left|right; reflexivity].
  exists x, st'. split; reflexivity.
Qed.

Lemma on_schedules_run (db : Engine.DB) (r : Result (Schedule.t * list Schedule.t)) :
  (exists s ss, r = Ok (s, ss)
                /\ fst (Engine.on_schedules db r)
                   = Engine.with_store (Ticket.with_schedules ss (Engine.store db)) db)
  \/ fst (Engine.on_schedules db r) = db.
Proof.
  destruct r as [[s ss]|e]; [left|right; reflexivity].
  exists s, ss. split; reflexivity.
Qed.

Lemma on_promotions_store (db : Engine.DB) (r : Result (Promotion.t * list Promotion.t)) :
  Engine.store (fst (Engine.on_promotions db r)) = Engine.store db.
Proof. destruct r as [[p ps]|e]; reflexivity. Qed.

(** Every request changes the ticket collection in one of the four
    ways of [Ticket.change]. *)
Lemma run_change (db : Engine.DB) (op : Engine.Op) :
  Ticket.change (Engine.tickets db) (Engine.tickets (Engine.run db op)).
Proof.
  unfold Engine.run.
  destruct op; simpl Engine.exec.
  - destruct (on_store_run db (Ticket.create now (Engine.store db) d))
      as [(x' & st' & Hc & ->)| ->]; [|apply Ticket.ch_same; reflexivity].
    apply create_change in Hc. exact Hc.
  - destruct (Ticket.findById (Engine.tickets db) ticketId) as [x|] eqn:Hfind;
      [|apply Ticket.ch_same; reflexivity].
    destruct (on_store_run db (Ticket.cancel now (Engine.store db) x userId reason))
      as [(x' & st' & Hc & ->)| ->]; [|apply Ticket.ch_same; reflexivity].
    destruct (findById_some _ _ _ Hfind) as [_ Hx]. rewrite <- Hx in Hfind.
    exact (cancel_change _ _ _ _ _ _ _ Hfind Hc).
  - destruct (Ticket.findById (Engine.tickets db) ticketId) as [x|] eqn:Hfind;
      [|apply Ticket.ch_same; reflexivity].
    match goal with
    | |- context [Engine.on_store db ?r] =>
        destruct (on_store_run db r) as [(x' & st' & Hc & ->)| ->];
          [|apply Ticket.ch_same; reflexivity]
    end.
    destruct (findById_some _ _ _ Hfind) as [_ Hx]. rewrite <- Hx in Hfind.
    exact (edit_change _ _ _ _ _ _ _ Hfind Hc).
  - destruct (Ticket.findById (Engine.tickets db) ticketId) as [x|] eqn:Hfind;
      [|apply Ticket.ch_same; reflexivity].
    eapply Ticket.ch_filter. reflexivity.
  - unfold Engine.on_base. simpl fst.
    match goal with
    | |- context [Payment.save ?a ?b ?c ?d ?e ?f] =>
        destruct (payment_save_base a b c d e f) as [H|H]
    end; unfold Engine.tickets, Engine.store; simpl; rewrite H;
      [apply Ticket.ch_same; reflexivity|apply pre_save_ticket_change].
  - destruct (Payment.findById _ _) as [p0|]; [|apply Ticket.ch_same; reflexivity].
    unfold Engine.on_base. simpl fst.
    match goal with
    | |- context [Payment.save ?a ?b ?c ?d ?e ?f] =>
        destruct (payment_save_base a b c d e f) as [H|H]
    end; unfold Engine.tickets, Engine.store; simpl; rewrite H;
      [apply Ticket.ch_same; reflexivity|apply pre_save_ticket_change].
  - unfold Engine.on_base. simpl fst.
    destruct (processRefund_base now rand (Engine.base db) paymentId userId reason)
      as [H|[p H]]; unfold Engine.tickets, Engine.store; simpl; rewrite H;
      [apply Ticket.ch_same; reflexivity|apply pre_save_ticket_change].
  - eapply Ticket.ch_filter. reflexivity.
  - match goal with
    | |- context [Engine.on_schedules db ?r] =>
        destruct (on_schedules_run db r) as [(s & ss & _ & ->)| ->]
    end; apply Ticket.ch_same; reflexivity.
  - destruct (Schedule.findById _ _); [|apply Ticket.ch_same; reflexivity].
    match goal with
    | |- context [Engine.on_schedules db ?r] =>
        destruct (on_schedules_run db r) as [(s' & ss & _ & ->)| ->]
    end; apply Ticket.ch_same; reflexivity.
  - destruct (Schedule.findById _ _); [|apply Ticket.ch_same; reflexivity].
    match goal with
    | |- context [Engine.on_schedules db ?r] =>
        destruct (on_schedules_run db r) as [(s' & ss & _ & ->)| ->]
    end; apply Ticket.ch_same; reflexivity.
  - apply Ticket.ch_same. unfold Engine.tickets. rewrite on_promotions_store. reflexivity.
  - destruct (find _ _); [|apply Ticket.ch_same; reflexivity].
    apply Ticket.ch_same. unfold Engine.tickets. rewrite on_promotions_store. reflexivity.
Qed.

Lemma reachable_priced (db : Engine.DB) :
  Engine.reachable db -> Forall Ticket.priced (Engine.tickets db).
Proof.
  induction 1 as [db Hinit|db op Hreach IH].
  - rewrite Hinit. constructor.
  - exact (change_priced _ _ (run_change db op) IH).
Qed.

Lemma same_id_same_ticket (ts : list Ticket.t) (a b : Ticket.t) :
  NoDup (map Ticket._id ts) -> In a ts -> In b ts -> Ticket._id a = Ticket._id b -> a = b.
Proof.
  intros Hnd Ha Hb Hid.
  pose proof (findById_unique ts a Hnd Ha) as Hfa.
  pose proof (findById_unique ts b Hnd Hb) as Hfb.
  rewrite Hid in Hfa. congruence.
Qed.

(** *** Seats and the tickets that hold them *)





(** A valid request is stored, whatever the stored tickets hold: the
    ticket it stores is the request with the amounts of the pricing hook
    and its QR code. *)
Lemma create_accepts_valid (now : Date) (st : Ticket.Store) (d : Ticket.Data) :
  Ticket.validate (Ticket.new now (Ticket.tickets st) d) = Ok tt ->
  exists x st',
    Ticket.create now st d = Ok (x, st')
    /\ x = Ticket.pre_save_qrCode true
             (Ticket.pre_save_totals true [] (Ticket.new now (Ticket.tickets st) d))
    /\ Ticket.tickets st' = (Ticket.tickets st ++ [x])%list.
Proof.
  intros Hval. unfold Ticket.create.
  destruct (save_succeeds true [] st _ Hval) as [st' Hsave].
  eexists. exists st'. split; [exact Hsave|]. split; [reflexivity|].
  apply save_inv in Hsave. exact (proj2 (proj2 Hsave)).
Qed.

(** C1 fails on the code.  The index that is declared "to prevent double
    booking of seats" is not one the database builds, and nothing else
    compares the seats of two reservations: one minute after Alice's
    reservation of seats A1 and B3 of showing 1, while it is pending and
    its hold has not lapsed, Bob's request for seat A1 of the same
    showing shares a key of the declared index with it, and is stored
    all the same; seat A1 is then held by two reservations. *)
Theorem seat_booked_twice :
  let now := Scenario.at_ 0 1 in
  let request := Ticket.new now (Engine.tickets Scenario.db1) Scenario.rebooking in
  Ticket.holders now (Engine.tickets Scenario.db1) 1 "A1" = [Scenario.alice_ticket]
  /\ Ticket.has_seat "A1" request = true
  /\ Ticket.index_clash request Scenario.alice_ticket = true
  /\ (exists x st', Ticket.create now (Engine.store Scenario.db1) Scenario.rebooking
                    = Ok (x, st')
                    /\ Engine.tickets Cases.db2 = Ticket.tickets st'
                    /\ In x (Ticket.tickets st'))
  /\ map Ticket.userId (Ticket.holders now (Engine.tickets Cases.db2) 1 "A1")
     = [11%nat; 12%nat].
Proof.
  intros now request. subst now request. split; [|split; [|split; [|split]]].
  - vm_compute. reflexivity.
  - vm_compute. reflexivity.
  - vm_compute. reflexivity.
  - destruct (create_accepts_valid (Scenario.at_ 0 1) (Engine.store Scenario.db1)
                Scenario.rebooking)
      as (x & st' & Hcreate & Hx & Hts); [vm_compute; reflexivity|].
    exists x, st'. split; [exact Hcreate|]. split.
    + unfold Cases.db2, Engine.run, Engine.exec. cbv beta iota.
      rewrite Hcreate. reflexivity.
    + rewrite Hts. apply in_or_app. right. left. reflexivity.
  - vm_compute. reflexivity.
Qed.

(** C4. Every reservation of every database the engine reaches has its
    subtotal equal to the sum of the prices of its seats plus the sum of
    price times quantity of its concession items, and its total equal to
    the subtotal minus the discount.  A valid request is stored with
    these amounts, whatever amounts it was submitted with: its discount
    is the one its voucher gives on the subtotal.  The reservation of
    the scenario, submitted with a subtotal and a total of 1, is stored
    with 310000, 0 and 310000. *)
Theorem reservation_priced (db : Engine.DB) :
  Engine.reachable db ->
  (forall x, In x (Engine.tickets db) -> Ticket.priced x)
  /\ (forall now d,
        Ticket.validate (Ticket.new now (Engine.tickets db) d) = Ok tt ->
        exists x st',
          Ticket.create now (Engine.store db) d = Ok (x, st')
          /\ In x (Ticket.tickets st')
          /\ Ticket.seats x = map Ticket.Seat.cast (Ticket.d_seats d)
          /\ Ticket.combos x = Ticket.d_combos d
          /\ Ticket.priced x
          /\ Ticket.discount x
             = Ticket.voucher_discount (Ticket.subtotal x) (Ticket.d_voucher d))
  /\ match Ticket.create 0 Scenario.store0 Cases.booking_unpriced with
     | Ok (x, st') => (Ticket.subtotal x == 310000 /\ Ticket.discount x == 0
                       /\ Ticket.totalAmount x == 310000)%Q
                      /\ Ticket.tickets st' = [x]
     | Err _ => False
     end.
Proof.
  intros Hreach. split; [|split].
  - apply Forall_forall. exact (reachable_priced db Hreach).
  - intros now d Hval.
    destruct (create_accepts_valid now (Engine.store db) d Hval)
      as (x & st' & Hcreate & Hx & Hts).
    exists x, st'. split; [exact Hcreate|]. split.
    { rewrite Hts. apply in_or_app. right. left. reflexivity. }
    subst x. split; [reflexivity|]. split; [reflexivity|].
    split; [|reflexivity].
    apply (pre_save_totals_priced true [] (Ticket.new now (Engine.tickets db) d) eq_refl).
  - vm_compute. repeat split.
Qed.

Lemma reservation_priced_witness :
  Ticket.priced Scenario.alice_ticket
  /\ exists x st',
       Ticket.create (Scenario.at_ 0 1) (Engine.store Scenario.db1) Scenario.rebooking
       = Ok (x, st')
       /\ In x (Ticket.tickets st')
       /\ Ticket.priced x.
Proof.
  assert (Hreach : Engine.reachable Scenario.db1).
  { apply Engine.reach_step. apply Engine.reach_init. reflexivity. }
  split.
  - refine (proj1 (reservation_priced Scenario.db1 Hreach) Scenario.alice_ticket _).
    vm_compute. left. reflexivity.
  - destruct (proj1 (proj2 (reservation_priced Scenario.db1 Hreach))
                (Scenario.at_ 0 1) Scenario.rebooking)
      as (x & st' & Hcreate & Hin & _ & _ & Hpriced & _).
    + vm_compute. reflexivity.
    + exists x, st'. split; [exact Hcreate|]. split; [exact Hin|exact Hpriced].
Defined.

(** *** Holds and their expiry *)

(** X3: the status string of a successful payment is not a payment status of
    a ticket: the update of the ticket is rejected by the validator of
    [paymentStatus], the hook logs the error, and the ticket collection
    is left as it was. *)
Lemma success_not_propagated (st : Ticket.Store) (p : Payment.t) (x : Ticket.t) :
  Payment.status p = Payment.success ->
  Ticket.findById (Ticket.tickets st) (Payment.ticketId p) = Some x ->
  Ticket.validate x = Ok tt ->
  Payment.pre_save_ticket true st p = (st, [ValidationError "paymentStatus"]).
Proof.
  intros Hs Hfind Hval. unfold Payment.pre_save_ticket. rewrite Hfind, Hs.
  assert (Hps : existsb (String.eqb (Ticket.paymentStatus x)) Ticket.paymentStatus_enum
                = true).
  { unfold Ticket.validate in Hval.
    destruct (forallb _ _); [|discriminate].
    destruct (forallb _ _); [|discriminate].
    destruct (Ticket.validate_voucher _); [|discriminate].
    destruct (Qle_bool 0 (Ticket.subtotal x)); [|discriminate].
    destruct (Qle_bool 0 (Ticket.discount x)); [|discriminate].
    destruct (Qle_bool 0 (Ticket.totalAmount x)); [|discriminate].
    destruct (existsb _ _); [reflexivity|discriminate]. }
  assert (Hne : String.eqb (Ticket.paymentStatus x) "success" = false).
  { simpl in Hps. rewrite !orb_true_iff in Hps.
    destruct (String.eqb_spec (Ticket.paymentStatus x) "success") as [Heq|]; [|reflexivity].
    rewrite Heq in Hps. simpl in Hps. intuition discriminate. }
  simpl Payment.status_string. rewrite Hne. simpl negb. cbv iota.
  unfold Ticket.save.
  assert (Hbad : Ticket.validate (Payment.propagate p x)
                 = Err (ValidationError "paymentStatus")).
  { unfold Ticket.validate in *. unfold Payment.propagate. rewrite Hs.
    simpl Payment.is_success. simpl Payment.is_refunded. simpl andb.
    destruct (forallb Ticket.validate_seat (Ticket.seats x)) eqn:H1; [|discriminate].
    destruct (forallb Ticket.validate_combo (Ticket.combos x)) eqn:H2; [|discriminate].
    destruct (Ticket.validate_voucher (Ticket.voucher x)) eqn:H3; [|discriminate].
    destruct (Qle_bool 0 (Ticket.subtotal x)) eqn:H4; [|discriminate].
    destruct (Qle_bool 0 (Ticket.discount x)) eqn:H5; [|discriminate].
    destruct (Qle_bool 0 (Ticket.totalAmount x)) eqn:H6; [|discriminate].
    destruct (Ticket.is_pending _); simpl; rewrite H1, H2, H3, H4, H5, H6; reflexivity. }
  rewrite Hbad. reflexivity.
Qed.





(** *** The lifecycle of a reservation *)

Lemma change_cancelled (ts ts' : list Ticket.t) (x x' : Ticket.t) :
  Ticket.change ts ts' ->
  NoDup (map Ticket._id ts) ->
  In x ts -> Ticket.status x = Ticket.cancelled ->
  In x' ts' -> Ticket._id x' = Ticket._id x ->
  Ticket.status x' = Ticket.cancelled.
Proof.
  intros Hch Hnd Hx Hc Hx' Hid.
  destruct Hch as [-> | y -> Hfresh _ | x0 y Hfind -> Hev | keep ->].
  - rewrite (same_id_same_ticket ts x' x Hnd Hx' Hx Hid). exact Hc.
  - apply in_app_iff in Hx'. destruct Hx' as [Hx'|[<-|[]]].
    + rewrite (same_id_same_ticket ts x' x Hnd Hx' Hx Hid). exact Hc.
    + exfalso. apply (fresh_id_not_in (map Ticket._id ts)).
      rewrite <- Hfresh, Hid. apply in_map, Hx.
  - apply in_replace_by_id in Hx'. destruct Hx' as [->|[Hx' _]].
    + rewrite Hid in Hfind. rewrite (findById_unique ts x Hnd Hx) in Hfind.
      injection Hfind as <-. exact (Ticket.ev_cancelled _ _ Hev Hc).
    + rewrite (same_id_same_ticket ts x' x Hnd Hx' Hx Hid). exact Hc.
  - apply filter_In in Hx'. destruct Hx' as [Hx' _].
    rewrite (same_id_same_ticket ts x' x Hnd Hx' Hx Hid). exact Hc.
Qed.

Lemma pre_save_ticket_tickets (statusModified : bool) (st : Ticket.Store) (p : Payment.t) :
  let ts' := Ticket.tickets (fst (Payment.pre_save_ticket statusModified st p)) in
  ts' = Ticket.tickets st
  \/ exists x, Ticket.findById (Ticket.tickets st) (Payment.ticketId p) = Some x
               /\ ts' = Ticket.replace_by_id (Payment.propagate p x) (Ticket.tickets st).
Proof.
  unfold Payment.pre_save_ticket.
  destruct statusModified; [|left; reflexivity].
  destruct (Ticket.findById (Ticket.tickets st) (Payment.ticketId p)) as [x|] eqn:Hfind;
    [|left; reflexivity].
  destruct (negb _); [|left; reflexivity].
  set (modified := Ticket.p_paymentStatus :: _).
  destruct (Ticket.save false modified st (Payment.propagate p x)) as [[x' st']|e] eqn:Hsave;
    [|left; reflexivity].
  right. exists x. split; [reflexivity|]. simpl.
  apply save_inv in Hsave. destruct Hsave as (_ & Hx' & Hts).
  rewrite Hts, Hx'. simpl. rewrite pre_save_totals_skip; [reflexivity| | |];
    subst modified; destruct (Ticket.Status_eq_dec _ _); reflexivity.
Qed.

Lemma propagate_final (p : Payment.t) (x : Ticket.t) :
  Ticket.status x = Ticket.cancelled \/ Ticket.status x = Ticket.refunded ->
  Ticket.status (Payment.propagate p x) = Ticket.status x.
Proof.
  unfold Payment.propagate.
  intros [H|H]; destruct (Payment.status p); simpl; rewrite ?H; simpl; rewrite ?H;
    reflexivity.
Qed.

(** C7, as the code has it.  No request moves a reservation out of the
    cancelled state, and the propagation of a payment status moves
    neither a cancelled nor a refunded reservation: cancelling a
    cancelled reservation fails and changes nothing; cancelling a
    refunded reservation is accepted and makes it cancelled. *)
Theorem cancelled_is_final :
  (forall now st x userId reason,
      Ticket.status x = Ticket.cancelled ->
      Ticket.cancel now st x userId reason = Err TicketAlreadyCancelled)
  /\ (forall db op x x',
        NoDup (map Ticket._id (Engine.tickets db)) ->
        In x (Engine.tickets db) -> Ticket.status x = Ticket.cancelled ->
        In x' (Engine.tickets (Engine.run db op)) -> Ticket._id x' = Ticket._id x ->
        Ticket.status x' = Ticket.cancelled)
  /\ (forall statusModified st p x x',
        NoDup (map Ticket._id (Ticket.tickets st)) ->
        In x (Ticket.tickets st) ->
        Ticket.status x = Ticket.cancelled \/ Ticket.status x = Ticket.refunded ->
        In x' (Ticket.tickets (fst (Payment.pre_save_ticket statusModified st p))) ->
        Ticket._id x' = Ticket._id x ->
        Ticket.status x' = Ticket.status x)
  /\ (forall now st x userId reason,
        Ticket.status x = Ticket.refunded ->
        Ticket.validate
          (Ticket.set_cancellation reason userId now
             (Ticket.set_status Ticket.cancelled x)) = Ok tt ->
        exists x' st', Ticket.cancel now st x userId reason = Ok (x', st')
                       /\ Ticket.status x' = Ticket.cancelled).
Proof.
  split; [|split; [|split]].
  - intros now st x userId reason Hc. unfold Ticket.cancel. rewrite Hc. reflexivity.
  - intros db op x x' Hnd Hx Hc Hx' Hid.
    exact (change_cancelled _ _ x x' (run_change db op) Hnd Hx Hc Hx' Hid).
  - intros statusModified st p x x' Hnd Hx Hfinal Hx' Hid.
    destruct (pre_save_ticket_tickets statusModified st p) as [Hsame|(x0 & Hfind & Hrep)].
    + cbv zeta in Hsame. rewrite Hsame in Hx'.
      rewrite (same_id_same_ticket _ x' x Hnd Hx' Hx Hid). reflexivity.
    + cbv zeta in Hrep. rewrite Hrep in Hx'.
      apply in_replace_by_id in Hx'. destruct Hx' as [->|[Hx' _]].
      * destruct (findById_some _ _ _ Hfind) as [Hx0 _].
        assert (Hid0 : Ticket._id x0 = Ticket._id x).
        { rewrite <- Hid. symmetry.
          apply (Ticket.ev_id _ _ (propagate_evolves p x0)). }
        rewrite (same_id_same_ticket _ x0 x Hnd Hx0 Hx Hid0).
        apply propagate_final. exact Hfinal.
      * rewrite (same_id_same_ticket _ x' x Hnd Hx' Hx Hid). reflexivity.
  - intros now st x userId reason Hr Hval. unfold Ticket.cancel. rewrite Hr. simpl.
    set (x1 := Ticket.set_cancellation reason userId now
                 (Ticket.set_status Ticket.cancelled x)) in *.
    destruct (save_succeeds false
                [Ticket.p_status; Ticket.p_cancellationReason; Ticket.p_cancelledBy;
                 Ticket.p_cancelledAt] st x1 Hval) as [st' Hsave].
    eexists. exists st'. split; [exact Hsave|]. reflexivity.
Qed.

Lemma cancelled_is_final_witness :
  Ticket.cancel 5 Scenario.store_refunded Scenario.cancelled_ticket 11 "again"
  = Err TicketAlreadyCancelled.
Proof.
  refine (proj1 cancelled_is_final 5 Scenario.store_refunded Scenario.cancelled_ticket
                11%nat "again" _).
  reflexivity.
Defined.

(** The claim of the specification fails on a refunded reservation:
    cancelling it succeeds and moves it to the cancelled state. *)
Lemma cancel_leaves_refunded :
  Ticket.status Scenario.refunded_ticket = Ticket.refunded
  /\ result_map (fun r => Ticket.status (fst r))
       (Ticket.cancel 5 Scenario.store_refunded Scenario.refunded_ticket 11 "no show")
     = Ok Ticket.cancelled
  /\ result_map (fun r => map Ticket.status (Ticket.tickets (snd r)))
       (Ticket.cancel 5 Scenario.store_refunded Scenario.refunded_ticket 11 "no show")
     = Ok [Ticket.cancelled].
Proof.
  repeat split.
Qed.

(** *** The price snapshot *)

Lemma save_reads_tickets_only (isNew : bool) (modified : list Ticket.Path)
      (st1 st2 : Ticket.Store) (x : Ticket.t) :
  Ticket.tickets st1 = Ticket.tickets st2 ->
  result_map (fun r => Engine.snapshot (fst r)) (Ticket.save isNew modified st1 x)
  = result_map (fun r => Engine.snapshot (fst r)) (Ticket.save isNew modified st2 x).
Proof.
  intros Hts. unfold Ticket.save.
  destruct (Ticket.validate x) as [[]|e]; reflexivity.
Qed.

Lemma edit_keeps_tickets (db : Engine.DB) (op : Engine.Op) :
  Engine.is_edit op = true -> Engine.tickets (Engine.run db op) = Engine.tickets db.
Proof.
  intros Hedit. unfold Engine.run.
  destruct op; try discriminate; simpl Engine.exec.
  - destruct (Schedule.findById _ _); [|reflexivity].
    match goal with
    | |- context [Engine.on_schedules db ?r] =>
        destruct (on_schedules_run db r) as [(s' & ss & _ & ->)| ->]
    end; reflexivity.
  - unfold Engine.tickets. rewrite on_promotions_store. reflexivity.
Qed.

Lemma edits_keep_tickets (edits : list Engine.Op) (db : Engine.DB) :
  Forall (fun op => Engine.is_edit op = true) edits ->
  Engine.tickets (fold_left Engine.run edits db) = Engine.tickets db.
Proof.
  revert db. induction edits as [|op edits IH]; intros db Hall; simpl; [reflexivity|].
  inversion Hall as [|? ? Hop Hrest]; subst.
  rewrite IH by exact Hrest. apply edit_keeps_tickets. exact Hop.
Qed.

(** C6. Edits of price tables and of promotions leave every stored
    reservation, and so its price snapshot, as it was; a later save of a
    reservation computes the same snapshot after the edits as before
    them; and a save that touches neither the seats, the concession items
    nor the voucher keeps the stored snapshot. *)
Theorem snapshot_unchanged_by_edits (db : Engine.DB) (edits : list Engine.Op) :
  Forall (fun op => Engine.is_edit op = true) edits ->
  let db' := fold_left Engine.run edits db in
  Engine.tickets db' = Engine.tickets db
  /\ (forall isNew modified x,
        result_map (fun r => Engine.snapshot (fst r))
                   (Ticket.save isNew modified (Engine.store db') x)
        = result_map (fun r => Engine.snapshot (fst r))
                     (Ticket.save isNew modified (Engine.store db) x))
  /\ (forall modified x x' st',
        Ticket.isModified modified Ticket.p_seats = false ->
        Ticket.isModified modified Ticket.p_combos = false ->
        Ticket.isModified modified Ticket.p_voucher = false ->
        Ticket.save false modified (Engine.store db') x = Ok (x', st') ->
        Engine.snapshot x' = Engine.snapshot x).
Proof.
  intros Hedits db'.
  assert (Hts : Engine.tickets db' = Engine.tickets db)
    by (apply edits_keep_tickets; exact Hedits).
  split; [exact Hts|split].
  - intros isNew modified x. apply save_reads_tickets_only. exact Hts.
  - intros modified x x' st' H1 H2 H3 Hsave.
    apply save_inv in Hsave. destruct Hsave as (_ & Hx' & _).
    rewrite Hx'. simpl. rewrite pre_save_totals_skip by assumption. reflexivity.
Qed.

Lemma snapshot_unchanged_by_edits_witness :
  Engine.tickets
    (fold_left Engine.run
       [Engine.editPriceTable 1 (Schedule.mkPriceTable 150000 200000 0 None);
        Engine.editPromotion Scenario.summer10] Scenario.db1)
  = Engine.tickets Scenario.db1.
Proof.
  refine (proj1 (snapshot_unchanged_by_edits Scenario.db1
            [Engine.editPriceTable 1 (Schedule.mkPriceTable 150000 200000 0 None);
             Engine.editPromotion Scenario.summer10] _)).
  repeat constructor.
Defined.

(** ** Promotions *)

(** The cap of the code, [max && discount > max], against [min]. *)
Lemma capped_discount (d m : Q) :
  ((if JS.truthyQ m && JS.Qgtb d m then m else d)
   == (if Qeq_bool m 0 then d else Qmin d m))%Q.
Proof.
  unfold JS.truthyQ, JS.Qgtb, JS.Qltb.
  destruct (Qeq_bool m 0); simpl; [reflexivity|].
  destruct (Qle_bool d m) eqn:Hle; simpl.
  - apply Qle_bool_iff in Hle. symmetry. apply Q.min_l. exact Hle.
  - symmetry. apply Q.min_r.
    destruct (Qlt_le_dec m d) as [Hlt|Hge].
    + apply Qlt_le_weak. exact Hlt.
    + apply Qle_bool_iff in Hge. congruence.
Qed.

(** C5, as the code has it.  The discount of an accepted promotion is
    [amount*value/100] for a percent promotion, capped at the maximum
    discount when one is set and is not zero, and [min(value, amount)]
    for a fixed one; the pricing hook of a ticket applies the same rule
    to the embedded voucher; SUMMER10 on 310000 gives a discount of
    25000 and a total of 285000. *)
Theorem discount_rule :
  (forall p amount,
      (Promotion.discountAmount p amount
       == Spec.discount_nonzero_cap (Promotion.type p) (Promotion.value p)
                                    (Promotion.maxDiscount p) amount)%Q)
  /\ (forall sub code value type maxDiscount,
        JS.truthyQ value = true ->
        (Ticket.voucher_discount sub
           (Some (Ticket.Voucher.mk code (Some value) (Some type) maxDiscount))
         == Spec.discount_nonzero_cap type value maxDiscount sub)%Q)
  /\ match Promotion.validateAndApply 0 [] [] [Scenario.summer10] "SUMMER10"
                                      None 310000 None [] with
     | Ok a => (Promotion.a_discountAmount a == 25000)%Q
     | Err _ => False
     end
  /\ match Ticket.create 0 Scenario.store0
                         (Scenario.booking (Some Scenario.summer10_voucher)) with
     | Ok (x, _) => (Ticket.subtotal x == 310000 /\ Ticket.discount x == 25000
                     /\ Ticket.totalAmount x == 285000)%Q
     | Err _ => False
     end.
Proof.
  split; [|split; [|split]].
  - intros p amount. unfold Promotion.discountAmount, Spec.discount_nonzero_cap.
    destruct (Promotion.type p); simpl; [|reflexivity].
    destruct (Promotion.maxDiscount p) as [m|]; [|reflexivity].
    apply capped_discount.
  - intros sub code value type maxDiscount Hv.
    unfold Ticket.voucher_discount, Spec.discount_nonzero_cap. simpl. rewrite Hv.
    destruct type; [|reflexivity].
    destruct maxDiscount as [m|]; [|reflexivity].
    apply capped_discount.
  - vm_compute. reflexivity.
  - vm_compute. repeat split.
Qed.

Lemma discount_rule_witness :
  (Ticket.voucher_discount 310000
     (Some (Ticket.Voucher.mk (Some "SUMMER10"%string) (Some 10%Q) (Some Ticket.percent)
                              (Some 25000%Q)))
   == Spec.discount_nonzero_cap Ticket.percent 10 (Some 25000%Q) 310000)%Q.
Proof.
  refine (proj1 (proj2 discount_rule) 310000%Q (Some "SUMMER10"%string) 10%Q
                Ticket.percent (Some 25000%Q) _).
  reflexivity.
Defined.

(** The rule of the specification fails on a percent promotion whose
    maximum discount is zero: the code gives 100 on an order of 1000, a
    cap of zero would give 0. *)
Lemma zero_maximum_is_no_cap :
  let p := Scenario.capped_at_zero in
  (Promotion.discountAmount p 1000 == 100)%Q
  /\ (Spec.discount (Promotion.type p) (Promotion.value p) (Promotion.maxDiscount p) 1000
      == 0)%Q
  /\ ~ (Promotion.discountAmount p 1000
        == Spec.discount (Promotion.type p) (Promotion.value p)
                         (Promotion.maxDiscount p) 1000)%Q.
Proof.
  intros p. split; [|split].
  - vm_compute. reflexivity.
  - vm_compute. reflexivity.
  - vm_compute. discriminate.
Qed.

(** *** The usage cap *)

Lemma cap_reached_positive (p : Promotion.t) (m : Z) :
  Promotion.maxUses p = Some m -> 0 < m ->
  Promotion.cap_reached p = (Promotion.currentUses p >=? m).
Proof.
  intros Hm Hpos. unfold Promotion.cap_reached, JS.truthyZ. rewrite Hm.
  destruct (Z.eqb_spec m 0); [lia|reflexivity].
Qed.

(** X4: for a cap that is not zero the counter stays within the cap: at the
    cap [incrementUsage] fails, below it the counter grows by one, and
    [validateAndApply] rejects a code at its cap as exhausted. *)
Lemma positive_cap_respected (p : Promotion.t) (m : Z) :
  Promotion.maxUses p = Some m -> 0 < m ->
  (forall ps, m <= Promotion.currentUses p ->
              Promotion.incrementUsage ps p = Err PromotionLimitReached)
  /\ (forall ps p' ps', Promotion.incrementUsage ps p = Ok (p', ps') ->
                        Promotion.currentUses p' = Promotion.currentUses p + 1
                        /\ Promotion.currentUses p' <= m
                        /\ Promotion.maxUses p' = Some m)
  /\ (forall now users tickets ps c userId amount movieId genres,
        Promotion.lookup now ps c = Some p -> m <= Promotion.currentUses p ->
        Promotion.validateAndApply now users tickets ps c userId amount movieId genres
        = Err PromotionExhausted).
Proof.
  intros Hm Hpos.
  pose proof (cap_reached_positive p m Hm Hpos) as Hcap.
  split; [|split].
  - intros ps Hge. unfold Promotion.incrementUsage. rewrite Hcap.
    destruct (Z.geb_spec (Promotion.currentUses p) m); [reflexivity|lia].
  - intros ps p' ps' Hinc. unfold Promotion.incrementUsage in Hinc. rewrite Hcap in Hinc.
    destruct (Z.geb_spec (Promotion.currentUses p) m) as [|Hlt]; [discriminate|].
    unfold Promotion.save in Hinc.
    apply bind_ok in Hinc. destruct Hinc as ([] & _ & Hinc).
    apply bind_ok in Hinc. destruct Hinc as ([] & _ & Hinc).
    injection Hinc as <- _.
    destruct (Promotion.cap_reached (Promotion.set_usage _ _ _)); simpl;
      repeat split; try assumption; lia.
  - intros now users tickets ps c userId amount movieId genres Hlookup Hge.
    unfold Promotion.validateAndApply. rewrite Hlookup, Hcap.
    destruct (Z.geb_spec (Promotion.currentUses p) m); [reflexivity|lia].
Qed.

(** C8 at a cap of zero: the cap test of [incrementUsage] and of
    [validateAndApply] reads a cap of zero as no cap, so the counter
    passes the cap and the code is not rejected as exhausted, although
    [isCurrentlyActive] takes the same promotion as used up. *)
Theorem zero_cap_is_exceeded :
  let p := Scenario.no_use in
  Promotion.maxUses p = Some 0
  /\ Promotion.currentUses p = 0
  /\ Promotion.validate p = Ok tt
  /\ Promotion.isCurrentlyActive 5 p = false
  /\ result_map (fun r => (Promotion.currentUses (fst r), Promotion.maxUses (fst r)))
                (Promotion.incrementUsage [p] p) = Ok (1, Some 0)
  /\ result_map Promotion.a_code
                (Promotion.validateAndApply 5 [] [] [p] "NOUSE" None 1000 None [])
     = Ok "NOUSE"%string.
Proof.
  repeat split.
Qed.

(** *** Eligibility of a customer *)

Lemma filter_filter {A : Type} (f g : A -> bool) (l : list A) :
  filter f (filter g l) = filter (fun x => g x && f x) l.
Proof.
  induction l as [|a l IH]; simpl; [reflexivity|].
  destruct (g a); simpl; [|exact IH].
  destruct (f a); rewrite IH; reflexivity.
Qed.

Lemma count_orders_spec tickets u :
  Promotion.count_orders tickets u = Z.of_nat (List.length (Spec.reservations_of tickets u)).
Proof. reflexivity. Qed.

Lemma count_paid_orders_spec tickets u :
  Promotion.count_paid_orders tickets u = Z.of_nat (List.length (Spec.paid_of tickets u)).
Proof.
  unfold Promotion.count_paid_orders, Spec.paid_of, Spec.reservations_of.
  rewrite filter_filter. reflexivity.
Qed.

Lemma count_uses_spec tickets u c :
  Promotion.count_uses tickets u c = Z.of_nat (List.length (Spec.uses_of tickets u c)).
Proof.
  unfold Promotion.count_uses, Spec.uses_of, Spec.reservations_of.
  rewrite filter_filter. f_equal. f_equal. apply filter_ext.
  intros x. destruct (Nat.eqb _ _), (Promotion.voucher_code_is c x),
              (Ticket.is_cancelled _); reflexivity.
Qed.

Lemma length_pos_iff {A : Type} (l : list A) :
  (Z.of_nat (List.length l) >? 0) = false <-> l = [].
Proof.
  destruct l; simpl; split; intro H; try reflexivity; try discriminate.
Qed.

(** The three checks of [canBeUsedByUser] for an active promotion and a
    known customer. *)
Lemma canBeUsedByUser_checks (now : Date) (users : list User.t)
      (tickets : list Ticket.t) (p : Promotion.t) (u : ObjectId) :
  Promotion.isCurrentlyActive now p = true ->
  User.findById users u <> None ->
  let r := Promotion.usageRestrictions p in
  Promotion.canBeUsedByUser now users tickets p u =
  negb (Promotion.firstTimeUserOnly r && (Promotion.count_orders tickets u >? 0))
  && negb ((Promotion.minPreviousOrders r >? 0)
           && (Promotion.count_paid_orders tickets u <? Promotion.minPreviousOrders r))
  && negb (Promotion.onePerUser r
           && (Promotion.count_uses tickets u (Promotion.code p) >? 0)).
Proof.
  intros Hactive Huser r. unfold Promotion.canBeUsedByUser. rewrite Hactive. simpl.
  destruct (User.findById users u); [|congruence]. fold r.
  destruct (_ && _); [reflexivity|].
  destruct (_ && _); [reflexivity|].
  destruct (_ && _); reflexivity.
Qed.

Lemma first_time_check (first : bool) {A : Type} (l : list A) :
  negb (first && (Z.of_nat (List.length l) >? 0)) = true <-> (first = true -> l = []).
Proof.
  rewrite negb_true_iff, andb_false_iff, length_pos_iff.
  destruct first; intuition congruence.
Qed.

Lemma minimum_check (minimum n : Z) :
  negb ((minimum >? 0) && (n <? minimum)) = true <-> (0 < minimum -> minimum <= n).
Proof.
  rewrite negb_true_iff, andb_false_iff.
  destruct (Z.gtb_spec minimum 0), (Z.ltb_spec n minimum); intuition (congruence || lia).
Qed.

(** C9, as the code has it.  For an active promotion and a known
    customer, the customer may use the promotion exactly when: the
    customer has no reservation at all, of any status, if the promotion
    is for first-time customers; has at least the required number of
    paid reservations, if a minimum is set; and has no reservation that
    is not cancelled and carries the code, if the code is for one use
    per customer.  An inactive promotion and an unknown customer are
    refused. *)
Theorem eligibility_rules (now : Date) (users : list User.t) (tickets : list Ticket.t)
        (p : Promotion.t) (u : ObjectId) :
  (Promotion.isCurrentlyActive now p = true ->
   User.findById users u <> None ->
   (Promotion.canBeUsedByUser now users tickets p u = true
    <-> Spec.eligible_first_order tickets p u))
  /\ (Promotion.isCurrentlyActive now p = false ->
      Promotion.canBeUsedByUser now users tickets p u = false)
  /\ (User.findById users u = None ->
      Promotion.canBeUsedByUser now users tickets p u = false).
Proof.
  split; [|split].
  - intros Hactive Huser.
    rewrite (canBeUsedByUser_checks now users tickets p u Hactive Huser). cbv zeta.
    rewrite count_orders_spec, count_paid_orders_spec, count_uses_spec.
    rewrite !andb_true_iff, !first_time_check, minimum_check.
    unfold Spec.eligible_first_order. tauto.
  - intros Hinactive. unfold Promotion.canBeUsedByUser. rewrite Hinactive. reflexivity.
  - intros Hnone. unfold Promotion.canBeUsedByUser. rewrite Hnone.
    destruct (negb _); reflexivity.
Qed.

Lemma eligibility_rules_witness :
  Promotion.canBeUsedByUser 5 [Scenario.alice; Scenario.bob] [Scenario.cancelled_ticket]
                            Scenario.welcome 12 = true
  <-> Spec.eligible_first_order [Scenario.cancelled_ticket] Scenario.welcome 12.
Proof.
  refine (proj1 (eligibility_rules 5 [Scenario.alice; Scenario.bob]
                   [Scenario.cancelled_ticket] Scenario.welcome 12%nat) _ _).
  - reflexivity.
  - discriminate.
Defined.

(** The rule of the specification fails on a customer whose only
    reservation is cancelled: she has no paid reservation, yet the
    first-time-customer check refuses her. *)
Lemma first_time_check_counts_every_reservation :
  Promotion.isCurrentlyActive 5 Scenario.welcome = true
  /\ User.findById [Scenario.alice] 11 = Some Scenario.alice
  /\ Spec.paid_of [Scenario.cancelled_ticket] 11 = []
  /\ Spec.eligible [Scenario.cancelled_ticket] Scenario.welcome 11
  /\ Promotion.canBeUsedByUser 5 [Scenario.alice] [Scenario.cancelled_ticket]
                               Scenario.welcome 11 = false.
Proof.
  repeat split; try reflexivity; simpl; intros; try discriminate; lia.
Qed.

(** * Further properties *)

(** ** The free slots of a room (models/Schedule.js) *)

Lemma insert_by_startTime_In (e x : Schedule.t) (l : list Schedule.t) :
  In x (Slots.insert_by_startTime e l) <-> x = e \/ In x l.
Proof.
  induction l as [|a r IH]; simpl.
  - intuition.
  - destruct (Schedule.startTime e <? Schedule.startTime a); simpl.
    + intuition.
    + rewrite IH. intuition.
Qed.

Lemma sort_by_startTime_In (x : Schedule.t) (l : list Schedule.t) :
  In x (Slots.sort_by_startTime l) <-> In x l.
Proof.
  unfold Slots.sort_by_startTime. induction l as [|a r IH]; simpl.
  - tauto.
  - rewrite insert_by_startTime_In, IH. intuition.
Qed.

Lemma existingSchedules_In (schedules : list Schedule.t) (roomId : ObjectId)
      (startOfDay : Date) (e : Schedule.t) :
  In e (Slots.existingSchedules schedules roomId startOfDay)
  <-> In e schedules /\ Slots.day_query roomId startOfDay e = true.
Proof.
  unfold Slots.existingSchedules. rewrite sort_by_startTime_In. apply filter_In.
Qed.

(** The loop visits the times 9:00 + k * 15 minutes for k = 0 .. 56, in
    order, and keeps the slots that meet no listed schedule. *)
Lemma slots_loop_closed (existing : list Schedule.t) (startOfDay : Date) (duration : Z) :
  forall fuel k0 acc,
    (k0 + fuel = Slots.visits)%nat ->
    Slots.slots_loop fuel existing (startOfDay + Slots.closing) ((duration + 30) * 60000)
                     (startOfDay + Slots.opening + Z.of_nat k0 * Slots.step) acc
    = (acc ++ filter (fun sl => negb (existsb (Slots.busy (Slots.startTime sl)
                                                         (Slots.endTime sl)) existing))
                     (map (fun k => Slots.slot_at startOfDay duration (Z.of_nat k))
                          (seq k0 fuel)))%list.
Proof.
  induction fuel as [|fuel IH]; intros k0 acc Hk; simpl.
  - rewrite app_nil_r. reflexivity.
  - unfold Slots.visits in Hk.
    destruct (Z.leb_spec (startOfDay + Slots.opening + Z.of_nat k0 * Slots.step)
                         (startOfDay + Slots.closing)) as [_|Hgt].
    + replace (startOfDay + Slots.opening + Z.of_nat k0 * Slots.step + Slots.step)
        with (startOfDay + Slots.opening + Z.of_nat (S k0) * Slots.step) by lia.
      rewrite IH by (unfold Slots.visits; lia).
      unfold Slots.slot_at at 2 3. simpl Slots.startTime. simpl Slots.endTime.
      destruct (existsb _ existing); simpl.
      * reflexivity.
      * rewrite <- app_assoc. reflexivity.
    + exfalso. unfold Slots.opening, Slots.closing, Slots.step in Hgt. lia.
Qed.

Lemma slots_loop_stops (existing : list Schedule.t) (startOfDay : Date) (slotDuration : Z) :
  forall fuel k acc,
    (Slots.visits <= k)%nat ->
    Slots.slots_loop fuel existing (startOfDay + Slots.closing) slotDuration
                     (startOfDay + Slots.opening + Z.of_nat k * Slots.step) acc
    = acc.
Proof.
  intros [|fuel] k acc Hk; simpl; [reflexivity|].
  destruct (Z.leb_spec (startOfDay + Slots.opening + Z.of_nat k * Slots.step)
                       (startOfDay + Slots.closing)) as [Hle|_]; [|reflexivity].
  exfalso. unfold Slots.visits, Slots.opening, Slots.closing, Slots.step in *. lia.
Qed.

Lemma slots_loop_fuel (existing : list Schedule.t) (startOfDay : Date) (slotDuration : Z) :
  forall fuel k0 extra acc,
    (k0 + fuel = Slots.visits)%nat ->
    Slots.slots_loop (fuel + extra) existing (startOfDay + Slots.closing) slotDuration
                     (startOfDay + Slots.opening + Z.of_nat k0 * Slots.step) acc
    = Slots.slots_loop fuel existing (startOfDay + Slots.closing) slotDuration
                       (startOfDay + Slots.opening + Z.of_nat k0 * Slots.step) acc.
Proof.
  induction fuel as [|fuel IH]; intros k0 extra acc Hk.
  - simpl. apply slots_loop_stops. lia.
  - simpl.
    destruct (_ <=? _); [|reflexivity].
    replace (startOfDay + Slots.opening + Z.of_nat k0 * Slots.step + Slots.step)
      with (startOfDay + Slots.opening + Z.of_nat (S k0) * Slots.step) by lia.
    apply IH. lia.
Qed.

Lemma StronglySorted_filter {A : Type} (R : A -> A -> Prop) (f : A -> bool) (l : list A) :
  StronglySorted R l -> StronglySorted R (filter f l).
Proof.
  induction 1 as [|a l Hl IH Hall]; simpl; [constructor|].
  destruct (f a); [|exact IH].
  constructor; [exact IH|].
  apply Forall_forall. intros x Hx. apply filter_In in Hx.
  exact (proj1 (Forall_forall _ _) Hall x (proj1 Hx)).
Qed.

Lemma candidates_sorted (startOfDay : Date) (duration : Z) : forall n k0,
  StronglySorted (fun a b => Slots.startTime a < Slots.startTime b)
    (map (fun k => Slots.slot_at startOfDay duration (Z.of_nat k)) (seq k0 n)).
Proof.
  induction n as [|n IH]; intros k0; simpl; constructor.
  - apply IH.
  - apply Forall_map, Forall_forall. intros k Hk. apply in_seq in Hk.
    simpl. unfold Slots.step. lia.
Qed.

(** The loop in closed form: the candidates are the 57 slots from 9:00
    to 23:00, and the free ones among them are kept. *)
Lemma getAvailableSlots_closed (schedules : list Schedule.t) (roomId : ObjectId)
      (startOfDay : Date) (duration : Z) :
  Slots.getAvailableSlots schedules roomId startOfDay duration
  = filter (fun sl => negb (existsb (Slots.busy (Slots.startTime sl) (Slots.endTime sl))
                                    (Slots.existingSchedules schedules roomId startOfDay)))
           (map (fun k => Slots.slot_at startOfDay duration (Z.of_nat k))
                (seq 0 Slots.visits)).
Proof.
  unfold Slots.getAvailableSlots.
  pose proof (slots_loop_closed (Slots.existingSchedules schedules roomId startOfDay)
                startOfDay duration Slots.visits 0 [] eq_refl) as H.
  simpl Z.of_nat in H. rewrite Z.mul_0_l, Z.add_0_r, app_nil_l in H. exact H.
Qed.

Lemma available_slot_iff (schedules : list Schedule.t) (roomId : ObjectId)
      (startOfDay : Date) (duration : Z) (sl : Slots.Slot) :
  In sl (Slots.getAvailableSlots schedules roomId startOfDay duration) <->
  exists k, 0 <= k <= 56
            /\ sl = Slots.slot_at startOfDay duration k
            /\ Slots.free_in schedules roomId startOfDay sl.
Proof.
  rewrite getAvailableSlots_closed, filter_In, in_map_iff, negb_true_iff.
  unfold Slots.free_in. split.
  - intros [(k & Hk & Hin) Hfree]. apply in_seq in Hin. unfold Slots.visits in Hin.
    exists (Z.of_nat k). split; [lia|]. split; [symmetry; exact Hk|].
    intros e He Hq.
    destruct (Slots.busy (Slots.startTime sl) (Slots.endTime sl) e) eqn:Hb;
      [|reflexivity].
    rewrite <- Hfree. symmetry. apply existsb_exists. exists e. split; [|exact Hb].
    apply existingSchedules_In. split; assumption.
  - intros (k & Hk & -> & Hfree). split.
    + exists (Z.to_nat k). rewrite Z2Nat.id by lia. split; [reflexivity|].
      apply in_seq. unfold Slots.visits. lia.
    + destruct (existsb _ _) eqn:Hex; [|reflexivity].
      apply existsb_exists in Hex. destruct Hex as (e & He & Hb).
      apply existingSchedules_In in He. rewrite (Hfree e (proj1 He) (proj2 He)) in Hb.
      discriminate.
Qed.

(** X5: what [getAvailableSlots] returns.  A slot is returned exactly when
    it starts at 9:00 plus a multiple of 15 minutes, not after 23:00,
    lasts the duration of the movie plus 30 minutes, and meets none of
    the schedules of the room that are not cancelled and meet the day;
    the slots come in the order of their start times, without
    repetition; and the loop has ended after 57 visits. *)
Theorem getAvailableSlots_spec (schedules : list Schedule.t) (roomId : ObjectId)
        (startOfDay : Date) (duration : Z) :
  let slots := Slots.getAvailableSlots schedules roomId startOfDay duration in
  (forall sl,
      In sl slots <->
      exists k, 0 <= k <= 56
                /\ sl = Slots.slot_at startOfDay duration k
                /\ Slots.free_in schedules roomId startOfDay sl)
  /\ StronglySorted (fun a b => Slots.startTime a < Slots.startTime b) slots
  /\ (List.length slots <= 57)%nat
  /\ (forall extra,
        Slots.slots_loop (Slots.visits + extra)
                         (Slots.existingSchedules schedules roomId startOfDay)
                         (startOfDay + Slots.closing) ((duration + 30) * 60000)
                         (startOfDay + Slots.opening) []
        = slots).
Proof.
  intros slots. subst slots.
  split; [|split; [|split]].
  - intros sl. apply available_slot_iff.
  - rewrite getAvailableSlots_closed. apply StronglySorted_filter, candidates_sorted.
  - rewrite getAvailableSlots_closed.
    eapply Nat.le_trans; [apply filter_length_le|].
    rewrite length_map, length_seq. unfold Slots.visits. lia.
  - intros extra. unfold Slots.getAvailableSlots.
    pose proof (slots_loop_fuel (Slots.existingSchedules schedules roomId startOfDay)
                  startOfDay ((duration + 30) * 60000) Slots.visits 0 extra [] eq_refl)
      as H.
    simpl Z.of_nat in H. rewrite Z.mul_0_l, Z.add_0_r in H. exact H.
Qed.

(** Two intervals that overlap are met by the test of the loop. *)
Lemma overlap_is_busy (currentTime slotEndTime : Date) (e : Schedule.t) :
  currentTime < Schedule.endTime e -> Schedule.startTime e < slotEndTime ->
  Slots.busy currentTime slotEndTime e = true.
Proof.
  intros H1 H2. unfold Slots.busy.
  rewrite !orb_true_iff, !andb_true_iff, !Z.geb_le, !Z.ltb_lt, !Z.gtb_lt, !Z.leb_le.
  lia.
Qed.

(** A schedule that overlaps a slot of the day meets the day. *)
Lemma overlap_in_day (roomId : ObjectId) (startOfDay : Date) (sl : Slots.Slot)
      (e : Schedule.t) :
  startOfDay <= Slots.startTime sl -> Slots.endTime sl <= startOfDay + Slots.day ->
  Schedule.roomId e = roomId -> Schedule.status e <> Schedule.cancelled ->
  Slots.startTime sl < Schedule.endTime e -> Schedule.startTime e < Slots.endTime sl ->
  Slots.day_query roomId startOfDay e = true.
Proof.
  intros Hs He Hroom Hstatus H1 H2. unfold Slots.day_query, Slots.endOfDay.
  rewrite Hroom, Nat.eqb_refl.
  apply is_cancelled_schedule in Hstatus. rewrite Hstatus. simpl.
  rewrite !orb_true_iff, !andb_true_iff, !Z.geb_le, !Z.leb_le.
  lia.
Qed.

(** X6: a free slot of the day can be booked.  When the stored schedules
    have their start before their end, a slot that [getAvailableSlots]
    returns for a movie and that ends by midnight is accepted by the
    creation of a showing of that movie in that room at the start of the
    slot: the showing is stored with the interval of the slot. *)
Theorem free_slot_is_bookable
  (movies : list Movie.t) (schedules : list Schedule.t) (d : Schedule.t)
  (movie : Movie.t) (startOfDay : Date) (sl : Slots.Slot) :
  Schedule.validate d = Ok tt ->
  Movie.findById movies (Schedule.movieId d) = Some movie ->
  -30 < Movie.duration movie ->
  Forall Schedule.well_formed schedules ->
  In sl (Slots.getAvailableSlots schedules (Schedule.roomId d) startOfDay
                                 (Movie.duration movie)) ->
  Slots.endTime sl <= startOfDay + Slots.day ->
  Schedule.startTime d = Slots.startTime sl ->
  let s := Schedule.stamped schedules (Movie.duration movie) d in
  Schedule.create movies schedules d = Ok (s, (schedules ++ [s])%list)
  /\ Schedule.startTime s = Slots.startTime sl
  /\ Schedule.endTime s = Slots.endTime sl.
Proof.
  intros Hvalid Hmovie Hdur Hwf Hin Hend Hstart s.
  apply available_slot_iff in Hin.
  destruct Hin as (k & Hk & Hsl & Hfree).
  assert (Hs_start : Schedule.startTime s = Slots.startTime sl) by exact Hstart.
  assert (Hs_end : Schedule.endTime s = Slots.endTime sl).
  { unfold s, Schedule.stamped. simpl. rewrite Hstart, Hsl. reflexivity. }
  assert (Hs_wf : Schedule.well_formed s).
  { unfold Schedule.well_formed, s, Schedule.stamped. simpl. lia. }
  assert (Hsod : startOfDay <= Slots.startTime sl).
  { rewrite Hsl. simpl. unfold Slots.opening, Slots.step. lia. }
  assert (Hquery : forall e, In e schedules -> Schedule.overlap_query s e = false).
  { intros e He.
    destruct (Schedule.overlap_query s e) eqn:Hq; [|reflexivity].
    apply overlap_query_iff in Hq;
      [|exact Hs_wf|exact (proj1 (Forall_forall _ _) Hwf e He)].
    destruct Hq as (_ & Hroom & Hstatus & Ho1 & Ho2).
    rewrite Hs_start in Ho1. rewrite Hs_end in Ho2.
    assert (Hday : Slots.day_query (Schedule.roomId d) startOfDay e = true)
      by (apply (overlap_in_day _ _ sl); assumption).
    pose proof (Hfree e He Hday) as Hb.
    rewrite (overlap_is_busy _ _ e Ho1 Ho2) in Hb. discriminate. }
  split; [|split; assumption].
  rewrite (create_unfold movies schedules d movie Hvalid Hmovie s eq_refl).
  destruct (find (Schedule.overlap_query s) schedules) as [e|] eqn:Hfind.
  - apply find_some in Hfind. rewrite (Hquery e (proj1 Hfind)) in Hfind.
    destruct Hfind; discriminate.
  - reflexivity.
Qed.

(** *** The intervals of the showings of a room *)

(** Overlapping intervals are matched by the query of the overlap hook,
    whatever the intervals are. *)
Lemma overlap_matches_query (this e : Schedule.t) :
  Schedule._id e <> Schedule._id this ->
  Schedule.roomId e = Schedule.roomId this ->
  Schedule.status e <> Schedule.cancelled ->
  Schedule.overlaps this e ->
  Schedule.overlap_query this e = true.
Proof.
  unfold Schedule.overlaps, Schedule.overlap_query. intros Hid Hroom Hstatus [H1 H2].
  apply Nat.eqb_neq in Hid. apply is_cancelled_schedule in Hstatus.
  rewrite Hid, Hroom, Nat.eqb_refl, Hstatus. simpl.
  rewrite !orb_true_iff, !andb_true_iff, !Z.ltb_lt, !Z.leb_le, !Z.geb_le, !Z.gtb_lt.
  lia.
Qed.

Lemma schedule_findById_some (ss : list Schedule.t) (i : ObjectId) (s : Schedule.t) :
  Schedule.findById ss i = Some s -> In s ss /\ Schedule._id s = i.
Proof.
  unfold Schedule.findById. intros H. apply find_some in H.
  destruct H as [Hin Heq]. apply Nat.eqb_eq in Heq. auto.
Qed.

Lemma schedule_findById_unique (ss : list Schedule.t) (s : Schedule.t) :
  NoDup (map Schedule._id ss) -> In s ss ->
  Schedule.findById ss (Schedule._id s) = Some s.
Proof.
  unfold Schedule.findById.
  induction ss as [|e ss IH]; simpl; [tauto|].
  intros Hnd [->|Hin].
  - rewrite Nat.eqb_refl. reflexivity.
  - inversion Hnd as [|? ? Hnotin Hnd']; subst.
    destruct (Nat.eqb_spec (Schedule._id e) (Schedule._id s)) as [Heq|Hne].
    + exfalso. apply Hnotin. rewrite Heq. apply in_map, Hin.
    + apply IH; assumption.
Qed.

Lemma slots_replace_ids (s' : Schedule.t) (ss : list Schedule.t) :
  map Schedule._id (Slots.replace_by_id s' ss) = map Schedule._id ss.
Proof.
  unfold Slots.replace_by_id. rewrite map_map. apply map_ext_in.
  intros e _. destruct (Nat.eqb_spec (Schedule._id e) (Schedule._id s')); congruence.
Qed.

Lemma slots_in_replace (s' : Schedule.t) (ss : list Schedule.t) (a : Schedule.t) :
  In a (Slots.replace_by_id s' ss) ->
  (a = s' /\ exists e, In e ss /\ Schedule._id e = Schedule._id s')
  \/ (In a ss /\ Schedule._id a <> Schedule._id s').
Proof.
  unfold Slots.replace_by_id. intros H. apply in_map_iff in H.
  destruct H as (e & Heq & Hin).
  destruct (Nat.eqb_spec (Schedule._id e) (Schedule._id s')); subst; eauto.
Qed.

Lemma overlaps_sym (a b : Schedule.t) : Schedule.overlaps a b -> Schedule.overlaps b a.
Proof. unfold Schedule.overlaps. tauto. Qed.

(** Every change an operation makes keeps the intervals of a room
    disjoint. *)
Lemma slots_change_disjoint (ss ss' : list Schedule.t) :
  Slots.change ss ss' -> Slots.disjoint ss -> Slots.disjoint ss'.
Proof.
  intros Hch [Hnd Hpair].
  destruct Hch as [-> | s -> Hid Hquery | s s' Hfind -> Hsame].
  - split; assumption.
  - assert (Hfresh : forall e, In e ss -> Schedule._id e <> Schedule._id s).
    { intros e Hin Heq. apply (fresh_id_not_in (map Schedule._id ss)).
      rewrite <- Hid, <- Heq. apply in_map, Hin. }
    assert (Hnew : forall e, In e ss -> Schedule.roomId e = Schedule.roomId s ->
                             Schedule.status e <> Schedule.cancelled ->
                             ~ Schedule.overlaps s e).
    { intros e Hin Hroom Hstatus Hov.
      pose proof (Hquery e Hin) as Hq.
      rewrite (overlap_matches_query s e (Hfresh e Hin) Hroom Hstatus Hov) in Hq.
      discriminate. }
    split.
    + rewrite map_app. simpl. apply NoDup_app; [exact Hnd|repeat constructor; tauto|].
      intros i Hi [<-|[]]. rewrite Hid in Hi. exact (fresh_id_not_in _ Hi).
    + intros a b Ha Hb Hab Hroom Hsa Hsb.
      apply in_app_iff in Ha. apply in_app_iff in Hb. simpl in Ha, Hb.
      destruct Ha as [Ha|[<-|[]]], Hb as [Hb|[<-|[]]].
      * apply Hpair; assumption.
      * intros Hov. apply overlaps_sym in Hov. revert Hov. apply Hnew; assumption.
      * apply Hnew; [assumption|symmetry; assumption|assumption].
      * congruence.
  - destruct (schedule_findById_some _ _ _ Hfind) as [Hs Hsid].
    assert (Hold : forall e, In e ss -> Schedule._id e = Schedule._id s' -> e = s).
    { intros e He Heq.
      pose proof (schedule_findById_unique ss e Hnd He) as H. rewrite Heq, Hfind in H.
      congruence. }
    assert (Hkeep : forall e, In e ss -> Schedule._id e <> Schedule._id s' ->
                              Schedule.roomId s' = Schedule.roomId e ->
                              Schedule.status s' <> Schedule.cancelled ->
                              Schedule.status e <> Schedule.cancelled ->
                              ~ Schedule.overlaps s' e).
    { intros e He Hne Hroom Hs' Hse.
      destruct Hsame as [Hi Hr Hst Het Hstatus].
      destruct Hstatus as [Hstatus|Hstatus]; [|congruence].
      unfold Schedule.overlaps. rewrite Hst, Het.
      apply (Hpair s e Hs He); congruence. }
    split.
    + rewrite slots_replace_ids. exact Hnd.
    + intros a b Ha Hb Hab Hroom Hsa Hsb.
      apply slots_in_replace in Ha. apply slots_in_replace in Hb.
      destruct Ha as [[-> _]|[Ha Hai]], Hb as [[-> _]|[Hb Hbi]].
      * congruence.
      * apply Hkeep; assumption.
      * intros Hov. apply overlaps_sym in Hov. revert Hov.
        apply Hkeep; [assumption|assumption|symmetry; assumption|assumption|assumption].
      * apply Hpair; assumption.
Qed.

(** A save of a stored schedule that modifies neither its movie, its
    room nor its times is an update of the collection. *)
Lemma schedule_save_existing (modified : list Schedule.Path) (movies : list Movie.t)
      (ss ss' : list Schedule.t) (s0 s s1 : Schedule.t) :
  Schedule.isModified modified Schedule.p_startTime = false ->
  Schedule.isModified modified Schedule.p_movieId = false ->
  Schedule.findById ss (Schedule._id s) = Some s0 ->
  Slots.same_slot s0 s ->
  Schedule.save false modified movies ss s = Ok (s1, ss') ->
  Slots.change ss ss'.
Proof.
  intros H1 H2 Hfind Hsame Hsave. unfold Schedule.save in Hsave.
  apply bind_ok in Hsave. destruct Hsave as ([] & _ & Hsave).
  unfold Schedule.pre_save_endTime in Hsave. rewrite H1, H2 in Hsave. simpl in Hsave.
  apply bind_ok in Hsave. destruct Hsave as ([] & _ & Hsave).
  injection Hsave as _ <-.
  eapply Slots.ch_update; [exact Hfind|reflexivity|exact Hsame].
Qed.

Lemma schedule_create_change (movies : list Movie.t) (ss ss' : list Schedule.t)
      (d s : Schedule.t) :
  Schedule.create movies ss d = Ok (s, ss') -> Slots.change ss ss'.
Proof.
  unfold Schedule.create, Schedule.save. intros Hsave.
  apply bind_ok in Hsave. destruct Hsave as ([] & _ & Hsave).
  apply bind_ok in Hsave. destruct Hsave as (s1 & Hend & Hsave).
  apply bind_ok in Hsave. destruct Hsave as ([] & Hover & Hsave).
  injection Hsave as <- <-.
  unfold Schedule.pre_save_endTime in Hend. simpl in Hend.
  destruct (Movie.findById movies (Schedule.movieId d)); [|discriminate].
  injection Hend as <-.
  unfold Schedule.pre_save_overlap in Hover. simpl orb in Hover. cbv iota in Hover.
  destruct (find _ ss) eqn:Hfind; [discriminate|].
  eapply Slots.ch_insert; [reflexivity|reflexivity|].
  intros e He. exact (find_none _ _ Hfind e He).
Qed.

(** The recomputation of the occupancy after a change of the tickets. *)
Lemma post_save_change (movies : list Movie.t) (rooms : list Room.t)
      (tickets : list Ticket.t) (ss : list Schedule.t) (doc : Ticket.t) :
  Slots.change ss (Ticket.post_save movies rooms tickets ss doc).
Proof.
  unfold Ticket.post_save.
  destruct (Schedule.findById ss (Ticket.scheduleId doc)) as [s|] eqn:Hfind;
    [|apply Slots.ch_same; reflexivity].
  unfold Ticket.updateOccupancy.
  destruct (Ticket.room_findById rooms (Schedule.roomId s)) as [room|];
    [|apply Slots.ch_same; reflexivity].
  destruct (Schedule.save false [Schedule.p_isFull] movies ss _) as [[s1 ss1]|e] eqn:Hsave;
    [|apply Slots.ch_same; reflexivity].
  simpl.
  eapply schedule_save_existing; [| | | |exact Hsave]; try reflexivity.
  - simpl. destruct (schedule_findById_some _ _ _ Hfind) as [_ Hid].
    rewrite Hid. exact Hfind.
  - constructor; simpl; auto.
Qed.

Lemma ticket_save_schedules (isNew : bool) (modified : list Ticket.Path)
      (st st' : Ticket.Store) (x x' : Ticket.t) :
  Ticket.save isNew modified st x = Ok (x', st') ->
  Slots.change (Ticket.schedules st) (Ticket.schedules st').
Proof.
  unfold Ticket.save. intros H.
  apply bind_ok in H. destruct H as ([] & _ & H).
  injection H as _ <-. simpl. apply post_save_change.
Qed.

Lemma pre_save_ticket_schedules (statusModified : bool) (st : Ticket.Store)
      (p : Payment.t) :
  Slots.change (Ticket.schedules st)
               (Ticket.schedules (fst (Payment.pre_save_ticket statusModified st p))).
Proof.
  unfold Payment.pre_save_ticket.
  destruct statusModified; [|apply Slots.ch_same; reflexivity].
  destruct (Ticket.findById _ _) as [x|]; [|apply Slots.ch_same; reflexivity].
  destruct (negb _); [|apply Slots.ch_same; reflexivity].
  destruct (Ticket.save _ _ _ _) as [[x' st']|e] eqn:Hsave;
    [|apply Slots.ch_same; reflexivity].
  simpl. exact (ticket_save_schedules _ _ _ _ _ _ Hsave).
Qed.

(** Every request changes the schedule collection in one of the three
    ways of [Slots.change]. *)
Lemma run_schedules_change (db : Engine.DB) (op : Engine.Op) :
  Slots.change (Engine.schedules db) (Engine.schedules (Engine.run db op)).
Proof.
  unfold Engine.run.
  destruct op; simpl Engine.exec.
  - destruct (on_store_run db (Ticket.create now (Engine.store db) d))
      as [(x' & st' & Hc & ->)| ->]; [|apply Slots.ch_same; reflexivity].
    exact (ticket_save_schedules _ _ _ _ _ _ Hc).
  - destruct (Ticket.findById (Engine.tickets db) ticketId) as [x|];
      [|apply Slots.ch_same; reflexivity].
    destruct (on_store_run db (Ticket.cancel now (Engine.store db) x userId reason))
      as [(x' & st' & Hc & ->)| ->]; [|apply Slots.ch_same; reflexivity].
    unfold Ticket.cancel in Hc. destruct (Ticket.is_cancelled _); [discriminate|].
    exact (ticket_save_schedules _ _ _ _ _ _ Hc).
  - destruct (Ticket.findById (Engine.tickets db) ticketId) as [x|];
      [|apply Slots.ch_same; reflexivity].
    match goal with
    | |- context [Engine.on_store db ?r] =>
        destruct (on_store_run db r) as [(x' & st' & Hc & ->)| ->];
          [|apply Slots.ch_same; reflexivity]
    end.
    exact (ticket_save_schedules _ _ _ _ _ _ Hc).
  - destruct (Ticket.findById (Engine.tickets db) ticketId) as [x|];
      [|apply Slots.ch_same; reflexivity].
    apply post_save_change.
  - unfold Engine.on_base. simpl fst.
    match goal with
    | |- context [Payment.save ?a ?b ?c ?d ?e ?f] =>
        destruct (payment_save_base a b c d e f) as [H|H]
    end; unfold Engine.schedules, Engine.store; simpl; rewrite H;
      [apply Slots.ch_same; reflexivity|apply pre_save_ticket_schedules].
  - destruct (Payment.findById _ _) as [p0|]; [|apply Slots.ch_same; reflexivity].
    unfold Engine.on_base. simpl fst.
    match goal with
    | |- context [Payment.save ?a ?b ?c ?d ?e ?f] =>
        destruct (payment_save_base a b c d e f) as [H|H]
    end; unfold Engine.schedules, Engine.store; simpl; rewrite H;
      [apply Slots.ch_same; reflexivity|apply pre_save_ticket_schedules].
  - unfold Engine.on_base. simpl fst.
    destruct (processRefund_base now rand (Engine.base db) paymentId userId reason)
      as [H|[p H]]; unfold Engine.schedules, Engine.store; simpl; rewrite H;
      [apply Slots.ch_same; reflexivity|apply pre_save_ticket_schedules].
  - apply Slots.ch_same. reflexivity.
  - destruct (on_schedules_run db
                (Schedule.create (Ticket.movies (Engine.store db)) (Engine.schedules db) d))
      as [(s & ss' & Hc & ->)| ->]; [|apply Slots.ch_same; reflexivity].
    exact (schedule_create_change _ _ _ _ _ Hc).
  - destruct (Schedule.findById _ _) as [s0|] eqn:Hfind;
      [|apply Slots.ch_same; reflexivity].
    match goal with
    | |- context [Engine.on_schedules db ?r] =>
        destruct (on_schedules_run db r) as [(s & ss' & Hc & ->)| ->];
          [|apply Slots.ch_same; reflexivity]
    end.
    destruct (schedule_findById_some _ _ _ Hfind) as [_ Hid].
    eapply schedule_save_existing; [| | | |exact Hc]; try reflexivity.
    + simpl. rewrite Hid. exact Hfind.
    + constructor; simpl; auto.
  - destruct (Schedule.findById _ _) as [s0|] eqn:Hfind;
      [|apply Slots.ch_same; reflexivity].
    match goal with
    | |- context [Engine.on_schedules db ?r] =>
        destruct (on_schedules_run db r) as [(s & ss' & Hc & ->)| ->];
          [|apply Slots.ch_same; reflexivity]
    end.
    destruct (schedule_findById_some _ _ _ Hfind) as [_ Hid].
    eapply schedule_save_existing; [| | | |exact Hc]; try reflexivity.
    + simpl. rewrite Hid. exact Hfind.
    + constructor; simpl; auto.
  - apply Slots.ch_same. unfold Engine.schedules. rewrite on_promotions_store. reflexivity.
  - destruct (find _ _); [|apply Slots.ch_same; reflexivity].
    apply Slots.ch_same. unfold Engine.schedules. rewrite on_promotions_store. reflexivity.
Qed.

Lemma disjoint_shown (ss : list Schedule.t) (roomId : ObjectId) (t : Date) :
  Slots.disjoint ss -> (List.length (Slots.shown ss roomId t) <= 1)%nat.
Proof.
  unfold Slots.shown.
  set (f := fun s => Nat.eqb (Schedule.roomId s) roomId
                     && negb (Schedule.is_cancelled (Schedule.status s))
                     && (Schedule.startTime s <=? t) && (t <? Schedule.endTime s)).
  assert (Hf : forall s, f s = true ->
             Schedule.roomId s = roomId /\ Schedule.status s <> Schedule.cancelled
             /\ Schedule.startTime s <= t < Schedule.endTime s).
  { intros s Hs. unfold f in Hs. rewrite !andb_true_iff in Hs.
    destruct Hs as (((Hr & Hc) & H1) & H2).
    apply Nat.eqb_eq in Hr. apply negb_true_iff in Hc.
    apply is_cancelled_schedule in Hc. apply Z.leb_le in H1. apply Z.ltb_lt in H2.
    auto. }
  induction ss as [|a ss IH]; intros [Hnd Hpair]; simpl; [lia|].
  assert (Htail : Slots.disjoint ss).
  { split; [inversion Hnd; assumption|].
    intros x y Hx Hy. apply Hpair; right; assumption. }
  specialize (IH Htail).
  destruct (f a) eqn:Hfa; [|exact IH].
  destruct (filter f ss) as [|b rest] eqn:Hfilter; [simpl; lia|].
  exfalso.
  assert (Hb : In b (filter f ss)) by (rewrite Hfilter; left; reflexivity).
  apply filter_In in Hb. destruct Hb as [Hbin Hfb].
  apply Hf in Hfa. apply Hf in Hfb.
  assert (Hne : Schedule._id a <> Schedule._id b).
  { simpl in Hnd. inversion Hnd as [|? ? Hnotin _]; subst.
    intros Heq. apply Hnotin. rewrite Heq. apply in_map, Hbin. }
  apply (Hpair a b (or_introl eq_refl) (or_intror Hbin) Hne); try tauto.
  - destruct Hfa as (-> & _), Hfb as (-> & _). reflexivity.
  - unfold Schedule.overlaps. lia.
Qed.

(** X7: the showings of a room never overlap.  Whatever requests are
    served, a schedule collection in which the showings of a room that
    are not cancelled are pairwise disjoint stays so, and at every time
    at most one showing of a room is on. *)
Theorem showings_stay_disjoint (db : Engine.DB) (ops : list Engine.Op) :
  Slots.disjoint (Engine.schedules db) ->
  let db' := fold_left Engine.run ops db in
  Slots.disjoint (Engine.schedules db')
  /\ forall roomId t, (List.length (Slots.shown (Engine.schedules db') roomId t) <= 1)%nat.
Proof.
  intros Hd db'.
  assert (Hd' : Slots.disjoint (Engine.schedules db')).
  { subst db'. revert db Hd. induction ops as [|op ops IH]; intros db Hd; simpl.
    - exact Hd.
    - apply IH. exact (slots_change_disjoint _ _ (run_schedules_change db op) Hd). }
  split; [exact Hd'|]. intros roomId t. apply disjoint_shown. exact Hd'.
Qed.

(** ** The documents a request stores *)

Lemma save_existing_moved (modified : list Ticket.Path) (st st' : Ticket.Store)
      (x0 x x' : Ticket.t) :
  Ticket.findById (Ticket.tickets st) (Ticket._id x) = Some x0 ->
  Lifecycle.step x0 (Ticket.pre_save_totals false modified x) ->
  Ticket.save false modified st x = Ok (x', st') ->
  Lifecycle.moved (Ticket.tickets st) (Ticket.tickets st').
Proof.
  intros Hfind Hstep Hsave.
  apply save_inv in Hsave. destruct Hsave as (_ & Hx' & Hts).
  simpl in Hx'. subst x'.
  eapply Lifecycle.mv_update; [|exact Hstep|exact Hts].
  replace (Ticket._id (Ticket.pre_save_totals false modified x)) with (Ticket._id x);
    [exact Hfind|].
  unfold Ticket.pre_save_totals. destruct (_ || _); reflexivity.
Qed.

Lemma pre_save_ticket_moved (statusModified : bool) (st : Ticket.Store) (p : Payment.t) :
  Lifecycle.moved (Ticket.tickets st)
                  (Ticket.tickets (fst (Payment.pre_save_ticket statusModified st p))).
Proof.
  unfold Payment.pre_save_ticket.
  destruct statusModified; [|apply Lifecycle.mv_same; reflexivity].
  destruct (Ticket.findById (Ticket.tickets st) (Payment.ticketId p)) as [x|] eqn:Hfind;
    [|apply Lifecycle.mv_same; reflexivity].
  destruct (negb _); [|apply Lifecycle.mv_same; reflexivity].
  set (modified := Ticket.p_paymentStatus :: _).
  destruct (Ticket.save false modified st (Payment.propagate p x)) as [[x' st']|e] eqn:Hsave;
    [|apply Lifecycle.mv_same; reflexivity].
  simpl.
  assert (Hskip : Ticket.pre_save_totals false modified (Payment.propagate p x)
                  = Payment.propagate p x).
  { apply pre_save_totals_skip; subst modified;
      destruct (Ticket.Status_eq_dec _ _); reflexivity. }
  eapply save_existing_moved; [| |exact Hsave].
  - rewrite (Ticket.ev_id _ _ (propagate_evolves p x)).
    destruct (findById_some _ _ _ Hfind) as [_ Hx]. rewrite Hx. exact Hfind.
  - rewrite Hskip. apply Lifecycle.by_payment.
    apply save_inv in Hsave. tauto.
Qed.

(** Every request changes the ticket collection in one of the four ways
    of [Lifecycle.moved]. *)
Lemma run_moved (db : Engine.DB) (op : Engine.Op) :
  Lifecycle.moved (Engine.tickets db) (Engine.tickets (Engine.run db op)).
Proof.
  unfold Engine.run.
  destruct op; simpl Engine.exec.
  - destruct (on_store_run db (Ticket.create now (Engine.store db) d))
      as [(x' & st' & Hc & ->)| ->]; [|apply Lifecycle.mv_same; reflexivity].
    unfold Ticket.create in Hc. apply save_inv in Hc.
    destruct Hc as (_ & Hx' & Hts). subst x'.
    eapply Lifecycle.mv_insert. exact Hts.
  - destruct (Ticket.findById (Engine.tickets db) ticketId) as [x|] eqn:Hfind;
      [|apply Lifecycle.mv_same; reflexivity].
    destruct (on_store_run db (Ticket.cancel now (Engine.store db) x userId reason))
      as [(x' & st' & Hc & ->)| ->]; [|apply Lifecycle.mv_same; reflexivity].
    destruct (findById_some _ _ _ Hfind) as [_ Hx]. rewrite <- Hx in Hfind.
    unfold Ticket.cancel in Hc.
    destruct (Ticket.is_cancelled (Ticket.status x)) eqn:Hcanc; [discriminate|].
    refine (save_existing_moved _ _ _ x
              (Ticket.set_cancellation reason userId now
                 (Ticket.set_status Ticket.cancelled x)) _ Hfind _ Hc).
    rewrite pre_save_totals_skip by reflexivity.
    apply Lifecycle.by_cancel. exact Hcanc.
  - destruct (Ticket.findById (Engine.tickets db) ticketId) as [x|] eqn:Hfind;
      [|apply Lifecycle.mv_same; reflexivity].
    match goal with
    | |- context [Engine.on_store db ?r] =>
        destruct (on_store_run db r) as [(x' & st' & Hc & ->)| ->];
          [|apply Lifecycle.mv_same; reflexivity]
    end.
    destruct (findById_some _ _ _ Hfind) as [_ Hx]. rewrite <- Hx in Hfind.
    refine (save_existing_moved _ _ _ x
              (Ticket.set_items (map Ticket.Seat.cast ss) cs v x) _ Hfind _ Hc).
    apply Lifecycle.by_edit.
  - destruct (Ticket.findById (Engine.tickets db) ticketId) as [x|] eqn:Hfind;
      [|apply Lifecycle.mv_same; reflexivity].
    eapply Lifecycle.mv_filter. reflexivity.
  - unfold Engine.on_base. simpl fst.
    match goal with
    | |- context [Payment.save ?a ?b ?c ?d ?e ?f] =>
        destruct (payment_save_base a b c d e f) as [H|H]
    end; unfold Engine.tickets, Engine.store; simpl; rewrite H;
      [apply Lifecycle.mv_same; reflexivity|apply pre_save_ticket_moved].
  - destruct (Payment.findById _ _) as [p0|]; [|apply Lifecycle.mv_same; reflexivity].
    unfold Engine.on_base. simpl fst.
    match goal with
    | |- context [Payment.save ?a ?b ?c ?d ?e ?f] =>
        destruct (payment_save_base a b c d e f) as [H|H]
    end; unfold Engine.tickets, Engine.store; simpl; rewrite H;
      [apply Lifecycle.mv_same; reflexivity|apply pre_save_ticket_moved].
  - unfold Engine.on_base. simpl fst.
    destruct (processRefund_base now rand (Engine.base db) paymentId userId reason)
      as [H|[p H]]; unfold Engine.tickets, Engine.store; simpl; rewrite H;
      [apply Lifecycle.mv_same; reflexivity|apply pre_save_ticket_moved].
  - eapply Lifecycle.mv_filter. reflexivity.
  - match goal with
    | |- context [Engine.on_schedules db ?r] =>
        destruct (on_schedules_run db r) as [(s & ss & _ & ->)| ->]
    end; apply Lifecycle.mv_same; reflexivity.
  - destruct (Schedule.findById _ _); [|apply Lifecycle.mv_same; reflexivity].
    match goal with
    | |- context [Engine.on_schedules db ?r] =>
        destruct (on_schedules_run db r) as [(s' & ss & _ & ->)| ->]
    end; apply Lifecycle.mv_same; reflexivity.
  - destruct (Schedule.findById _ _); [|apply Lifecycle.mv_same; reflexivity].
    match goal with
    | |- context [Engine.on_schedules db ?r] =>
        destruct (on_schedules_run db r) as [(s' & ss & _ & ->)| ->]
    end; apply Lifecycle.mv_same; reflexivity.
  - apply Lifecycle.mv_same. unfold Engine.tickets. rewrite on_promotions_store.
    reflexivity.
  - destruct (find _ _); [|apply Lifecycle.mv_same; reflexivity].
    apply Lifecycle.mv_same. unfold Engine.tickets. rewrite on_promotions_store.
    reflexivity.
Qed.

(** A ticket that passes the validators has a payment status of the
    enumeration, which the status string of a successful payment is
    not. *)
Lemma valid_paymentStatus (x : Ticket.t) :
  Ticket.validate x = Ok tt ->
  existsb (String.eqb (Ticket.paymentStatus x)) Ticket.paymentStatus_enum = true.
Proof.
  unfold Ticket.validate. intros Hval.
  destruct (forallb _ _); [|discriminate].
  destruct (forallb _ _); [|discriminate].
  destruct (Ticket.validate_voucher _); [|discriminate].
  destruct (Qle_bool 0 (Ticket.subtotal x)); [|discriminate].
  destruct (Qle_bool 0 (Ticket.discount x)); [|discriminate].
  destruct (Qle_bool 0 (Ticket.totalAmount x)); [|discriminate].
  destruct (existsb _ _); [reflexivity|discriminate].
Qed.

Lemma propagate_paymentStatus (p : Payment.t) (x : Ticket.t) :
  Ticket.paymentStatus (Payment.propagate p x) = Payment.status_string (Payment.status p).
Proof.
  unfold Payment.propagate. destruct (_ && _), (_ && _); reflexivity.
Qed.

Lemma step_transition (x x' : Ticket.t) :
  Lifecycle.step x x' ->
  Lifecycle.transition (Ticket.status x) (Ticket.status x')
  /\ Ticket._id x' = Ticket._id x
  /\ Ticket.userId x' = Ticket.userId x
  /\ Ticket.scheduleId x' = Ticket.scheduleId x
  /\ Ticket.pendingExpiresAt x' = Ticket.pendingExpiresAt x.
Proof.
  unfold Lifecycle.transition.
  intros [reason userId now Hc | ss cs v | p Hval].
  - simpl. repeat split. right. left. reflexivity.
  - simpl. repeat split. left. reflexivity.
  - pose proof (valid_paymentStatus _ Hval) as Hps.
    rewrite propagate_paymentStatus in Hps.
    unfold Payment.propagate. destruct x as [? ? ? ? ? ? ? ? ? ? ? st ? ? ? ? ? ? ?].
    destruct (Payment.status p); simpl in Hps; try discriminate;
      destruct st; simpl; repeat split;
      first [left; reflexivity | right; right; split; reflexivity].
Qed.

(** X8: what a request does to a stored reservation.  In a collection
    whose ids are those of distinct documents, the reservation that has
    the id of a stored one after a request has the same customer,
    showing and hold expiry, and its status is the same, or cancelled, or
    refunded where it was paid; no request makes a reservation paid. *)
Theorem request_keeps_reservation (db : Engine.DB) (op : Engine.Op) (x x' : Ticket.t) :
  NoDup (map Ticket._id (Engine.tickets db)) ->
  In x (Engine.tickets db) ->
  In x' (Engine.tickets (Engine.run db op)) ->
  Ticket._id x' = Ticket._id x ->
  Lifecycle.transition (Ticket.status x) (Ticket.status x')
  /\ (Ticket.status x' = Ticket.paid -> Ticket.status x = Ticket.paid)
  /\ Ticket.userId x' = Ticket.userId x
  /\ Ticket.scheduleId x' = Ticket.scheduleId x
  /\ Ticket.pendingExpiresAt x' = Ticket.pendingExpiresAt x.
Proof.
  intros Hnd Hx Hx' Hid.
  assert (Hsame : forall y, In y (Engine.tickets db) -> Ticket._id y = Ticket._id x ->
            Lifecycle.transition (Ticket.status x) (Ticket.status y)
            /\ (Ticket.status y = Ticket.paid -> Ticket.status x = Ticket.paid)
            /\ Ticket.userId y = Ticket.userId x
            /\ Ticket.scheduleId y = Ticket.scheduleId x
            /\ Ticket.pendingExpiresAt y = Ticket.pendingExpiresAt x).
  { intros y Hy Hyid. rewrite (same_id_same_ticket _ y x Hnd Hy Hx Hyid).
    unfold Lifecycle.transition. auto 6. }
  destruct (run_moved db op) as [Heq | now d Heq | x0 x1 Hfind Hstep Heq | keep Heq];
    rewrite Heq in Hx'.
  - apply Hsame; assumption.
  - apply in_app_iff in Hx'. destruct Hx' as [Hx'|[<-|[]]].
    + apply Hsame; assumption.
    + exfalso. apply (fresh_id_not_in (map Ticket._id (Engine.tickets db))).
      simpl in Hid. rewrite Hid. apply in_map, Hx.
  - apply in_replace_by_id in Hx'. destruct Hx' as [->|[Hx' _]].
    + rewrite Hid in Hfind. rewrite (findById_unique _ x Hnd Hx) in Hfind.
      injection Hfind as <-.
      destruct (step_transition x x1 Hstep) as (Ht & _ & Hu & Hs & He).
      repeat split; try assumption.
      intros Hpaid. unfold Lifecycle.transition in Ht. rewrite Hpaid in Ht.
      destruct Ht as [Ht|[Ht|[_ Ht]]]; congruence.
    + apply Hsame; assumption.
  - apply filter_In in Hx'. apply Hsame; tauto.
Qed.


(** *** The occupancy of a showing *)

Lemma schedule_findById_replace (ss : list Schedule.t) (s this : Schedule.t) :
  Schedule.findById ss (Schedule._id this) = Some s ->
  Schedule.findById
    (map (fun e => if Nat.eqb (Schedule._id e) (Schedule._id this) then this else e) ss)
    (Schedule._id this) = Some this.
Proof.
  unfold Schedule.findById. induction ss as [|e ss IH]; simpl; [discriminate|].
  destruct (Nat.eqb (Schedule._id e) (Schedule._id this)) eqn:He; simpl.
  - rewrite Nat.eqb_refl. reflexivity.
  - rewrite He. exact IH.
Qed.

(** The seats [updateOccupancy] counts, one by one. *)
Lemma totalBookedSeats_count (tickets : list Ticket.t) (sid : ObjectId) :
  Ticket.totalBookedSeats tickets sid
  = Z.of_nat
      (List.length
         (flat_map Ticket.seats
            (filter (fun y => Nat.eqb (Ticket.scheduleId y) sid
                              && negb (Ticket.is_cancelled (Ticket.status y)))
                    tickets))).
Proof.
  unfold Ticket.totalBookedSeats, Ticket.find_booked.
  set (l := filter _ tickets).
  assert (H : forall acc,
             fold_left (fun total ticket =>
                          total + Z.of_nat (List.length (Ticket.seats ticket))) l acc
             = acc + Z.of_nat (List.length (flat_map Ticket.seats l))).
  { induction l as [|y l IH]; intros acc; simpl; [lia|].
    rewrite IH, length_app. lia. }
  rewrite H. lia.
Qed.

(** X10: the occupancy after a save.  A successful save of a ticket
    appends it to the collection when it is new and replaces the stored
    one otherwise.  When its showing and the room of the showing exist,
    the showing being valid, the showing is then stored as full exactly
    when the seats of the tickets of the showing that are stored after
    the save and are not cancelled number at least the capacity of the
    room; when the showing or the room does not exist the schedules are
    left as they were. *)
Theorem occupancy_after_save (isNew : bool) (modified : list Ticket.Path)
        (st st' : Ticket.Store) (x x' : Ticket.t) :
  Ticket.save isNew modified st x = Ok (x', st') ->
  let seats_sold :=
    flat_map Ticket.seats
      (filter (fun y => Nat.eqb (Ticket.scheduleId y) (Ticket.scheduleId x)
                        && negb (Ticket.is_cancelled (Ticket.status y)))
              (Ticket.tickets st')) in
  Ticket.tickets st'
  = (if isNew then Ticket.tickets st ++ [x']
     else Ticket.replace_by_id x' (Ticket.tickets st))%list
  /\ (forall s room,
        Schedule.findById (Ticket.schedules st) (Ticket.scheduleId x) = Some s ->
        Ticket.room_findById (Ticket.rooms st) (Schedule.roomId s) = Some room ->
        Schedule.validate s = Ok tt ->
        Schedule.findById (Ticket.schedules st') (Ticket.scheduleId x)
        = Some (Schedule.set_isFull
                  (Z.of_nat (List.length seats_sold) >=? Room.capacity room) s))
  /\ (Schedule.findById (Ticket.schedules st) (Ticket.scheduleId x) = None ->
      Ticket.schedules st' = Ticket.schedules st)
  /\ (forall s,
        Schedule.findById (Ticket.schedules st) (Ticket.scheduleId x) = Some s ->
        Ticket.room_findById (Ticket.rooms st) (Schedule.roomId s) = None ->
        Ticket.schedules st' = Ticket.schedules st).
Proof.
  intros Hsave seats_sold. subst seats_sold.
  rewrite <- totalBookedSeats_count.
  assert (Hsched : Ticket.scheduleId x' = Ticket.scheduleId x).
  { apply save_inv in Hsave. destruct Hsave as (_ & -> & _).
    unfold Ticket.pre_save_qrCode, Ticket.pre_save_totals.
    destruct isNew; simpl; [reflexivity|]. destruct (_ || _); reflexivity. }
  split.
  { apply save_inv in Hsave. exact (proj2 (proj2 Hsave)). }
  unfold Ticket.save in Hsave.
  apply bind_ok in Hsave. destruct Hsave as ([] & _ & Hsave).
  injection Hsave as Hx' <-. rewrite Hx' in *. simpl Ticket.schedules. simpl Ticket.tickets.
  unfold Ticket.post_save. rewrite Hsched.
  split; [|split].
  - intros s room Hfind Hroom Hval. rewrite Hfind.
    destruct (schedule_findById_some _ _ _ Hfind) as [_ Hid].
    unfold Ticket.updateOccupancy. rewrite Hroom, Hid.
    set (s' := Schedule.set_isFull _ s).
    unfold Schedule.save.
    replace (Schedule.validate s') with (Schedule.validate s) by reflexivity.
    rewrite Hval. simpl.
    unfold Schedule.write.
    rewrite <- Hid.
    change (Schedule._id s) with (Schedule._id s').
    apply (schedule_findById_replace _ s s'). simpl. rewrite Hid. exact Hfind.
  - intros Hnone. rewrite Hnone. reflexivity.
  - intros s Hfind Hroom. rewrite Hfind.
    unfold Ticket.updateOccupancy. rewrite Hroom. reflexivity.
Qed.

(** *** The seats of a room for a showing *)

(** X11: what [getAvailableSeats] reports.  For a showing that exists, the
    seats of the room are reported in their order, each as booked
    exactly when a ticket of the showing that is not cancelled contains
    its code, and with its stored status otherwise; for a showing that
    does not exist the call fails. *)
Theorem getAvailableSeats_spec (schedules : list Schedule.t) (tickets : list Ticket.t)
        (room : Room.t) (sid : ObjectId) :
  (forall schedule,
      Schedule.findById schedules sid = Some schedule ->
      exists view,
        Ticket.getAvailableSeats schedules tickets room sid = Ok view
        /\ map fst view = Room.seats room
        /\ forall seat v, In (seat, v) view ->
             (v = Room.booked <->
              exists x, In x tickets /\ Ticket.scheduleId x = sid
                        /\ Ticket.status x <> Ticket.cancelled
                        /\ Ticket.has_seat (Room.code seat) x = true)
             /\ (v <> Room.booked -> v = Room.view_stored (Room.status seat)))
  /\ (Schedule.findById schedules sid = None ->
      Ticket.getAvailableSeats schedules tickets room sid = Err ScheduleNotFound).
Proof.
  split.
  - intros schedule Hfind. unfold Ticket.getAvailableSeats. rewrite Hfind.
    destruct (schedule_findById_some _ _ _ Hfind) as [_ Hid]. rewrite Hid.
    set (bookedSeats := flat_map _ _).
    assert (Hbooked : forall c, existsb (String.eqb c) bookedSeats = true <->
              exists x, In x tickets /\ Ticket.scheduleId x = sid
                        /\ Ticket.status x <> Ticket.cancelled
                        /\ Ticket.has_seat c x = true).
    { intros c. rewrite existsb_exists. unfold bookedSeats. split.
      - intros (c' & Hin & Heq). apply String.eqb_eq in Heq. subst c'.
        apply in_flat_map in Hin. destruct Hin as (x & Hx & Hc).
        unfold Ticket.find_booked in Hx. apply filter_In in Hx.
        destruct Hx as [Hx Hf]. apply andb_true_iff in Hf. destruct Hf as [Hs Hl].
        apply Nat.eqb_eq in Hs. apply negb_true_iff in Hl.
        exists x. repeat split; try assumption.
        + intros Hcanc. rewrite Hcanc in Hl. discriminate.
        + unfold Ticket.has_seat. apply existsb_exists.
          apply in_map_iff in Hc. destruct Hc as (s & Hs' & Hsin).
          exists s. split; [exact Hsin|]. apply String.eqb_eq. exact Hs'.
      - intros (x & Hx & Hs & Hl & Hc). exists c. split; [|apply String.eqb_refl].
        apply in_flat_map. exists x. split.
        + unfold Ticket.find_booked. apply filter_In. split; [exact Hx|].
          rewrite Hs, Nat.eqb_refl. simpl.
          destruct (Ticket.status x); try reflexivity. congruence.
        + unfold Ticket.has_seat in Hc. apply existsb_exists in Hc.
          destruct Hc as (s & Hsin & Heq). apply String.eqb_eq in Heq.
          rewrite <- Heq. apply in_map, Hsin. }
    eexists. split; [reflexivity|]. split.
    + rewrite map_map. simpl. apply map_id.
    + intros seat v Hin. apply in_map_iff in Hin.
      destruct Hin as (seat' & Heq & _). injection Heq as -> <-.
      rewrite <- Hbooked.
      destruct (existsb (String.eqb (Room.code seat)) bookedSeats); split;
        try (split; intro; congruence); intros; congruence.
  - intros Hnone. unfold Ticket.getAvailableSeats. rewrite Hnone. reflexivity.
Qed.

(** *** Payments and the tickets they pay *)

(** X12: propagating a payment status twice is propagating it once. *)
Theorem propagation_idempotent (statusModified : bool) (st : Ticket.Store)
        (p : Payment.t) :
  fst (Payment.pre_save_ticket statusModified
         (fst (Payment.pre_save_ticket statusModified st p)) p)
  = fst (Payment.pre_save_ticket statusModified st p).
Proof.
  unfold Payment.pre_save_ticket at 2 3.
  destruct statusModified; [|reflexivity].
  destruct (Ticket.findById (Ticket.tickets st) (Payment.ticketId p)) as [x|] eqn:Hfind;
    simpl; [|unfold Payment.pre_save_ticket; rewrite Hfind; reflexivity].
  destruct (negb (String.eqb (Ticket.paymentStatus x)
                             (Payment.status_string (Payment.status p)))) eqn:Hne;
    simpl; [|unfold Payment.pre_save_ticket; rewrite Hfind, Hne; reflexivity].
  set (modified := Ticket.p_paymentStatus :: _).
  destruct (Ticket.save false modified st (Payment.propagate p x)) as [[x' st']|e] eqn:Hsave;
    simpl; [|unfold Payment.pre_save_ticket; rewrite Hfind, Hne; fold modified;
             rewrite Hsave; reflexivity].
  apply save_inv in Hsave. destruct Hsave as (_ & Hx' & Hts). simpl in Hx'.
  rewrite pre_save_totals_skip in Hx'
    by (subst modified; destruct (Ticket.Status_eq_dec _ _); reflexivity).
  assert (Hfind' : Ticket.findById (Ticket.tickets st') (Payment.ticketId p) = Some x').
  { rewrite Hts. destruct (findById_some _ _ _ Hfind) as [_ Hid].
    assert (Hid' : Ticket._id x' = Payment.ticketId p).
    { rewrite Hx', (Ticket.ev_id _ _ (propagate_evolves p x)). exact Hid. }
    rewrite <- Hid'. rewrite <- Hid' in Hfind. clear - Hfind.
    unfold Ticket.findById, Ticket.replace_by_id in *.
    induction (Ticket.tickets st) as [|e ts IH]; simpl in *; [discriminate|].
    destruct (Nat.eqb (Ticket._id e) (Ticket._id x')) eqn:He; simpl.
    - rewrite Nat.eqb_refl. reflexivity.
    - rewrite He. apply IH. exact Hfind. }
  unfold Payment.pre_save_ticket. rewrite Hfind'.
  rewrite Hx', propagate_paymentStatus, String.eqb_refl. reflexivity.
Qed.

(** *** Refunds *)

Lemma validate_status_change (x : Ticket.t) (s : Ticket.Status) (ps : string) :
  Ticket.validate x = Ok tt ->
  existsb (String.eqb ps) Ticket.paymentStatus_enum = true ->
  Ticket.validate (Ticket.set_status s (Ticket.set_paymentStatus ps x)) = Ok tt.
Proof.
  unfold Ticket.validate. simpl. intros Hval Hps.
  destruct (forallb Ticket.validate_seat (Ticket.seats x)); [|discriminate].
  destruct (forallb Ticket.validate_combo (Ticket.combos x)); [|discriminate].
  destruct (Ticket.validate_voucher (Ticket.voucher x)); [|discriminate].
  destruct (Qle_bool 0 (Ticket.subtotal x)); [|discriminate].
  destruct (Qle_bool 0 (Ticket.discount x)); [|discriminate].
  destruct (Qle_bool 0 (Ticket.totalAmount x)); [|discriminate].
  simpl in *. rewrite Hps.
  destruct ((Ticket.paymentStatus x =? "pending")%string || _); [|discriminate].
  exact Hval.
Qed.

Lemma ticket_findById_replace (ts : list Ticket.t) (x0 x : Ticket.t) :
  Ticket.findById ts (Ticket._id x) = Some x0 ->
  Ticket.findById (Ticket.replace_by_id x ts) (Ticket._id x) = Some x.
Proof.
  unfold Ticket.findById, Ticket.replace_by_id.
  induction ts as [|e ts IH]; simpl; [discriminate|].
  destruct (Nat.eqb (Ticket._id e) (Ticket._id x)) eqn:He; simpl.
  - rewrite Nat.eqb_refl. reflexivity.
  - rewrite He. exact IH.
Qed.

Lemma validate_paymentStatus_change (x : Ticket.t) (ps : string) :
  Ticket.validate x = Ok tt ->
  existsb (String.eqb ps) Ticket.paymentStatus_enum = true ->
  Ticket.validate (Ticket.set_paymentStatus ps x) = Ok tt.
Proof.
  intros Hval Hps.
  replace (Ticket.set_paymentStatus ps x)
    with (Ticket.set_status (Ticket.status x) (Ticket.set_paymentStatus ps x))
    by (destruct x; reflexivity).
  apply validate_status_change; assumption.
Qed.

Lemma payment_findById_id (payments : list Payment.t) (i : ObjectId) (p : Payment.t) :
  Payment.findById payments i = Some p -> Payment._id p = i.
Proof.
  unfold Payment.findById. intros H. apply find_some in H.
  apply Nat.eqb_eq. exact (proj2 H).
Qed.

Lemma same_transactionId_refl (p : Payment.t) : Payment.same_transactionId p p = true.
Proof.
  unfold Payment.same_transactionId.
  destruct (Payment.transactionId p); [apply String.eqb_refl|reflexivity].
Qed.

(** The update of a stored payment that keeps its transaction id is
    written. *)
Lemma payment_update_written (payments : list Payment.t) (p p' : Payment.t) :
  Payment.findById payments (Payment._id p') = Some p ->
  Payment.transactionId p' = Payment.transactionId p ->
  exists payments',
    Payment.write false payments p' = Ok payments'
    /\ Payment.findById payments' (Payment._id p') = Some p'.
Proof.
  intros Hfind Htx. unfold Payment.write, Payment.entry_changed. rewrite Hfind.
  replace (Payment.same_transactionId p p') with true.
  2:{ unfold Payment.same_transactionId. rewrite Htx. symmetry.
      destruct (Payment.transactionId p); [apply String.eqb_refl|reflexivity]. }
  simpl. eexists. split; [reflexivity|].
  clear Htx. unfold Payment.findById in *.
  induction payments as [|e ps IH]; simpl in *; [discriminate|].
  destruct (Nat.eqb (Payment._id e) (Payment._id p')) eqn:He; simpl.
  - rewrite Nat.eqb_refl. reflexivity.
  - rewrite He. apply IH. exact Hfind.
Qed.

(** X13: what a refund does.  [processRefund] fails, and changes nothing,
    for a payment that does not exist and for one that is not
    successful.  For a successful payment that passes its validator it
    answers with the payment as refunded, with the amount, the reason,
    the user and the time of the refund, and stores it.  The ticket of
    the payment, when it passes its validators and its payment status
    is not yet ['refunded'], is stored with the payment status
    ['refunded'], and as refunded when it was paid; its status is left
    as it was otherwise.  A ticket whose payment status is ['refunded']
    already is left as it is, paid or not, and a ticket that does not
    exist is logged as not found. *)
Theorem refund_reaches_ticket (now : Date) (rand : Z) (st : Payment.Store)
        (paymentId userId : ObjectId) (reason : string) :
  let o := Payment.processRefund now rand st paymentId userId reason in
  (Payment.findById (Payment.payments st) paymentId = None ->
   Payment.answer o = Err PaymentNotFound /\ Payment.after o = st)
  /\ (forall p,
        Payment.findById (Payment.payments st) paymentId = Some p ->
        Payment.status p <> Payment.success ->
        Payment.answer o = Err PaymentNotRefundable /\ Payment.after o = st)
  /\ (forall p,
        Payment.findById (Payment.payments st) paymentId = Some p ->
        Payment.status p = Payment.success ->
        Payment.validate p = Ok tt ->
        let p' := Payment.set_refundDetails
                    (Payment.mkRefund (Payment.amount p) reason userId now)
                    (Payment.set_status Payment.refunded p) in
        let tickets' := Ticket.tickets (Payment.base (Payment.after o)) in
        Payment.answer o = Ok p'
        /\ Payment.findById (Payment.payments (Payment.after o)) paymentId = Some p'
        /\ (forall x,
              Ticket.findById (Ticket.tickets (Payment.base st)) (Payment.ticketId p)
              = Some x ->
              Ticket.validate x = Ok tt ->
              Ticket.paymentStatus x <> "refunded"%string ->
              Payment.logged o = []
              /\ Ticket.findById tickets' (Payment.ticketId p)
                 = Some (if Ticket.is_paid (Ticket.status x)
                         then Ticket.set_status Ticket.refunded
                                (Ticket.set_paymentStatus "refunded" x)
                         else Ticket.set_paymentStatus "refunded" x))
        /\ (forall x,
              Ticket.findById (Ticket.tickets (Payment.base st)) (Payment.ticketId p)
              = Some x ->
              Ticket.paymentStatus x = "refunded"%string ->
              Payment.logged o = [] /\ Payment.base (Payment.after o) = Payment.base st)
        /\ (Ticket.findById (Ticket.tickets (Payment.base st)) (Payment.ticketId p) = None ->
            Payment.logged o = [TicketNotFound]
            /\ Payment.base (Payment.after o) = Payment.base st)).
Proof.
  intros o. subst o. split; [|split].
  - intros Hnone. unfold Payment.processRefund. rewrite Hnone. split; reflexivity.
  - intros p Hfind Hs. unfold Payment.processRefund. rewrite Hfind.
    destruct (Payment.status p); try (split; reflexivity). congruence.
  - intros p Hfind Hs Hvalp p' tickets'. subst tickets'.
    unfold Payment.processRefund. rewrite Hfind, Hs. simpl negb. cbv iota. fold p'.
    pose proof (payment_findById_id _ _ _ Hfind) as Hid.
    destruct (payment_update_written (Payment.payments st) p p') as (ps' & Hwrite & Hstored).
    { simpl. rewrite Hid. exact Hfind. }
    { reflexivity. }
    unfold Payment.save.
    replace (Payment.validate p') with (Payment.validate p) by reflexivity.
    rewrite Hvalp.
    change (Payment.pre_save_transactionId false now rand p') with p'.
    rewrite Hwrite.
    destruct (Payment.pre_save_ticket true (Payment.base st) p') as [base' log] eqn:Hhook.
    simpl.
    split; [reflexivity|]. split; [rewrite <- Hid; exact Hstored|].
    unfold Payment.pre_save_ticket in Hhook.
    replace (Payment.ticketId p') with (Payment.ticketId p) in Hhook by reflexivity.
    replace (Payment.status_string (Payment.status p')) with "refunded"%string in Hhook
      by reflexivity.
    split; [|split].
    + intros x Hx Hvalx Hps. rewrite Hx in Hhook.
      destruct (String.eqb_spec (Ticket.paymentStatus x) "refunded") as [Heq|_];
        [contradiction|]. simpl negb in Hhook. cbv iota in Hhook.
      set (x' := if Ticket.is_paid (Ticket.status x)
                 then Ticket.set_status Ticket.refunded
                        (Ticket.set_paymentStatus "refunded" x)
                 else Ticket.set_paymentStatus "refunded" x).
      assert (Hprop : Payment.propagate p' x = x').
      { unfold Payment.propagate, x'. simpl. destruct (Ticket.status x); reflexivity. }
      rewrite Hprop in Hhook.
      assert (Hvalx' : Ticket.validate x' = Ok tt).
      { unfold x'. destruct (Ticket.is_paid (Ticket.status x)).
        - apply validate_status_change; [exact Hvalx|reflexivity].
        - apply validate_paymentStatus_change; [exact Hvalx|reflexivity]. }
      assert (Hidx : Ticket._id x' = Ticket._id x).
      { unfold x'. destruct (Ticket.is_paid (Ticket.status x)); reflexivity. }
      match type of Hhook with
      | context [Ticket.save false ?m _ _] => set (modified := m) in Hhook
      end.
      destruct (save_succeeds false modified (Payment.base st) x' Hvalx') as [st1 Hsave].
      rewrite pre_save_totals_skip in Hsave
        by (subst modified; destruct (Ticket.Status_eq_dec _ _); reflexivity).
      simpl Ticket.pre_save_qrCode in Hsave. rewrite Hsave in Hhook.
      injection Hhook as <- <-. split; [reflexivity|].
      simpl. apply save_inv in Hsave. destruct Hsave as (_ & _ & Hts).
      rewrite Hts.
      destruct (findById_some _ _ _ Hx) as [_ Hxid].
      rewrite <- Hxid, <- Hidx.
      apply (ticket_findById_replace _ x). rewrite Hidx, Hxid. exact Hx.
    + intros x Hx Hps. rewrite Hx, Hps in Hhook. simpl in Hhook.
      injection Hhook as <- <-. split; reflexivity.
    + intros Hnone. rewrite Hnone in Hhook. injection Hhook as <- <-.
      split; reflexivity.
Qed.

(** ** More on promotions *)

(** *** The setters of the code *)

Lemma upper_char_idempotent (c : ascii) : JS.upper_char (JS.upper_char c) = JS.upper_char c.
Proof.
  destruct c as [[] [] [] [] [] [] [] []]; reflexivity.
Qed.

Lemma upper_char_space (c : ascii) : JS.is_space (JS.upper_char c) = JS.is_space c.
Proof.
  destruct c as [[] [] [] [] [] [] [] []]; reflexivity.
Qed.

Lemma toUpperCase_idempotent (s : string) :
  JS.toUpperCase (JS.toUpperCase s) = JS.toUpperCase s.
Proof.
  induction s as [|c r IH]; simpl; [reflexivity|].
  rewrite upper_char_idempotent, IH. reflexivity.
Qed.

Lemma toUpperCase_trimStart (s : string) :
  JS.toUpperCase (JS.trimStart s) = JS.trimStart (JS.toUpperCase s).
Proof.
  induction s as [|c r IH]; simpl; [reflexivity|].
  rewrite upper_char_space. destruct (JS.is_space c); [exact IH|reflexivity].
Qed.

Lemma toUpperCase_trimEnd (s : string) :
  JS.toUpperCase (JS.trimEnd s) = JS.trimEnd (JS.toUpperCase s).
Proof.
  induction s as [|c r IH]; simpl; [reflexivity|].
  rewrite <- IH, upper_char_space.
  destruct (JS.trimEnd r) as [|a b]; simpl; [|reflexivity].
  destruct (JS.is_space c); reflexivity.
Qed.

Lemma toUpperCase_trim (s : string) :
  JS.toUpperCase (JS.trim s) = JS.trim (JS.toUpperCase s).
Proof.
  unfold JS.trim. rewrite toUpperCase_trimEnd, toUpperCase_trimStart. reflexivity.
Qed.

Lemma trimStart_clean (s : string) : JS.starts_clean (JS.trimStart s).
Proof.
  induction s as [|c r IH]; simpl; [exact I|].
  destruct (JS.is_space c) eqn:Hc; [exact IH|exact Hc].
Qed.

Lemma trimStart_of_clean (s : string) : JS.starts_clean s -> JS.trimStart s = s.
Proof.
  destruct s as [|c r]; simpl; [reflexivity|]. intros ->. reflexivity.
Qed.

Lemma trimEnd_clean (s : string) : JS.starts_clean s -> JS.starts_clean (JS.trimEnd s).
Proof.
  destruct s as [|c r]; simpl; [exact (fun H => H)|]. intros Hc.
  destruct (JS.trimEnd r); [rewrite Hc|]; exact Hc.
Qed.

Lemma trimEnd_idempotent (s : string) : JS.trimEnd (JS.trimEnd s) = JS.trimEnd s.
Proof.
  induction s as [|c r IH]; simpl; [reflexivity|].
  destruct (JS.trimEnd r) as [|a b] eqn:Hr.
  - destruct (JS.is_space c) eqn:Hc; simpl; [reflexivity|]. rewrite Hc. reflexivity.
  - change (JS.trimEnd (String c (String a b)))
      with (match JS.trimEnd (String a b) with
            | EmptyString => if JS.is_space c then EmptyString else String c EmptyString
            | r' => String c r'
            end).
    rewrite IH. reflexivity.
Qed.

Lemma trim_idempotent (s : string) : JS.trim (JS.trim s) = JS.trim s.
Proof.
  unfold JS.trim.
  rewrite (trimStart_of_clean (JS.trimEnd (JS.trimStart s)))
    by (apply trimEnd_clean, trimStart_clean).
  apply trimEnd_idempotent.
Qed.

(** The query of [validateAndApply] filters the code by the code that
    was passed, trimmed and in upper case. *)
Lemma lookup_key (c : string) :
  Promotion.cast_code (JS.toUpperCase c) = Promotion.cast_code c.
Proof.
  unfold Promotion.cast_code.
  rewrite <- toUpperCase_trim, toUpperCase_idempotent. reflexivity.
Qed.

(** X14: promotion codes are looked up without regard to case and to
    white space around them.  For a code of ASCII characters,
    [validateAndApply] gives the same result for the code and for the
    code trimmed and in upper case, and the code in a successful result
    is the code that was passed, trimmed and in upper case. *)
Theorem validateAndApply_ignores_case (now : Date) (users : list User.t)
        (tickets : list Ticket.t) (promotions : list Promotion.t) (c : string)
        (userId : option ObjectId) (orderAmount : Q) (movieId : option ObjectId)
        (movieGenres : list string) :
  JS.ascii_text c = true ->
  Promotion.validateAndApply now users tickets promotions (JS.toUpperCase (JS.trim c))
                             userId orderAmount movieId movieGenres
  = Promotion.validateAndApply now users tickets promotions c
                               userId orderAmount movieId movieGenres
  /\ (forall a, Promotion.validateAndApply now users tickets promotions c
                  userId orderAmount movieId movieGenres = Ok a ->
                Promotion.a_code a = JS.toUpperCase (JS.trim c)).
Proof.
  intros _.
  unfold Promotion.validateAndApply, Promotion.lookup. split.
  - rewrite !lookup_key. unfold Promotion.cast_code.
    rewrite trim_idempotent. reflexivity.
  - intros a Hok. rewrite lookup_key in Hok.
    destruct (find _ promotions) as [p|] eqn:Hfind; [|discriminate].
    apply find_some in Hfind. destruct Hfind as [_ Hp].
    rewrite !andb_true_iff in Hp. destruct Hp as (((Hcode & _) & _) & _).
    apply String.eqb_eq in Hcode.
    destruct (check _ _); [|discriminate]. simpl in Hok.
    destruct (check _ _); [|discriminate]. simpl in Hok.
    destruct (check _ _); [|discriminate]. simpl in Hok.
    destruct (check _ _); [|discriminate]. simpl in Hok.
    injection Hok as <-. exact Hcode.
Qed.

Lemma find_none_all {A : Type} (f : A -> bool) (l : list A) :
  (forall a, In a l -> f a = false) -> find f l = None.
Proof.
  induction l as [|a l IH]; simpl; intros H; [reflexivity|].
  rewrite (H a (or_introl eq_refl)). apply IH. intros b Hb. apply H. right. exact Hb.
Qed.

(** X15: the last use switches the promotion off.  When a promotion with a
    cap greater than zero is used for the last time, the counter reaches
    the cap and the promotion is stored as inactive; from then on
    [validateAndApply] rejects every code that its query reads as the
    code of the promotion as invalid or expired, not as exhausted. *)
Theorem last_use_deactivates (promotions : list Promotion.t) (p : Promotion.t) (m : Z) :
  Promotion.maxUses p = Some m -> 0 < m ->
  Promotion.currentUses p = m - 1 ->
  Promotion.validate p = Ok tt ->
  (forall e, In e promotions -> Promotion.code e = Promotion.code p ->
             Promotion._id e = Promotion._id p) ->
  exists p' promotions',
    Promotion.incrementUsage promotions p = Ok (p', promotions')
    /\ Promotion.currentUses p' = m
    /\ Promotion.isActive p' = false
    /\ forall now users tickets c userId orderAmount movieId movieGenres,
         Promotion.cast_code (JS.toUpperCase c) = Promotion.code p ->
         Promotion.validateAndApply now users tickets promotions' c userId orderAmount
                                    movieId movieGenres
         = Err PromotionInvalidOrExpired.
Proof.
  intros Hm Hpos Huses Hval Hunique.
  unfold Promotion.incrementUsage.
  rewrite (cap_reached_positive p m Hm Hpos).
  destruct (Z.geb_spec (Promotion.currentUses p) m) as [|_]; [lia|].
  set (p1 := Promotion.set_usage (Promotion.currentUses p + 1) (Promotion.isActive p) p).
  rewrite (cap_reached_positive p1 m Hm Hpos).
  destruct (Z.geb_spec (Promotion.currentUses p1) m) as [_|Hlt];
    [|simpl in Hlt; lia].
  set (p' := Promotion.set_usage (Promotion.currentUses p1) false p1).
  assert (Hval' : Promotion.validate p' = Ok tt).
  { unfold Promotion.validate in *. simpl.
    destruct (check (Qle_bool 0 (Promotion.value p)) _); [|discriminate].
    destruct (check (Promotion.opt_nonneg (Promotion.maxDiscount p)) _); [|discriminate].
    destruct (check (Qle_bool 0 (Promotion.minOrderAmount p)) _); [|discriminate].
    destruct (check (match Promotion.maxUses p with Some m0 => 0 <=? m0 | None => true end) _);
      [|discriminate]. simpl.
    destruct (Z.leb_spec 0 (Promotion.currentUses p + 1)); [reflexivity|lia]. }
  assert (Hindex : existsb (Promotion.index_clash p') promotions = false).
  { destruct (existsb _ _) eqn:Hex; [|reflexivity].
    apply existsb_exists in Hex. destruct Hex as (e & He & Hclash).
    unfold Promotion.index_clash in Hclash. apply andb_true_iff in Hclash.
    destruct Hclash as [Hne Hcode].
    apply negb_true_iff, Nat.eqb_neq in Hne. apply String.eqb_eq in Hcode.
    exfalso. apply Hne. exact (Hunique e He Hcode). }
  unfold Promotion.save. rewrite Hval', Hindex, andb_false_r. simpl.
  eexists. eexists. split; [reflexivity|]. split; [simpl; lia|]. split; [reflexivity|].
  intros now users tickets c userId orderAmount movieId movieGenres Hc.
  unfold Promotion.validateAndApply, Promotion.lookup.
  rewrite find_none_all; [reflexivity|].
  intros e He. apply in_map_iff in He. destruct He as (e0 & Heq & He0).
  rewrite Hc.
  destruct (Nat.eqb_spec (Promotion._id e0) (Promotion._id p')) as [Hid|Hid]; subst e.
  - destruct (Nat.eqb_spec (Promotion._id e0) (Promotion._id p)) as [_|Hne];
      [|exfalso; apply Hne; exact Hid].
    simpl. destruct (Promotion.code p =? Promotion.code p)%string; reflexivity.
  - destruct (Nat.eqb_spec (Promotion._id e0) (Promotion._id p)) as [Heq|_];
      [exfalso; apply Hid; exact Heq|].
    destruct (String.eqb_spec (Promotion.code e0) (Promotion.code p)) as [Hcode|_];
      [|reflexivity].
    exfalso. apply Hid. simpl. apply Hunique; assumption.
Qed.

(** *** The cap and the movies *)

(** X18: a promotion at its cap is never applied to the order of a movie.
    When the uses of the promotion found for the code have reached its
    cap, also a cap of zero, [validateAndApply] called with a movie
    fails: the code is exhausted, the order is below the minimum, or the
    promotion does not apply to the movie. *)
Theorem used_up_never_applies_to_movie (now : Date) (users : list User.t)
        (tickets : list Ticket.t) (promotions : list Promotion.t) (c : string)
        (userId : option ObjectId) (orderAmount : Q) (movieId : ObjectId)
        (movieGenres : list string) (p : Promotion.t) (m : Z) :
  Promotion.lookup now promotions c = Some p ->
  Promotion.maxUses p = Some m ->
  m <= Promotion.currentUses p ->
  let r := Promotion.validateAndApply now users tickets promotions c userId orderAmount
                                      (Some movieId) movieGenres in
  r = Err PromotionExhausted \/ r = Err PromotionBelowMinimum
  \/ r = Err PromotionNotApplicable.
Proof.
  intros Hlookup Hm Hge r. subst r.
  unfold Promotion.validateAndApply. rewrite Hlookup.
  destruct (Promotion.cap_reached p); [left; reflexivity|]. simpl.
  destruct (JS.Qltb orderAmount (Promotion.minOrderAmount p));
    [right; left; reflexivity|]. simpl.
  assert (Hactive : Promotion.isCurrentlyActive now p = false).
  { unfold Promotion.isCurrentlyActive. rewrite Hm.
    destruct (Z.ltb_spec (Promotion.currentUses p) m); [lia|].
    apply andb_false_r. }
  unfold Promotion.isApplicableToMovie. rewrite Hactive. simpl.
  right; right; reflexivity.
Qed.

Lemma used_up_never_applies_to_movie_witness :
  let r := Promotion.validateAndApply 5 [] [] [Scenario.no_use] "NOUSE" None 1000
                                      (Some 7%nat) [] in
  r = Err PromotionExhausted \/ r = Err PromotionBelowMinimum
  \/ r = Err PromotionNotApplicable.
Proof.
  apply (used_up_never_applies_to_movie 5 [] [] [Scenario.no_use] "NOUSE" None 1000
           7%nat [] Scenario.no_use 0).
  - reflexivity.
  - reflexivity.
  - simpl. lia.
Defined.

(** ** Examples *)

Lemma room_pre_save_regenerates_witness :
  Z.of_nat (List.length (Room.seats (Room.pre_save true false Cases.room3_data))) = 9.
Proof.
  refine (proj1 (proj2 (room_pre_save_regenerates true false Cases.room3_data _ _))).
  - reflexivity.
  - simpl. lia.
Defined.

Lemma room_codes_distinct_up_to_450_witness :
  NoDup (map Room.code (Room.seats (Room.pre_save true false Cases.room3_data))).
Proof.
  refine (proj2 (room_codes_distinct_up_to_450 true false Cases.room3_data _ _)).
  - reflexivity.
  - simpl. lia.
Defined.

Lemma free_slot_is_bookable_witness :
  let s := Schedule.stamped [Scenario.evening] 90 Cases.morning in
  Schedule.create [Scenario.feature] [Scenario.evening] Cases.morning
  = Ok (s, [Scenario.evening; s])
  /\ Schedule.startTime s = Slots.startTime Cases.first_slot
  /\ Schedule.endTime s = Slots.endTime Cases.first_slot.
Proof.
  refine (free_slot_is_bookable [Scenario.feature] [Scenario.evening] Cases.morning
            Scenario.feature 0 Cases.first_slot _ _ _ _ _ _ _).
  - reflexivity.
  - reflexivity.
  - simpl. lia.
  - repeat constructor.
  - vm_compute. left. reflexivity.
  - vm_compute. discriminate.
  - reflexivity.
Defined.

Lemma showings_stay_disjoint_witness :
  (List.length
     (Slots.shown
        (Engine.schedules
           (fold_left Engine.run [Engine.createShowing Scenario.matinee] Scenario.db0))
        3 (Scenario.at_ 14 30)) <= 1)%nat.
Proof.
  refine (proj2 (showings_stay_disjoint Scenario.db0
                   [Engine.createShowing Scenario.matinee] _) 3%nat (Scenario.at_ 14 30)).
  split.
  - repeat constructor. simpl. tauto.
  - intros a b [<-|[]] [<-|[]] Hne. exfalso. apply Hne. reflexivity.
Defined.

Lemma request_keeps_reservation_witness :
  Lifecycle.transition (Ticket.status Scenario.alice_ticket)
                       (Ticket.status (fst Cases.cancelled_alice)).
Proof.
  refine (proj1 (request_keeps_reservation Scenario.db1 Cases.cancel_alice
                   Scenario.alice_ticket (fst Cases.cancelled_alice) _ _ _ _)).
  - vm_compute. repeat constructor. tauto.
  - vm_compute. left. reflexivity.
  - vm_compute. left. reflexivity.
  - reflexivity.
Defined.


Lemma occupancy_after_save_witness :
  Schedule.findById (Ticket.schedules (snd Cases.alice_saved)) 1
  = Some (Schedule.set_isFull false Scenario.evening).
Proof.
  refine (proj1 (proj2 (occupancy_after_save true [] Scenario.store0
                          (snd Cases.alice_saved) Cases.alice_request
                          (fst Cases.alice_saved) _))
            Scenario.evening Scenario.room3 _ _ _).
  - vm_compute. reflexivity.
  - reflexivity.
  - reflexivity.
  - reflexivity.
Defined.

Lemma getAvailableSeats_spec_witness :
  exists view,
    Ticket.getAvailableSeats [Scenario.evening] [Scenario.alice_ticket] Scenario.room3 1
    = Ok view
    /\ map fst view = Room.seats Scenario.room3.
Proof.
  destruct (proj1 (getAvailableSeats_spec [Scenario.evening] [Scenario.alice_ticket]
                     Scenario.room3 1%nat) Scenario.evening eq_refl)
    as (view & Hview & Hseats & _).
  exists view. split; assumption.
Defined.

Lemma refund_reaches_ticket_witness :
  let o := Payment.processRefund (Scenario.at_ 0 9) 0 (Engine.base Cases.db_charged)
                                 1 11 "rained out" in
  Payment.logged o = []
  /\ Ticket.findById (Ticket.tickets (Payment.base (Payment.after o))) 1
     = Some (Ticket.set_paymentStatus "refunded" Scenario.alice_ticket).
Proof.
  refine (proj1 (proj2 (proj2
            (proj2 (proj2 (refund_reaches_ticket (Scenario.at_ 0 9) 0
                             (Engine.base Cases.db_charged) 1%nat 11%nat "rained out"))
               Cases.charged _ _ _)))
            Scenario.alice_ticket _ _ _).
  - vm_compute. reflexivity.
  - reflexivity.
  - reflexivity.
  - vm_compute. reflexivity.
  - vm_compute. reflexivity.
  - discriminate.
Defined.

Lemma success_not_propagated_witness :
  Payment.pre_save_ticket true (Engine.store Scenario.db1) Scenario.late_success
  = (Engine.store Scenario.db1, [ValidationError "paymentStatus"]).
Proof.
  apply (success_not_propagated (Engine.store Scenario.db1) Scenario.late_success
           Scenario.alice_ticket).
  - reflexivity.
  - vm_compute. reflexivity.
  - vm_compute. reflexivity.
Defined.

Lemma positive_cap_respected_witness :
  Promotion.incrementUsage [Cases.limited 2] (Cases.limited 2) = Err PromotionLimitReached.
Proof.
  refine (proj1 (positive_cap_respected (Cases.limited 2) 2 _ _) [Cases.limited 2] _).
  - reflexivity.
  - lia.
  - simpl. lia.
Defined.

Lemma last_use_deactivates_witness :
  exists p' promotions',
    Promotion.incrementUsage [Cases.limited 1; Scenario.summer10] (Cases.limited 1)
    = Ok (p', promotions')
    /\ Promotion.currentUses p' = 2
    /\ Promotion.isActive p' = false
    /\ Promotion.validateAndApply 5 [] [] promotions' "limited" None 100000 None []
       = Err PromotionInvalidOrExpired.
Proof.
  destruct (last_use_deactivates [Cases.limited 1; Scenario.summer10] (Cases.limited 1) 2)
    as (p' & promotions' & Hinc & Huses & Hactive & Hlater).
  - reflexivity.
  - lia.
  - reflexivity.
  - reflexivity.
  - intros e [<-|[<-|[]]] Hcode; [reflexivity|]. simpl in Hcode. discriminate Hcode.
  - exists p', promotions'. repeat split; try assumption.
    apply Hlater. reflexivity.
Defined.

Lemma validateAndApply_ignores_case_witness :
  Promotion.a_code Cases.summer10_applied = "SUMMER10"%string.
Proof.
  apply (proj2 (validateAndApply_ignores_case 5 [] [] [Scenario.summer10] " summer10 "
                  None 100000 None [] eq_refl)).
  vm_compute. reflexivity.
Defined.
